(** * GenerateModuleJniCpp: the JNI C++ generator of react-native-codegen

    A shallow embedding of
    [packages/react-native-codegen/src/generators/modules/GenerateModuleJniCpp.js]
    and the properties of its translators, signature builder, method emitter
    and file assembler.

    JavaScript strings are [string]; an annotation tag stays the string the
    source switches on, so a tag outside the closed set is an ordinary value.
    A [throw] is the [Throw] constructor of [result], carrying the message.
    A JavaScript object used as a dictionary is an association list in
    creation order, enumerated the way the language enumerates own keys. *)

From Stdlib Require Import String Ascii List Bool Arith NArith.
From Stdlib Require Import DecimalString.
Import ListNotations.

Open Scope list_scope.
Open Scope string_scope.

(** ** Thrown errors *)

Inductive result (A : Type) : Type :=
| Ok (value : A)
| Throw (message : string).

Arguments Ok {A} value.
Arguments Throw {A} message.

Definition bind {A B : Type} (r : result A) (k : A -> result B) : result B :=
  match r with
  | Ok a => k a
  | Throw msg => Throw msg
  end.

Notation "'let*' x ':=' r 'in' k" := (bind r (fun x => k))
  (at level 10, x name, r at level 200, k at level 200).

(** [xs.map(f)] for an [f] that may throw: the first failure, left to right. *)
Fixpoint mapM {A B : Type} (f : A -> result B) (xs : list A) : result (list B) :=
  match xs with
  | [] => Ok []
  | x :: rest =>
      let* y := f x in
      let* ys := mapM f rest in
      Ok (y :: ys)
  end.

(** ** Characters the templates need *)

Definition dquote : string := String (ascii_of_nat 34) EmptyString.
Definition nl : string := String (ascii_of_nat 10) EmptyString.

(** [xs.join(sep)] *)
Definition join (sep : string) (xs : list string) : string := String.concat sep xs.

(** [n.toString()] for a length. *)
Definition Number_toString (n : nat) : string :=
  NilEmpty.string_of_uint (Nat.to_uint n).

(** ** The schema (the part of CodegenSchema the generator reads) *)

(** A type annotation: [type] is the tag; [name] is read for the reserved
    scalars and for alias references; [nullable] is carried by return
    annotations; [properties] is the optional property list of a structural
    object. *)
#[local] Unset Elimination Schemes.

Inductive TypeAnnotation : Type :=
  mkTypeAnnotation {
    ta_type : string;
    ta_name : string;
    ta_nullable : bool;
    ta_properties : option (list (string * TypeAnnotation))
  }.

#[local] Set Elimination Schemes.

Record FunctionTypeAnnotationParam : Type :=
  mkParam {
    p_name : string;
    p_nullable : bool;
    p_typeAnnotation : TypeAnnotation
  }.

Record FunctionTypeAnnotation : Type :=
  mkFunctionTypeAnnotation {
    params : list FunctionTypeAnnotationParam;
    returnTypeAnnotation : TypeAnnotation
  }.

Record MethodTypeShape : Type :=
  mkMethod {
    m_name : string;
    m_typeAnnotation : FunctionTypeAnnotation
  }.

(** ** JavaScript objects as dictionaries *)

Section JsObject.
Context {V : Type}.

(** Own properties in creation order. An object of the schema may hold any
    string as an own key, [__proto__] included (an object read from JSON
    does). *)
Definition JsObject : Type := list (string * V).

(** [o[k]] *)
Fixpoint get (k : string) (o : JsObject) : option V :=
  match o with
  | [] => None
  | (k', v) :: rest => if k' =? k then Some v else get k rest
  end.

(** [o[k] = v]: an existing property keeps its place, a new one goes last. *)
Fixpoint obj_set (k : string) (v : V) (o : JsObject) : JsObject :=
  match o with
  | [] => [(k, v)]
  | (k', v') :: rest =>
      if k' =? k then (k', v) :: rest else (k', v') :: obj_set k v rest
  end.

Definition created (o : JsObject) : list string := map fst o.
End JsObject.

Arguments JsObject V : clear implicits.

(** An array index is the canonical decimal form of an integer below
    2^32 - 1; own keys that are array indices are enumerated first, in
    ascending numeric order, and the other keys follow in creation order. *)
Definition digit_of (c : ascii) : option N :=
  let n := N_of_ascii c in
  if ((48 <=? n) && (n <=? 57))%N then Some (n - 48)%N else None.

Fixpoint parse_digits (acc : N) (s : string) : option N :=
  match s with
  | EmptyString => Some acc
  | String c rest =>
      match digit_of c with
      | Some d => parse_digits (acc * 10 + d)%N rest
      | None => None
      end
  end.

Definition arrayIndex (s : string) : option N :=
  match s with
  | EmptyString => None
  | String c rest =>
      if (c =? "0")%char
      then match rest with EmptyString => Some 0%N | _ => None end
      else match parse_digits 0%N s with
           | Some n => if (n <=? 4294967294)%N then Some n else None
           | None => None
           end
  end.

Definition isArrayIndex (s : string) : bool :=
  match arrayIndex s with Some _ => true | None => false end.

Fixpoint insert_index (e : N * string) (l : list (N * string)) : list (N * string) :=
  match l with
  | [] => [e]
  | e' :: rest =>
      if (fst e <=? fst e')%N then e :: l else e' :: insert_index e rest
  end.

Fixpoint index_keys (ks : list string) : list (N * string) :=
  match ks with
  | [] => []
  | k :: rest =>
      match arrayIndex k with
      | Some n => insert_index (n, k) (index_keys rest)
      | None => index_keys rest
      end
  end.

(** [Object.keys(o)] *)
Definition Object_keys {V : Type} (o : JsObject V) : list string :=
  (map snd (index_keys (created o))
     ++ filter (fun k => negb (isArrayIndex k)) (created o))%list.

(** [target[k] = v] on an object that inherits from [Object.prototype], as
    the accumulator of line 301 does. The key [__proto__] is the accessor of
    [Object.prototype]: the assignment runs its setter, which replaces the
    prototype of the target and creates no own property. The generator reads
    the accumulator through [Object.keys] and through the keys found there,
    which are own properties, so the prototype is not part of the state.
    Every other key is created or overwritten as an own property. *)
Definition assign_key {V : Type} (k : string) (v : V) (target : JsObject V)
  : JsObject V :=
  if k =? "__proto__" then target else obj_set k v target.

(** [Object.assign(target, source)]: every own key of [source], in
    enumeration order, is assigned on [target]. *)
Definition Object_assign {V : Type} (target source : JsObject V) : JsObject V :=
  fold_left
    (fun acc k => match get k source with
                  | Some v => assign_key k v acc
                  | None => acc
                  end)
    (Object_keys source) target.

Record NativeModuleShape : Type :=
  mkNativeModule {
    aliases : JsObject TypeAnnotation;
    properties : list MethodTypeShape
  }.

(** One entry of [schema.modules]; [nativeModules] may be absent. *)
Record SchemaGroup : Type :=
  mkGroup {
    nativeModules : option (JsObject NativeModuleShape)
  }.

Record SchemaType : Type :=
  mkSchema {
    modules : JsObject SchemaGroup
  }.

(** ** The translators *)

(** [getTypeAliasTypeAnnotation] is imported from [./Utils], which is not
    part of this file: the generator is read against any implementation of
    it. It is given the name an alias reference carries and the alias table
    of the module, and returns the annotation the name stands for or throws. *)
Class Utils : Type :=
  { getTypeAliasTypeAnnotation :
      string -> JsObject TypeAnnotation -> result TypeAnnotation }.

Section Generator.
Context {utils : Utils}.

Definition translateReturnTypeToKind (typeAnnotation : TypeAnnotation) : result string :=
  let type := ta_type typeAnnotation in
  if type =? "ReservedFunctionValueTypeAnnotation" then
    if ta_name typeAnnotation =? "RootTag" then Ok "NumberKind"
    else Throw ("Invalid ReservedFunctionValueTypeName name, got "
                  ++ ta_name typeAnnotation)
  else if type =? "VoidTypeAnnotation" then Ok "VoidKind"
  else if type =? "StringTypeAnnotation" then Ok "StringKind"
  else if type =? "BooleanTypeAnnotation" then Ok "BooleanKind"
  else if (type =? "NumberTypeAnnotation") || (type =? "DoubleTypeAnnotation")
          || (type =? "FloatTypeAnnotation") || (type =? "Int32TypeAnnotation")
  then Ok "NumberKind"
  else if type =? "GenericPromiseTypeAnnotation" then Ok "PromiseKind"
  else if (type =? "GenericObjectTypeAnnotation") || (type =? "ObjectTypeAnnotation")
  then Ok "ObjectKind"
  else if type =? "ArrayTypeAnnotation" then Ok "ArrayKind"
  else Throw ("Unknown prop type for returning value, found: " ++ type ++ dquote).

Definition translateParamTypeToJniType
    (param : FunctionTypeAnnotationParam) (aliases : JsObject TypeAnnotation)
  : result string :=
  let nullable := p_nullable param in
  let typeAnnotation := p_typeAnnotation param in
  let* realTypeAnnotation :=
    if ta_type typeAnnotation =? "TypeAliasTypeAnnotation"
    then getTypeAliasTypeAnnotation (ta_name typeAnnotation) aliases
    else Ok typeAnnotation in
  let type := ta_type realTypeAnnotation in
  if type =? "ReservedFunctionValueTypeAnnotation" then
    if ta_name realTypeAnnotation =? "RootTag" then Ok "D"
    else Throw ("Invalid ReservedFunctionValueTypeName name, got "
                  ++ ta_name realTypeAnnotation)
  else if type =? "VoidTypeAnnotation" then Ok "V"
  else if type =? "StringTypeAnnotation" then Ok "Ljava/lang/String;"
  else if type =? "BooleanTypeAnnotation"
  then Ok (if nullable then "Ljava/lang/Boolean" else "Z")
  else if (type =? "NumberTypeAnnotation") || (type =? "DoubleTypeAnnotation")
          || (type =? "FloatTypeAnnotation") || (type =? "Int32TypeAnnotation")
  then Ok (if nullable then "Ljava/lang/Double;" else "D")
  else if type =? "GenericPromiseTypeAnnotation"
  then Ok "Lcom/facebook/react/bridge/Promise;"
  else if (type =? "GenericObjectTypeAnnotation") || (type =? "ObjectTypeAnnotation")
  then Ok "Lcom/facebook/react/bridge/ReadableMap;"
  else if type =? "ArrayTypeAnnotation"
  then Ok "Lcom/facebook/react/bridge/ReadableArray;"
  else if type =? "FunctionTypeAnnotation"
  then Ok "Lcom/facebook/react/bridge/Callback;"
  else Throw ("Unknown prop type for method arg, found: " ++ type ++ dquote).

Definition translateReturnTypeToJniType (typeAnnotation : TypeAnnotation) : result string :=
  let nullable := ta_nullable typeAnnotation in
  let type := ta_type typeAnnotation in
  if type =? "ReservedFunctionValueTypeAnnotation" then
    if ta_name typeAnnotation =? "RootTag" then Ok "D"
    else Throw ("Invalid ReservedFunctionValueTypeName name, got "
                  ++ ta_name typeAnnotation)
  else if type =? "VoidTypeAnnotation" then Ok "V"
  else if type =? "StringTypeAnnotation" then Ok "Ljava/lang/String;"
  else if type =? "BooleanTypeAnnotation"
  then Ok (if nullable then "Ljava/lang/Boolean" else "Z")
  else if (type =? "NumberTypeAnnotation") || (type =? "DoubleTypeAnnotation")
          || (type =? "FloatTypeAnnotation") || (type =? "Int32TypeAnnotation")
  then Ok (if nullable then "Ljava/lang/Double;" else "D")
  else if type =? "GenericPromiseTypeAnnotation"
  then Ok "Lcom/facebook/react/bridge/Promise;"
  else if (type =? "GenericObjectTypeAnnotation") || (type =? "ObjectTypeAnnotation")
  then Ok "Lcom/facebook/react/bridge/WritableMap;"
  else if type =? "ArrayTypeAnnotation"
  then Ok "Lcom/facebook/react/bridge/WritableArray;"
  else Throw ("Unknown prop type for method return type, found: " ++ type ++ dquote).

(** ** The signature builder *)

Definition isPromise (typeAnnotation : TypeAnnotation) : bool :=
  ta_type typeAnnotation =? "GenericPromiseTypeAnnotation".

(** The annotation that stands for a promise return in the descriptor. *)
Definition voidReturn : TypeAnnotation :=
  mkTypeAnnotation "VoidTypeAnnotation" EmptyString false None.

(** Lines 225 to 232: the tokens of the declared parameters, then the promise
    token when the return is a promise, joined with no separator. *)
Definition argsSignature
    (property : MethodTypeShape) (aliases : JsObject TypeAnnotation) : result string :=
  let returnTypeAnnotation := returnTypeAnnotation (m_typeAnnotation property) in
  let* argsSignatureParts :=
    mapM (fun t => translateParamTypeToJniType t aliases)
         (params (m_typeAnnotation property)) in
  let* argsSignatureParts :=
    if isPromise returnTypeAnnotation
    then let* promiseArg := translateReturnTypeToJniType returnTypeAnnotation in
         Ok (argsSignatureParts ++ [promiseArg])%list
    else Ok argsSignatureParts in
  Ok (join EmptyString argsSignatureParts).

(** Lines 215 to 223: the return annotation the descriptor is built from. *)
Definition processedReturnTypeAnnotation (property : MethodTypeShape) : TypeAnnotation :=
  let returnTypeAnnotation := returnTypeAnnotation (m_typeAnnotation property) in
  if isPromise returnTypeAnnotation then voidReturn else returnTypeAnnotation.

Definition translateMethodTypeToJniSignature
    (property : MethodTypeShape) (aliases : JsObject TypeAnnotation) : result string :=
  let name := m_name property in
  let processedReturnTypeAnnotation := processedReturnTypeAnnotation property in
  let* argsSignature := argsSignature property aliases in
  let* returnSignature :=
    if name =? "getConstants"
    then Ok "Ljava/util/Map;"
    else translateReturnTypeToJniType processedReturnTypeAnnotation in
  Ok ("(" ++ argsSignature ++ ")" ++ returnSignature).

(** ** String.prototype.replace and trim *)

(** The replacement text of one match (GetSubstitution of the language
    specification) for a pattern with no capture group: [$$] is a dollar
    sign, [$&] the matched text, [$`] the text before the match, [$'] the
    text after it; every other character stands for itself. *)
Fixpoint GetSubstitution
    (matched str : string) (position : nat) (replacement : string) : string :=
  match replacement with
  | EmptyString => EmptyString
  | String c rest =>
      if (c =? "$")%char then
        match rest with
        | String d rest' =>
            if (d =? "$")%char
            then String "$" (GetSubstitution matched str position rest')
            else if (d =? "&")%char
            then matched ++ GetSubstitution matched str position rest'
            else if (d =? "`")%char
            then substring 0 position str
                   ++ GetSubstitution matched str position rest'
            else if (d =? "'")%char
            then (let tailPos := position + String.length matched in
                  substring tailPos (String.length str - tailPos) str)
                   ++ GetSubstitution matched str position rest'
            else String c (GetSubstitution matched str position rest)
        | EmptyString => String c EmptyString
        end
      else String c (GetSubstitution matched str position rest)
  end.

(** [str.replace(/pattern/g, replacement)] for a pattern of literal
    characters: the matches are found left to right in [str] and do not
    overlap; [skip] counts the characters of a match still to pass over. *)
Fixpoint replaceAll_from
    (pattern replacement str : string) (skip position : nat) (rest : string) : string :=
  match rest with
  | EmptyString => EmptyString
  | String c rest' =>
      match skip with
      | S k => replaceAll_from pattern replacement str k (S position) rest'
      | O =>
          if prefix pattern rest
          then GetSubstitution pattern str position replacement
                 ++ replaceAll_from pattern replacement str
                      (String.length pattern - 1) (S position) rest'
          else String c (replaceAll_from pattern replacement str 0 (S position) rest')
      end
  end.

Definition replaceAll (pattern replacement str : string) : string :=
  replaceAll_from pattern replacement str 0 0 str.

(** [str.replace(pattern, replacement)] for a string pattern: the first
    match only. *)
Fixpoint replaceFirst_from
    (pattern replacement str : string) (position : nat) (rest : string) : string :=
  if prefix pattern rest
  then GetSubstitution pattern str position replacement
         ++ substring (String.length pattern) (String.length rest - String.length pattern) rest
  else match rest with
       | EmptyString => EmptyString
       | String c rest' =>
           String c (replaceFirst_from pattern replacement str (S position) rest')
       end.

Definition replaceFirst (pattern replacement str : string) : string :=
  replaceFirst_from pattern replacement str 0 str.

Definition isWhiteSpace (c : ascii) : bool :=
  existsb (Nat.eqb (nat_of_ascii c)) [9; 10; 11; 12; 13; 32].

Fixpoint trimStart (s : string) : string :=
  match s with
  | EmptyString => EmptyString
  | String c rest => if isWhiteSpace c then trimStart rest else s
  end.

Fixpoint trimEnd (s : string) : string :=
  match s with
  | EmptyString => EmptyString
  | String c rest =>
      match trimEnd rest with
      | EmptyString => if isWhiteSpace c then EmptyString else String c EmptyString
      | kept => String c kept
      end
  end.

Definition trim (s : string) : string := trimEnd (trimStart s).

(** ** The templates *)

Definition propertyHeaderTemplate : string :=
  "static facebook::jsi::Value __hostFunction_Native::_MODULE_NAME_::SpecJSI_::_PROPERTY_NAME_::(facebook::jsi::Runtime& rt, TurboModule &turboModule, const facebook::jsi::Value* args, size_t count) {".

Definition propertyCastTemplate : string :=
  "static_cast<JavaTurboModule &>(turboModule).invokeJavaMethod(rt, ::_KIND_::, "
    ++ dquote ++ "::_PROPERTY_NAME_::" ++ dquote ++ ", "
    ++ dquote ++ "::_SIGNATURE_::" ++ dquote ++ ", args, count);".

Definition propertyTemplate : string :=
  nl ++ propertyHeaderTemplate ++ nl
     ++ "  return " ++ propertyCastTemplate ++ nl
     ++ "}".

Definition propertyDefTemplate : string :=
  "  methodMap_[" ++ dquote ++ "::_PROPERTY_NAME_::" ++ dquote
    ++ "] = MethodMetadata {::_ARGS_COUNT_::, __hostFunction_Native::_MODULE_NAME_::SpecJSI_::_PROPERTY_NAME_::};".

Definition moduleTemplate : string :=
  trim (nl ++ "::_TURBOMODULE_METHOD_INVOKERS_::" ++ nl
           ++ nl
           ++ "Native::_MODULE_NAME_::SpecJSI::Native::_MODULE_NAME_::SpecJSI(const JavaTurboModule::InitParams &params)" ++ nl
           ++ "  : JavaTurboModule(params) {" ++ nl
           ++ "::_PROPERTIES_MAP_::" ++ nl
           ++ "}").

Definition oneModuleLookupTemplate : string :=
  "  if (moduleName == " ++ dquote ++ "::_MODULE_NAME_::" ++ dquote ++ ") {" ++ nl
    ++ "    return std::make_shared<Native::_MODULE_NAME_::SpecJSI>(params);" ++ nl
    ++ "  }".

Definition template : string :=
  nl ++ "/**" ++ nl
     ++ " * Copyright (c) Facebook, Inc. and its affiliates." ++ nl
     ++ " *" ++ nl
     ++ " * This source code is licensed under the MIT license found in the" ++ nl
     ++ " * LICENSE file in the root directory of this source tree." ++ nl
     ++ " *" ++ nl
     ++ " * @generated by codegen project: GenerateModuleJniCpp.js" ++ nl
     ++ " */" ++ nl
     ++ nl
     ++ "#include ::_INCLUDE_::" ++ nl
     ++ nl
     ++ "namespace facebook {" ++ nl
     ++ "namespace react {" ++ nl
     ++ nl
     ++ "::_MODULES_::" ++ nl
     ++ nl
     ++ "std::shared_ptr<TurboModule> ::_LIBRARY_NAME_::_ModuleProvider(const std::string moduleName, const JavaTurboModule::InitParams &params) {" ++ nl
     ++ "::_MODULE_LOOKUP_::" ++ nl
     ++ "}" ++ nl
     ++ nl
     ++ "} // namespace react" ++ nl
     ++ "} // namespace facebook" ++ nl.

(** ** The method emitter *)

(** The reserved constants accessor whose declared return is a structural
    object with a property list of length zero (lines 261 to 264 and 319 to
    322 test the same condition). *)
Definition isEmptyGetConstants (name : string) (returnTypeAnnotation : TypeAnnotation) : bool :=
  (name =? "getConstants")
  && (ta_type returnTypeAnnotation =? "ObjectTypeAnnotation")
  && match ta_properties returnTypeAnnotation with
     | Some props => Nat.eqb (List.length props) 0
     | None => false
     end.

(** Lines 250 to 259: the names, without the first, each followed by a colon. *)
Definition translatedArguments (property : MethodTypeShape) : string :=
  let returnTypeAnnotation := returnTypeAnnotation (m_typeAnnotation property) in
  join ":"
       (skipn 1 (map p_name (params (m_typeAnnotation property))
                   ++ (if isPromise returnTypeAnnotation then ["promise"] else []))%list)
    ++ ":".

Definition translateMethodForImplementation
    (property : MethodTypeShape) (aliases : JsObject TypeAnnotation) : result string :=
  let returnTypeAnnotation := returnTypeAnnotation (m_typeAnnotation property) in
  let numberOfParams :=
    List.length (params (m_typeAnnotation property))
    + (if isPromise returnTypeAnnotation then 1 else 0) in
  let translatedArguments := translatedArguments property in
  if isEmptyGetConstants (m_name property) returnTypeAnnotation
  then Ok EmptyString
  else
    let* kind := translateReturnTypeToKind returnTypeAnnotation in
    let text := replaceAll "::_KIND_::" kind propertyTemplate in
    let text := replaceAll "::_PROPERTY_NAME_::" (m_name property) text in
    let text :=
      replaceAll "::_ARGS_::"
        (if Nat.eqb numberOfParams 0 then EmptyString
         else (if Nat.eqb numberOfParams 1 then EmptyString else ":")
                ++ translatedArguments)
        text in
    let* signature := translateMethodTypeToJniSignature property aliases in
    Ok (replaceAll "::_SIGNATURE_::" signature text).

(** Lines 315 to 326: the registration entry of one method. *)
Definition propertyDef (property : MethodTypeShape) : string :=
  let propertyName := m_name property in
  let params := params (m_typeAnnotation property) in
  let returnTypeAnnotation := returnTypeAnnotation (m_typeAnnotation property) in
  if isEmptyGetConstants propertyName returnTypeAnnotation
  then EmptyString
  else replaceAll "::_ARGS_COUNT_::" (Number_toString (List.length params))
         (replaceAll "::_PROPERTY_NAME_::" propertyName propertyDefTemplate).

(** ** The file assembler *)

(** [.filter(Boolean)] over the groups' module tables. *)
Definition filterBoolean {A : Type} (xs : list (option A)) : list A :=
  flat_map (fun x => match x with Some a => [a] | None => [] end) xs.

(** Lines 289 to 300: the module tables of the groups, in the order the
    groups are enumerated. *)
Definition groupTables (schema : SchemaType) : list (JsObject NativeModuleShape) :=
  filterBoolean
    (map (fun moduleName =>
            match get moduleName (modules schema) with
            | Some group => nativeModules group
            | None => None
            end)
         (Object_keys (modules schema))).

(** Line 301: the reduction with [Object.assign] from the empty object. *)
Definition flattenNativeModules (schema : SchemaType) : JsObject NativeModuleShape :=
  fold_left Object_assign (groupTables schema) [].

(** Lines 304 to 331: the text of one module. *)
Definition moduleText
    (nativeModules : JsObject NativeModuleShape) (name : string) : result string :=
  match get name nativeModules with
  | None => Throw "Cannot destructure property of undefined"
  | Some nativeModule =>
      let aliases := aliases nativeModule in
      let properties := properties nativeModule in
      let* thunks :=
        mapM (fun property => translateMethodForImplementation property aliases)
             properties in
      let translatedMethods := join nl thunks in
      Ok (replaceAll "::_MODULE_NAME_::" name
            (replaceFirst "::_PROPERTIES_MAP_::" (join nl (map propertyDef properties))
               (replaceAll "::_TURBOMODULE_METHOD_INVOKERS_::" translatedMethods
                  moduleTemplate)))
  end.

(** Lines 334 to 338: the body of the lookup function. *)
Definition moduleLookup (nativeModules : JsObject NativeModuleShape) : string :=
  join nl
    (map (fun name => replaceAll "::_MODULE_NAME_::" name oneModuleLookupTemplate)
         (Object_keys nativeModules)).

(** The result is the one-entry map from the file name to its text. *)
Definition generate
    (libraryName : string) (schema : SchemaType) (moduleSpecName : string)
  : result (list (string * string)) :=
  let nativeModules := flattenNativeModules schema in
  let* moduleTexts := mapM (moduleText nativeModules) (Object_keys nativeModules) in
  let modules := join nl moduleTexts in
  let moduleLookup := moduleLookup nativeModules in
  let fileName := moduleSpecName ++ "-generated.cpp" in
  let replacedTemplate :=
    replaceAll "::_INCLUDE_::" (dquote ++ moduleSpecName ++ ".h" ++ dquote)
      (replaceAll "::_MODULE_LOOKUP_::" moduleLookup
         (replaceAll "::_LIBRARY_NAME_::" libraryName
            (replaceAll "::_MODULES_::" modules template))) in
  Ok [(fileName, replacedTemplate)].

End Generator.

(** Modelled from the spec: [getTypeAliasTypeAnnotation] of [./Utils], which
    is missing from the sources. An alias reference is resolved through the
    module's alias table in one step; a name the table does not hold is a
    hard failure. The general statements below hold for every implementation;
    this one instantiates them. *)
Definition specUtils : Utils :=
  {| getTypeAliasTypeAnnotation :=
       fun name aliases =>
         match get name aliases with
         | Some typeAnnotation => Ok typeAnnotation
         | None =>
             Throw ("No type annotation found for " ++ dquote ++ name ++ dquote
                      ++ " in schema")
         end |}.

#[local] Existing Instance specUtils | 100.

(** * Vocabulary of the statements *)

(** The closed set of return tags, apart from the reserved scalars, with the
    dispatch kind of each. *)
Definition returnKinds : list (string * string) :=
  [ ("VoidTypeAnnotation", "VoidKind");
    ("StringTypeAnnotation", "StringKind");
    ("BooleanTypeAnnotation", "BooleanKind");
    ("NumberTypeAnnotation", "NumberKind");
    ("DoubleTypeAnnotation", "NumberKind");
    ("FloatTypeAnnotation", "NumberKind");
    ("Int32TypeAnnotation", "NumberKind");
    ("GenericPromiseTypeAnnotation", "PromiseKind");
    ("GenericObjectTypeAnnotation", "ObjectKind");
    ("ObjectTypeAnnotation", "ObjectKind");
    ("ArrayTypeAnnotation", "ArrayKind") ].

Definition reservedTag : string := "ReservedFunctionValueTypeAnnotation".
Definition aliasTag : string := "TypeAliasTypeAnnotation".

Definition numericTags : list string :=
  [ "NumberTypeAnnotation"; "DoubleTypeAnnotation";
    "FloatTypeAnnotation"; "Int32TypeAnnotation" ].

Definition mem (s : string) (l : list string) : bool := existsb (String.eqb s) l.

(** The type signatures of the Java Native Interface: one letter for a
    primitive type or void, [L] class-name [;] for a class, [[] before the
    element type of an array. *)
Fixpoint isClassNameEnd (s : string) : bool :=
  match s with
  | EmptyString => false
  | String c EmptyString => (c =? ";")%char
  | String c rest => negb (c =? ";")%char && isClassNameEnd rest
  end.

Fixpoint isJniTypeSignature (s : string) : bool :=
  match s with
  | EmptyString => false
  | String c rest =>
      if (c =? "[")%char then isJniTypeSignature rest
      else if (c =? "L")%char then negb (rest =? ";") && isClassNameEnd rest
      else mem s ["Z"; "B"; "C"; "S"; "I"; "J"; "F"; "D"; "V"]
  end.

Definition boxedBoolean : string := "Ljava/lang/Boolean".

(** [w] holds no occurrence of the character [p]. *)
Fixpoint noChar (p : ascii) (w : string) : bool :=
  match w with
  | EmptyString => true
  | String c rest => negb (c =? p)%char && noChar p rest
  end.

(** [pattern] occurs somewhere in [s]. *)
Fixpoint occurs (pattern s : string) : bool :=
  prefix pattern s
  || match s with
     | EmptyString => false
     | String _ rest => occurs pattern rest
     end.

Definition startsWith (c : ascii) (s : string) : bool :=
  match s with
  | EmptyString => false
  | String c' _ => (c' =? c)%char
  end.

(** The scan of [replaceAll_from], with the text put at a match left open. *)
Fixpoint replaceWith
    (emit : nat -> string) (pattern : string) (skip position : nat) (rest : string)
  : string :=
  match rest with
  | EmptyString => EmptyString
  | String c rest' =>
      match skip with
      | S k => replaceWith emit pattern k (S position) rest'
      | O =>
          if prefix pattern rest
          then emit position
                 ++ replaceWith emit pattern (String.length pattern - 1) (S position) rest'
          else String c (replaceWith emit pattern 0 (S position) rest')
      end
  end.

(** The thunk template with the dispatch kind filled in, then the method
    name, then the descriptor. *)
Definition thunkWithKind (kind : string) : string :=
  nl ++ propertyHeaderTemplate ++ nl
     ++ "  return static_cast<JavaTurboModule &>(turboModule).invokeJavaMethod(rt, "
     ++ kind ++ ", " ++ dquote ++ "::_PROPERTY_NAME_::" ++ dquote ++ ", "
     ++ dquote ++ "::_SIGNATURE_::" ++ dquote ++ ", args, count);" ++ nl
     ++ "}".

Definition thunkHeader (name : string) : string :=
  "static facebook::jsi::Value __hostFunction_Native::_MODULE_NAME_::SpecJSI_"
    ++ name
    ++ "(facebook::jsi::Runtime& rt, TurboModule &turboModule, const facebook::jsi::Value* args, size_t count) {".

Definition thunkWithName (kind name : string) : string :=
  nl ++ thunkHeader name ++ nl
     ++ "  return static_cast<JavaTurboModule &>(turboModule).invokeJavaMethod(rt, "
     ++ kind ++ ", " ++ dquote ++ name ++ dquote ++ ", "
     ++ dquote ++ "::_SIGNATURE_::" ++ dquote ++ ", args, count);" ++ nl
     ++ "}".

Definition thunkText (kind name signature : string) : string :=
  nl ++ thunkHeader name ++ nl
     ++ "  return static_cast<JavaTurboModule &>(turboModule).invokeJavaMethod(rt, "
     ++ kind ++ ", " ++ dquote ++ name ++ dquote ++ ", "
     ++ dquote ++ signature ++ dquote ++ ", args, count);" ++ nl
     ++ "}".

(** A name read as a replacement text that holds none of the patterns for
    the matched text and the text around it: a pair of dollar signs stands
    for one, every other character for itself. *)
Fixpoint dollarPairs (s : string) : string :=
  match s with
  | EmptyString => EmptyString
  | String c rest =>
      if (c =? "$")%char then
        match rest with
        | String d rest' =>
            if (d =? "$")%char
            then String "$" (dollarPairs rest')
            else String c (dollarPairs rest)
        | EmptyString => String c EmptyString
        end
      else String c (dollarPairs rest)
  end.

(** A parameter without its name. *)
Definition unnamed (param : FunctionTypeAnnotationParam) : bool * TypeAnnotation :=
  (p_nullable param, p_typeAnnotation param).

(** The keys of [l] in the order of their first occurrence. *)
Fixpoint firstSeen (l : list string) : list string :=
  match l with
  | [] => []
  | k :: rest => k :: filter (fun x => negb (x =? k)) (firstSeen rest)
  end.

(** The definition of [name] in the last of [tables] that holds one. *)
Fixpoint lastDefinition {V : Type} (name : string) (tables : list (JsObject V))
  : option V :=
  match tables with
  | [] => None
  | table :: rest =>
      match lastDefinition name rest with
      | Some definition => Some definition
      | None => get name table
      end
  end.

(** A key joins the creation order at the end, once. *)
Definition addKey (keys : list string) (k : string) : list string :=
  if mem k keys then keys else (keys ++ [k])%list.

Definition plainKeys (keys : list string) : bool :=
  forallb (fun k => negb (isArrayIndex k)) keys.

Definition plainTables {V : Type} (tables : list (JsObject V)) : bool :=
  forallb (fun table => plainKeys (created table)) tables.

(** The module names of [tables] in the order of their first occurrence,
    [__proto__] left out. *)
Definition mergedNames {V : Type} (tables : list (JsObject V)) : list string :=
  filter (fun name => negb (name =? "__proto__"))
         (firstSeen (concat (map Object_keys tables))).

(** The merged table: each of these names, in this order, with its last
    definition. *)
Definition mergedModules {V : Type} (tables : list (JsObject V)) : JsObject V :=
  flat_map (fun name => match lastDefinition name tables with
                        | Some definition => [(name, definition)]
                        | None => []
                        end)
           (mergedNames tables).

(** The text of one lookup block. *)
Definition lookupBlock (name : string) : string :=
  "  if (moduleName == " ++ dquote ++ name ++ dquote ++ ") {" ++ nl
    ++ "    return std::make_shared<Native" ++ name ++ "SpecJSI>(params);" ++ nl
    ++ "  }".

(** The tokens of the parameter translator for the tags it accepts, apart
    from the reserved scalars and the alias references. *)
Definition paramTokens (nullable : bool) : list (string * string) :=
  [ ("VoidTypeAnnotation", "V");
    ("StringTypeAnnotation", "Ljava/lang/String;");
    ("BooleanTypeAnnotation", if nullable then "Ljava/lang/Boolean" else "Z");
    ("NumberTypeAnnotation", if nullable then "Ljava/lang/Double;" else "D");
    ("DoubleTypeAnnotation", if nullable then "Ljava/lang/Double;" else "D");
    ("FloatTypeAnnotation", if nullable then "Ljava/lang/Double;" else "D");
    ("Int32TypeAnnotation", if nullable then "Ljava/lang/Double;" else "D");
    ("GenericPromiseTypeAnnotation", "Lcom/facebook/react/bridge/Promise;");
    ("GenericObjectTypeAnnotation", "Lcom/facebook/react/bridge/ReadableMap;");
    ("ObjectTypeAnnotation", "Lcom/facebook/react/bridge/ReadableMap;");
    ("ArrayTypeAnnotation", "Lcom/facebook/react/bridge/ReadableArray;");
    ("FunctionTypeAnnotation", "Lcom/facebook/react/bridge/Callback;") ].

(** The tokens of the return translator, apart from the reserved scalars. *)
Definition returnTokens (nullable : bool) : list (string * string) :=
  [ ("VoidTypeAnnotation", "V");
    ("StringTypeAnnotation", "Ljava/lang/String;");
    ("BooleanTypeAnnotation", if nullable then "Ljava/lang/Boolean" else "Z");
    ("NumberTypeAnnotation", if nullable then "Ljava/lang/Double;" else "D");
    ("DoubleTypeAnnotation", if nullable then "Ljava/lang/Double;" else "D");
    ("FloatTypeAnnotation", if nullable then "Ljava/lang/Double;" else "D");
    ("Int32TypeAnnotation", if nullable then "Ljava/lang/Double;" else "D");
    ("GenericPromiseTypeAnnotation", "Lcom/facebook/react/bridge/Promise;");
    ("GenericObjectTypeAnnotation", "Lcom/facebook/react/bridge/WritableMap;");
    ("ObjectTypeAnnotation", "Lcom/facebook/react/bridge/WritableMap;");
    ("ArrayTypeAnnotation", "Lcom/facebook/react/bridge/WritableArray;") ].

(** The tags whose token depends on the position. *)
Definition containerTags : list string :=
  [ "GenericObjectTypeAnnotation"; "ObjectTypeAnnotation"; "ArrayTypeAnnotation" ].

Definition succeeds {A : Type} (r : result A) : bool :=
  match r with
  | Ok _ => true
  | Throw _ => false
  end.

Definition promiseToken : string := "Lcom/facebook/react/bridge/Promise;".

(** The registration entry with the method name filled in, and with the
    parameter count as well. *)
Definition entryWithName (name : string) : string :=
  "  methodMap_[" ++ dquote ++ name ++ dquote
    ++ "] = MethodMetadata {::_ARGS_COUNT_::, __hostFunction_Native::_MODULE_NAME_::SpecJSI_"
    ++ name ++ "};".

Definition entryText (name count : string) : string :=
  "  methodMap_[" ++ dquote ++ name ++ dquote
    ++ "] = MethodMetadata {" ++ count
    ++ ", __hostFunction_Native::_MODULE_NAME_::SpecJSI_" ++ name ++ "};".

(** The file template with its four placeholders filled by the given texts. *)
Definition skeleton (include modulesText libraryName lookup : string) : string :=
  nl ++ "/**" ++ nl
     ++ " * Copyright (c) Facebook, Inc. and its affiliates." ++ nl
     ++ " *" ++ nl
     ++ " * This source code is licensed under the MIT license found in the" ++ nl
     ++ " * LICENSE file in the root directory of this source tree." ++ nl
     ++ " *" ++ nl
     ++ " * @generated by codegen project: GenerateModuleJniCpp.js" ++ nl
     ++ " */" ++ nl
     ++ nl
     ++ "#include " ++ include ++ nl
     ++ nl
     ++ "namespace facebook {" ++ nl
     ++ "namespace react {" ++ nl
     ++ nl
     ++ modulesText ++ nl
     ++ nl
     ++ "std::shared_ptr<TurboModule> " ++ libraryName
     ++ "_ModuleProvider(const std::string moduleName, const JavaTurboModule::InitParams &params) {" ++ nl
     ++ lookup ++ nl
     ++ "}" ++ nl
     ++ nl
     ++ "} // namespace react" ++ nl
     ++ "} // namespace facebook" ++ nl.

(** The scan of [replaceAll_from] for a replacement that stands for itself,
    and the scan of [replaceFirst_from] likewise. *)
Fixpoint replacePlain (pattern replacement : string) (skip : nat) (rest : string)
  : string :=
  match rest with
  | EmptyString => EmptyString
  | String c rest' =>
      match skip with
      | S k => replacePlain pattern replacement k rest'
      | O =>
          if prefix pattern rest
          then replacement
                 ++ replacePlain pattern replacement (String.length pattern - 1) rest'
          else String c (replacePlain pattern replacement 0 rest')
      end
  end.

Fixpoint replaceFirstPlain (pattern replacement rest : string) : string :=
  if prefix pattern rest
  then replacement
         ++ substring (String.length pattern) (String.length rest - String.length pattern) rest
  else match rest with
       | EmptyString => EmptyString
       | String c rest' => String c (replaceFirstPlain pattern replacement rest')
       end.

(** What the emitter puts into the thunk of a method: nothing for a skipped
    method, else the dispatch kind, the method name and the descriptor. *)
Definition thunkParts {U : Utils}
    (property : MethodTypeShape) (aliases : JsObject TypeAnnotation)
  : result (option (string * string * string)) :=
  if isEmptyGetConstants (m_name property)
       (returnTypeAnnotation (m_typeAnnotation property))
  then Ok None
  else
    let* kind := translateReturnTypeToKind
                   (returnTypeAnnotation (m_typeAnnotation property)) in
    let* signature := translateMethodTypeToJniSignature property aliases in
    Ok (Some (kind, m_name property, signature)).

(** What goes into the registration entry: nothing for a skipped method,
    else the method name and the number of declared parameters. *)
Definition entryParts (property : MethodTypeShape) : option (string * string) :=
  if isEmptyGetConstants (m_name property)
       (returnTypeAnnotation (m_typeAnnotation property))
  then None
  else Some (m_name property,
             Number_toString (List.length (params (m_typeAnnotation property)))).

(** The thunk and the entry before the module name is filled in. *)
Definition sourceThunk (parts : option (string * string * string)) : string :=
  match parts with
  | None => EmptyString
  | Some (kind, name, signature) => thunkText kind name signature
  end.

Definition sourceEntry (parts : option (string * string)) : string :=
  match parts with
  | None => EmptyString
  | Some (name, count) => entryText name count
  end.

(** The thunk and the entry as they stand in the file. *)
Definition finalThunk (moduleName kind name signature : string) : string :=
  nl ++ "static facebook::jsi::Value __hostFunction_Native" ++ moduleName ++ "SpecJSI_"
     ++ name
     ++ "(facebook::jsi::Runtime& rt, TurboModule &turboModule, const facebook::jsi::Value* args, size_t count) {"
     ++ nl
     ++ "  return static_cast<JavaTurboModule &>(turboModule).invokeJavaMethod(rt, "
     ++ kind ++ ", " ++ dquote ++ name ++ dquote ++ ", "
     ++ dquote ++ signature ++ dquote ++ ", args, count);" ++ nl
     ++ "}".

Definition finalEntry (moduleName name count : string) : string :=
  "  methodMap_[" ++ dquote ++ name ++ dquote
    ++ "] = MethodMetadata {" ++ count
    ++ ", __hostFunction_Native" ++ moduleName ++ "SpecJSI_" ++ name ++ "};".

Definition finalThunkOf (moduleName : string) (parts : option (string * string * string))
  : string :=
  match parts with
  | None => EmptyString
  | Some (kind, name, signature) => finalThunk moduleName kind name signature
  end.

Definition finalEntryOf (moduleName : string) (parts : option (string * string)) : string :=
  match parts with
  | None => EmptyString
  | Some (name, count) => finalEntry moduleName name count
  end.

(** The module template with the thunks filled in, then the entries, then
    the module name. *)
Definition classWithThunks (thunks : string) : string :=
  thunks ++ nl
    ++ nl
    ++ "Native::_MODULE_NAME_::SpecJSI::Native::_MODULE_NAME_::SpecJSI(const JavaTurboModule::InitParams &params)" ++ nl
    ++ "  : JavaTurboModule(params) {" ++ nl
    ++ "::_PROPERTIES_MAP_::" ++ nl
    ++ "}".

Definition classWithEntries (thunks entries : string) : string :=
  thunks ++ nl
    ++ nl
    ++ "Native::_MODULE_NAME_::SpecJSI::Native::_MODULE_NAME_::SpecJSI(const JavaTurboModule::InitParams &params)" ++ nl
    ++ "  : JavaTurboModule(params) {" ++ nl
    ++ entries ++ nl
    ++ "}".

Definition classText (moduleName thunks entries : string) : string :=
  thunks ++ nl
    ++ nl
    ++ "Native" ++ moduleName ++ "SpecJSI::Native" ++ moduleName
    ++ "SpecJSI(const JavaTurboModule::InitParams &params)" ++ nl
    ++ "  : JavaTurboModule(params) {" ++ nl
    ++ entries ++ nl
    ++ "}".

(** A name that holds no colon and no dollar sign. *)
Definition plainName (name : string) : bool := noChar ":" name && noChar "$" name.

Definition cleanThunk (c : ascii) (parts : option (string * string * string)) : bool :=
  match parts with
  | None => true
  | Some (kind, name, signature) => noChar c kind && noChar c name && noChar c signature
  end.

Definition cleanEntry (c : ascii) (parts : option (string * string)) : bool :=
  match parts with
  | None => true
  | Some (name, count) => noChar c name && noChar c count
  end.

(** A text through which the scan for a placeholder passes unchanged,
    whatever follows it: every placeholder starts with two colons and an
    underscore. *)
Definition inert (t : string) : Prop :=
  forall q replacement rest,
    replacePlain (String ":" (String ":" (String "_" q))) replacement 0 (t ++ rest)
    = t ++ replacePlain (String ":" (String ":" (String "_" q))) replacement 0 rest.

(** Every module name of the table and every method name in it is plain. *)
Definition plainModules (nativeModules : JsObject NativeModuleShape) : bool :=
  forallb
    (fun name =>
       plainName name
       && match get name nativeModules with
          | Some nativeModule =>
              forallb (fun property => plainName (m_name property))
                      (properties nativeModule)
          | None => true
          end)
    (Object_keys nativeModules).

(** * Sample schemas *)

Definition booleanAnnotation (nullable : bool) : TypeAnnotation :=
  mkTypeAnnotation "BooleanTypeAnnotation" EmptyString nullable None.

Definition numberAnnotation (nullable : bool) : TypeAnnotation :=
  mkTypeAnnotation "NumberTypeAnnotation" EmptyString nullable None.

Definition flagAliases : JsObject TypeAnnotation :=
  [("Flag", booleanAnnotation false)].

Definition flagReference : TypeAnnotation :=
  mkTypeAnnotation aliasTag "Flag" false None.

Definition fetchMethod : MethodTypeShape :=
  mkMethod "fetch"
    (mkFunctionTypeAnnotation
       [mkParam "url" false (mkTypeAnnotation "StringTypeAnnotation" EmptyString false None)]
       (mkTypeAnnotation "GenericPromiseTypeAnnotation" EmptyString false None)).

(** A constants accessor declared with a return annotation that no
    translator accepts, and an ordinary method returning an array. *)
Definition getConstantsOddReturn : MethodTypeShape :=
  mkMethod "getConstants"
    (mkFunctionTypeAnnotation [] (mkTypeAnnotation "AnyTypeAnnotation" EmptyString false None)).

Definition listMethod : MethodTypeShape :=
  mkMethod "list"
    (mkFunctionTypeAnnotation
       [mkParam "limit" true (numberAnnotation false)]
       (mkTypeAnnotation "ArrayTypeAnnotation" EmptyString false None)).

Definition objectAnnotation (props : list (string * TypeAnnotation)) : TypeAnnotation :=
  mkTypeAnnotation "ObjectTypeAnnotation" EmptyString false (Some props).

Definition setFlagMethod : MethodTypeShape :=
  mkMethod "setFlag"
    (mkFunctionTypeAnnotation
       [mkParam "flag" true (booleanAnnotation false)]
       (mkTypeAnnotation "VoidTypeAnnotation" EmptyString false None)).

Definition getConstantsEmpty : MethodTypeShape :=
  mkMethod "getConstants" (mkFunctionTypeAnnotation [] (objectAnnotation [])).


Definition saveMethod : MethodTypeShape :=
  mkMethod "save"
    (mkFunctionTypeAnnotation
       [ mkParam "key" false (mkTypeAnnotation "StringTypeAnnotation" EmptyString false None);
         mkParam "payload" false (objectAnnotation []) ]
       (mkTypeAnnotation "GenericPromiseTypeAnnotation" EmptyString false None)).

(** Two groups that both define Calc. *)
Definition calcEarlier : NativeModuleShape := mkNativeModule [] [].
Definition calcLater : NativeModuleShape := mkNativeModule [] [fetchMethod].
Definition logModule : NativeModuleShape := mkNativeModule [] [listMethod].

Definition firstTable : JsObject NativeModuleShape :=
  [("Calc", calcEarlier); ("Log", logModule)].

Definition secondTable : JsObject NativeModuleShape :=
  [("Store", mkNativeModule [] [saveMethod]); ("Calc", calcLater)].

Definition twoGroups : SchemaType :=
  mkSchema [ ("NativeFirst", mkGroup (Some firstTable));
             ("NativeViews", mkGroup None);
             ("NativeSecond", mkGroup (Some secondTable)) ].

(** Two groups, the second of which names its module with an array index. *)
Definition indexNamed : SchemaType :=
  mkSchema [ ("NativeSettings", mkGroup (Some [("Settings", calcEarlier)]));
             ("Native2048", mkGroup (Some [("2048", calcEarlier)])) ].

Definition addMethod : MethodTypeShape :=
  mkMethod "add"
    (mkFunctionTypeAnnotation
       [ mkParam "a" false (numberAnnotation false);
         mkParam "b" false (numberAnnotation false) ]
       (numberAnnotation false)).

Definition calcSchema : SchemaType :=
  mkSchema [("NativeCalc", mkGroup (Some [("Calc", mkNativeModule [] [addMethod])]))].

(** The file generated for [calcSchema]. *)
Definition calcFile : string :=
  nl ++ "/**" ++ nl
     ++ " * Copyright (c) Facebook, Inc. and its affiliates." ++ nl
     ++ " *" ++ nl
     ++ " * This source code is licensed under the MIT license found in the" ++ nl
     ++ " * LICENSE file in the root directory of this source tree." ++ nl
     ++ " *" ++ nl
     ++ " * @generated by codegen project: GenerateModuleJniCpp.js" ++ nl
     ++ " */" ++ nl
     ++ nl
     ++ "#include " ++ dquote ++ "SampleSpec.h" ++ dquote ++ nl
     ++ nl
     ++ "namespace facebook {" ++ nl
     ++ "namespace react {" ++ nl
     ++ nl
     ++ nl
     ++ "static facebook::jsi::Value __hostFunction_NativeCalcSpecJSI_add(facebook::jsi::Runtime& rt, TurboModule &turboModule, const facebook::jsi::Value* args, size_t count) {" ++ nl
     ++ "  return static_cast<JavaTurboModule &>(turboModule).invokeJavaMethod(rt, NumberKind, "
     ++ dquote ++ "add" ++ dquote ++ ", " ++ dquote ++ "(DD)D" ++ dquote
     ++ ", args, count);" ++ nl
     ++ "}" ++ nl
     ++ nl
     ++ "NativeCalcSpecJSI::NativeCalcSpecJSI(const JavaTurboModule::InitParams &params)" ++ nl
     ++ "  : JavaTurboModule(params) {" ++ nl
     ++ "  methodMap_[" ++ dquote ++ "add" ++ dquote
     ++ "] = MethodMetadata {2, __hostFunction_NativeCalcSpecJSI_add};" ++ nl
     ++ "}" ++ nl
     ++ nl
     ++ "std::shared_ptr<TurboModule> Sample_ModuleProvider(const std::string moduleName, const JavaTurboModule::InitParams &params) {" ++ nl
     ++ lookupBlock "Calc" ++ nl
     ++ "}" ++ nl
     ++ nl
     ++ "} // namespace react" ++ nl
     ++ "} // namespace facebook" ++ nl.

Definition callbackParam : FunctionTypeAnnotationParam :=
  mkParam "onDone" true (mkTypeAnnotation "FunctionTypeAnnotation" EmptyString false None).

Definition anyParam : FunctionTypeAnnotationParam :=
  mkParam "value" false (mkTypeAnnotation "AnyTypeAnnotation" EmptyString false None).

(** An alias table in which one name stands for another alias reference. *)
Definition chainedAliases : JsObject TypeAnnotation :=
  [ ("Outer", mkTypeAnnotation aliasTag "Flag" false None);
    ("Flag", booleanAnnotation false) ].

(** A method whose second parameter and whose return annotation both carry
    a tag that no translator accepts, and the same method returning a
    number. *)
Definition oddMethod : MethodTypeShape :=
  mkMethod "probe"
    (mkFunctionTypeAnnotation
       [ mkParam "depth" false (numberAnnotation false); anyParam; callbackParam ]
       (mkTypeAnnotation "AnyTypeAnnotation" EmptyString false None)).

Definition oddParamMethod : MethodTypeShape :=
  mkMethod "probe"
    (mkFunctionTypeAnnotation
       [ mkParam "depth" false (numberAnnotation false); anyParam; callbackParam ]
       (numberAnnotation false)).

(** A module with a skipped constants accessor between two methods. *)
Definition storeModule : NativeModuleShape :=
  mkNativeModule [] [saveMethod; getConstantsEmpty; listMethod].

Definition storeTable : JsObject NativeModuleShape := [("Store", storeModule)].

(** A group that defines Calc and a module named [__proto__], whose one
    method no translator accepts. *)
Definition protoSchema : SchemaType :=
  mkSchema
    [("NativeCalc",
      mkGroup (Some [ ("Calc", mkNativeModule [] [addMethod]);
                      ("__proto__", mkNativeModule [] [oddMethod]) ]))].

(** A method whose name, read as a replacement text, spells the placeholder
    of the argument-name list around the matched text. *)
Definition spelledMethod : MethodTypeShape :=
  mkMethod "$&_ARGS_$&"
    (mkFunctionTypeAnnotation
       [ mkParam "width" false (numberAnnotation false);
         mkParam "height" false (numberAnnotation false) ]
       (numberAnnotation false)).

(** A module and a method whose names hold a pair of dollar signs. *)
Definition pricedMethod : MethodTypeShape :=
  mkMethod "get$$Price" (mkFunctionTypeAnnotation [] (numberAnnotation false)).

Definition pricedSchema : SchemaType :=
  mkSchema
    [("NativeShop", mkGroup (Some [("Shop$$Api", mkNativeModule [] [pricedMethod])]))].

(** * Properties *)

(** ** Tags *)

#[local] Arguments String.eqb !s1 !s2 : simpl nomatch.

(** Splits on every comparison of a tag left in the goal. *)
Ltac split_tags :=
  repeat match goal with
         | |- context [String.eqb ?a ?b] =>
             destruct (String.eqb_spec a b); subst; simpl in *;
             try discriminate; try congruence
         end.

(** C2: the kind translator maps the reserved RootTag scalar and every
    numeric tag to NumberKind, void to VoidKind, string to StringKind,
    boolean to BooleanKind, promise to PromiseKind, both object tags to
    ObjectKind and array to ArrayKind; for every tag outside the closed set
    (an alias reference included) it throws an error whose message ends with
    that tag. *)
Theorem translateReturnTypeToKind_closed_set :
  (forall nullable props,
      translateReturnTypeToKind (mkTypeAnnotation reservedTag "RootTag" nullable props)
      = Ok "NumberKind")
  /\ (forall a kind,
         get (ta_type a) returnKinds = Some kind ->
         translateReturnTypeToKind a = Ok kind)
  /\ (forall a,
         ta_type a <> reservedTag ->
         get (ta_type a) returnKinds = None ->
         translateReturnTypeToKind a
         = Throw ("Unknown prop type for returning value, found: "
                    ++ ta_type a ++ dquote)).
Proof.
  split; [reflexivity | split].
  - intros [type name nullable props] kind; simpl.
    unfold translateReturnTypeToKind; simpl.
    split_tags.
  - intros [type name nullable props]; unfold reservedTag; simpl.
    unfold translateReturnTypeToKind; simpl.
    intros Hres.
    split_tags.
Qed.

Lemma translateReturnTypeToKind_closed_set_witness :
  translateReturnTypeToKind (mkTypeAnnotation "Int32TypeAnnotation" EmptyString true None)
  = Ok "NumberKind"
  /\ translateReturnTypeToKind (mkTypeAnnotation aliasTag "Options" false None)
     = Throw ("Unknown prop type for returning value, found: TypeAliasTypeAnnotation"
                ++ dquote).
Proof.
  destruct translateReturnTypeToKind_closed_set as [_ [Hin Hout]].
  split.
  - apply Hin; reflexivity.
  - apply (Hout (mkTypeAnnotation aliasTag "Options" false None)).
    + discriminate.
    + reflexivity.
Defined.

(** ** ABI tokens *)

Ltac open_param p :=
  let name := fresh "name" in
  let nullable := fresh "nullable" in
  let type := fresh "type" in
  let aname := fresh "aname" in
  let anull := fresh "anull" in
  let props := fresh "props" in
  destruct p as [name nullable [type aname anull props]]; simpl in *.

(** Every token of the parameter translator other than the one of a nullable
    boolean is a type signature. *)
Lemma translateParamTypeToJniType_signature {U : Utils} param aliases token :
  translateParamTypeToJniType param aliases = Ok token ->
  token = boxedBoolean \/ isJniTypeSignature token = true.
Proof.
  open_param param.
  unfold translateParamTypeToJniType; simpl.
  destruct (type =? "TypeAliasTypeAnnotation").
  - destruct (getTypeAliasTypeAnnotation aname aliases)
      as [[rtype rname rnull rprops] | ]; simpl; [ | discriminate ].
    split_tags; intros H; injection H as <-; auto; destruct nullable; auto.
  - simpl. split_tags; intros H; injection H as <-; auto; destruct nullable; auto.
Qed.

(** The same for the return translator. *)
Lemma translateReturnTypeToJniType_signature a token :
  translateReturnTypeToJniType a = Ok token ->
  token = boxedBoolean \/ isJniTypeSignature token = true.
Proof.
  destruct a as [type name nullable props].
  unfold translateReturnTypeToJniType; simpl.
  split_tags; intros H; injection H as <-; auto; destruct nullable; auto.
Qed.

(** Numeric and boolean annotations: the two nullabilities never share a
    token, in either position. *)
Lemma nullable_token_differs {U : Utils} type name props pname aliases :
  mem type ("BooleanTypeAnnotation" :: numericTags) = true ->
  translateParamTypeToJniType
    (mkParam pname true (mkTypeAnnotation type name false props)) aliases
  <> translateParamTypeToJniType
       (mkParam pname false (mkTypeAnnotation type name false props)) aliases
  /\ translateReturnTypeToJniType (mkTypeAnnotation type name true props)
     <> translateReturnTypeToJniType (mkTypeAnnotation type name false props).
Proof.
  unfold mem, numericTags, translateParamTypeToJniType, translateReturnTypeToJniType;
    simpl.
  split_tags; intros _; split; discriminate.
Qed.

(** C3: the token of a nullable boolean, in parameter and in return position,
    is [Ljava/lang/Boolean] with no closing semicolon, which is no type
    signature, and the descriptor of a method that takes one is
    [(Ljava/lang/Boolean)V]; the nullable numeric token beside it is
    [Ljava/lang/Double;], which is a type signature. *)
Theorem nullable_boolean_token_unterminated {U : Utils} :
  translateParamTypeToJniType (mkParam "flag" true (booleanAnnotation false)) []
  = Ok "Ljava/lang/Boolean"
  /\ translateReturnTypeToJniType (booleanAnnotation true) = Ok "Ljava/lang/Boolean"
  /\ isJniTypeSignature "Ljava/lang/Boolean" = false
  /\ translateMethodTypeToJniSignature setFlagMethod [] = Ok "(Ljava/lang/Boolean)V"
  /\ translateParamTypeToJniType (mkParam "count" true (numberAnnotation false)) []
     = Ok "Ljava/lang/Double;"
  /\ isJniTypeSignature "Ljava/lang/Double;" = true.
Proof. repeat split. Qed.

(** ** Alias references *)

(** C7: a nullable parameter whose annotation is an alias reference that
    resolves to a boolean annotation gets the token of a nullable parameter
    with an inline boolean annotation. *)
Theorem alias_boolean_as_inline {U : Utils} param aliases resolved inlineName inline :
  ta_type (p_typeAnnotation param) = aliasTag ->
  p_nullable param = true ->
  getTypeAliasTypeAnnotation (ta_name (p_typeAnnotation param)) aliases = Ok resolved ->
  ta_type resolved = "BooleanTypeAnnotation" ->
  ta_type inline = "BooleanTypeAnnotation" ->
  translateParamTypeToJniType param aliases
  = translateParamTypeToJniType (mkParam inlineName true inline) aliases
  /\ translateParamTypeToJniType param aliases = Ok boxedBoolean.
Proof.
  open_param param.
  destruct resolved as [rtype rname rnull rprops];
    destruct inline as [itype iname inull iprops]; simpl.
  intros -> -> Hresolved -> ->.
  unfold translateParamTypeToJniType; simpl.
  rewrite Hresolved; split; reflexivity.
Qed.

Lemma alias_boolean_as_inline_witness :
  translateParamTypeToJniType (mkParam "enabled" true flagReference) flagAliases
  = translateParamTypeToJniType (mkParam "enabled" true (booleanAnnotation false))
      flagAliases
  /\ translateParamTypeToJniType (mkParam "enabled" true flagReference) flagAliases
     = Ok boxedBoolean.
Proof.
  apply (alias_boolean_as_inline
           (mkParam "enabled" true flagReference) flagAliases
           (booleanAnnotation false) "enabled" (booleanAnnotation false));
    reflexivity.
Defined.

(** C6, as the code has it: in parameter position an alias reference that
    resolves to an annotation that is no alias reference gets the token of
    that annotation under the parameter's own nullability, and a failure to
    resolve it is the failure of the translator; in return position an alias
    reference is never resolved and fails with its tag. *)
Theorem alias_resolved_in_parameter_position_only {U : Utils} param aliases :
  ta_type (p_typeAnnotation param) = aliasTag ->
  (forall resolved,
      getTypeAliasTypeAnnotation (ta_name (p_typeAnnotation param)) aliases
      = Ok resolved ->
      ta_type resolved <> aliasTag ->
      translateParamTypeToJniType param aliases
      = translateParamTypeToJniType
          (mkParam (p_name param) (p_nullable param) resolved) aliases)
  /\ (forall message,
         getTypeAliasTypeAnnotation (ta_name (p_typeAnnotation param)) aliases
         = Throw message ->
         translateParamTypeToJniType param aliases = Throw message)
  /\ translateReturnTypeToJniType (p_typeAnnotation param)
     = Throw ("Unknown prop type for method return type, found: "
                ++ aliasTag ++ dquote).
Proof.
  open_param param. unfold aliasTag. intros ->.
  unfold translateParamTypeToJniType; simpl.
  repeat split.
  - intros [rtype rname rnull rprops] -> Hconcrete; simpl in *.
    destruct (String.eqb_spec rtype "TypeAliasTypeAnnotation"); [contradiction | ].
    reflexivity.
  - intros message ->. reflexivity.
Qed.

Lemma alias_resolved_in_parameter_position_only_witness :
  translateParamTypeToJniType (mkParam "enabled" false flagReference) flagAliases
  = Ok "Z"
  /\ translateParamTypeToJniType (mkParam "enabled" false flagReference) []
     = Throw ("No type annotation found for " ++ dquote ++ "Flag" ++ dquote
                ++ " in schema")
  /\ translateReturnTypeToJniType flagReference
     = Throw ("Unknown prop type for method return type, found: "
                ++ aliasTag ++ dquote).
Proof.
  destruct (alias_resolved_in_parameter_position_only
              (mkParam "enabled" false flagReference) flagAliases eq_refl)
    as [Hparam [_ Hreturn]].
  destruct (alias_resolved_in_parameter_position_only
              (mkParam "enabled" false flagReference) [] eq_refl)
    as [_ [Habsent _]].
  split; [ | split].
  - rewrite (Hparam (booleanAnnotation false) eq_refl); [reflexivity | discriminate].
  - apply Habsent; reflexivity.
  - exact Hreturn.
Defined.

(** C6 as stated fails in return position: with the alias in the table, the
    parameter translator resolves it, the return translator throws, and so
    does the signature of a method that returns the alias. *)
Lemma alias_in_return_position_throws :
  get "Flag" flagAliases = Some (booleanAnnotation false)
  /\ translateParamTypeToJniType (mkParam "enabled" false flagReference) flagAliases
     = Ok "Z"
  /\ translateReturnTypeToJniType flagReference
     = Throw ("Unknown prop type for method return type, found: TypeAliasTypeAnnotation"
                ++ dquote)
  /\ translateMethodTypeToJniSignature
       (mkMethod "isEnabled" (mkFunctionTypeAnnotation [] flagReference)) flagAliases
     = Throw ("Unknown prop type for method return type, found: TypeAliasTypeAnnotation"
                ++ dquote).
Proof. repeat split. Qed.

(** ** Descriptors *)

(** C1: a method named fetch with one non-nullable string parameter and a
    promise return has the descriptor
    [(Ljava/lang/String;Lcom/facebook/react/bridge/Promise;)V], and its
    registration entry records the parameter count 1. *)
Theorem fetch_promise_descriptor {U : Utils} property aliases param :
  m_name property = "fetch" ->
  params (m_typeAnnotation property) = [param] ->
  p_nullable param = false ->
  ta_type (p_typeAnnotation param) = "StringTypeAnnotation" ->
  ta_type (returnTypeAnnotation (m_typeAnnotation property))
  = "GenericPromiseTypeAnnotation" ->
  translateMethodTypeToJniSignature property aliases
  = Ok "(Ljava/lang/String;Lcom/facebook/react/bridge/Promise;)V"
  /\ propertyDef property
     = "  methodMap_[" ++ dquote ++ "fetch" ++ dquote
         ++ "] = MethodMetadata {1, __hostFunction_Native::_MODULE_NAME_::SpecJSI_fetch};".
Proof.
  destruct property as [name [ps [rtype rname rnull rprops]]]; simpl.
  open_param param.
  intros -> -> -> -> ->.
  split; reflexivity.
Qed.

Lemma fetch_promise_descriptor_witness :
  translateMethodTypeToJniSignature fetchMethod []
  = Ok "(Ljava/lang/String;Lcom/facebook/react/bridge/Promise;)V"
  /\ propertyDef fetchMethod
     = "  methodMap_[" ++ dquote ++ "fetch" ++ dquote
         ++ "] = MethodMetadata {1, __hostFunction_Native::_MODULE_NAME_::SpecJSI_fetch};".
Proof.
  apply (fetch_promise_descriptor fetchMethod []
           (mkParam "url" false
              (mkTypeAnnotation "StringTypeAnnotation" EmptyString false None)));
    reflexivity.
Defined.

(** C4: once the parameter tokens are built, the descriptor of a method named
    getConstants ends with [Ljava/util/Map;] whatever its declared return
    annotation is; the descriptor of a method with another name ends with the
    translation of its effective return annotation, which is the non-nullable
    void annotation for a promise return, translated to [V], and the declared
    annotation otherwise; it fails where that translation fails. *)
Theorem return_token_of_descriptor {U : Utils} property aliases args :
  argsSignature property aliases = Ok args ->
  let declared := returnTypeAnnotation (m_typeAnnotation property) in
  let promise := ta_type declared =? "GenericPromiseTypeAnnotation" in
  let effective :=
    if promise
    then mkTypeAnnotation "VoidTypeAnnotation" EmptyString false None
    else declared in
  translateMethodTypeToJniSignature property aliases
  = (if m_name property =? "getConstants"
     then Ok ("(" ++ args ++ ")" ++ "Ljava/util/Map;")
     else let* token := translateReturnTypeToJniType effective in
          Ok ("(" ++ args ++ ")" ++ token))
  /\ (promise = true ->
      translateMethodTypeToJniSignature property aliases
      = Ok ("(" ++ args ++ ")"
                ++ (if m_name property =? "getConstants" then "Ljava/util/Map;" else "V"))).
Proof.
  intros Hargs declared promise effective.
  unfold translateMethodTypeToJniSignature, processedReturnTypeAnnotation, isPromise,
    voidReturn.
  rewrite Hargs; cbn [bind].
  fold declared. fold promise.
  split.
  - destruct (m_name property =? "getConstants"); reflexivity.
  - intros Hpromise. rewrite Hpromise.
    destruct (m_name property =? "getConstants"); reflexivity.
Qed.

Lemma return_token_of_descriptor_witness :
  translateMethodTypeToJniSignature getConstantsOddReturn [] = Ok "()Ljava/util/Map;"
  /\ translateMethodTypeToJniSignature listMethod []
     = Ok "(Ljava/lang/Double;)Lcom/facebook/react/bridge/WritableArray;"
  /\ translateMethodTypeToJniSignature fetchMethod []
     = Ok "(Ljava/lang/String;Lcom/facebook/react/bridge/Promise;)V".
Proof.
  split; [ | split].
  - exact (proj1 (return_token_of_descriptor getConstantsOddReturn [] EmptyString
                    eq_refl)).
  - exact (proj1 (return_token_of_descriptor listMethod [] "Ljava/lang/Double;"
                    eq_refl)).
  - exact (proj2 (return_token_of_descriptor fetchMethod []
                    "Ljava/lang/String;Lcom/facebook/react/bridge/Promise;" eq_refl)
             eq_refl).
Defined.

(** ** Replacement in the templates *)

Lemma noChar_app p u v :
  noChar p (u ++ v) = noChar p u && noChar p v.
Proof.
  induction u as [ | c u IH]; simpl; [reflexivity | ].
  rewrite IH, andb_assoc; reflexivity.
Qed.

Lemma append_assoc (u v w : string) : (u ++ v) ++ w = u ++ (v ++ w).
Proof.
  induction u as [ | c u IH]; simpl; [reflexivity | now rewrite IH].
Qed.

(** A replacement text with no dollar sign stands for itself. *)
Lemma GetSubstitution_plain matched str position replacement :
  noChar "$" replacement = true ->
  GetSubstitution matched str position replacement = replacement.
Proof.
  induction replacement as [ | c rest IH]; simpl; [reflexivity | ].
  intros H; apply andb_prop in H as [Hc Hrest].
  apply negb_true_iff in Hc; rewrite Hc.
  rewrite (IH Hrest); reflexivity.
Qed.

Lemma prefix_head_differs p pattern c rest :
  (c =? p)%char = false -> prefix (String p pattern) (String c rest) = false.
Proof.
  intros Hc; simpl.
  destruct (ascii_dec p c) as [-> | _]; [ | reflexivity].
  rewrite Ascii.eqb_refl in Hc; discriminate.
Qed.

(** The first character of a text stays when the pattern starts with
    another one. *)
Lemma replaceAll_startsWith p pattern replacement c s :
  (c =? p)%char = false ->
  startsWith c s = true ->
  startsWith c (replaceAll (String p pattern) replacement s) = true.
Proof.
  intros Hp; destruct s as [ | c' rest]; simpl; [discriminate | ].
  intros Hc; apply Ascii.eqb_eq in Hc as ->.
  unfold replaceAll; cbn [replaceAll_from].
  rewrite (prefix_head_differs p pattern c rest Hp).
  simpl; apply Ascii.eqb_refl.
Qed.


(** ** The degenerate constants accessor *)



(** ** The thunk text *)

Lemma replaceWith_ext emit emit' pattern skip position rest :
  (forall n, emit n = emit' n) ->
  replaceWith emit pattern skip position rest
  = replaceWith emit' pattern skip position rest.
Proof.
  intros Hemit; revert skip position.
  induction rest as [ | c rest IH]; intros skip position; simpl; [reflexivity | ].
  destruct skip as [ | k]; [ | apply IH].
  rewrite Hemit, !IH; reflexivity.
Qed.

Lemma replaceAll_from_replaceWith pattern replacement str skip position rest :
  replaceAll_from pattern replacement str skip position rest
  = replaceWith (fun n => GetSubstitution pattern str n replacement)
      pattern skip position rest.
Proof.
  revert skip position.
  induction rest as [ | c rest IH]; intros skip position; simpl; [reflexivity | ].
  destruct skip as [ | k]; [ | apply IH].
  rewrite !IH; reflexivity.
Qed.

Lemma replaceAll_replaceWith pattern replacement s :
  exists emit, replaceAll pattern replacement s = replaceWith emit pattern 0 0 s.
Proof.
  eexists; unfold replaceAll; apply replaceAll_from_replaceWith.
Qed.

Lemma replaceAll_plain pattern replacement s :
  noChar "$" replacement = true ->
  replaceAll pattern replacement s = replaceWith (fun _ => replacement) pattern 0 0 s.
Proof.
  intros Hplain; unfold replaceAll.
  rewrite replaceAll_from_replaceWith.
  apply replaceWith_ext; intros n; apply GetSubstitution_plain, Hplain.
Qed.

Lemma replaceAll_constant pattern replacement s text :
  (forall n, GetSubstitution pattern s n replacement = text) ->
  replaceAll pattern replacement s = replaceWith (fun _ => text) pattern 0 0 s.
Proof.
  intros Htext; unfold replaceAll.
  rewrite replaceAll_from_replaceWith.
  apply replaceWith_ext; exact Htext.
Qed.

Lemma replaceWith_app_plain emit p pattern w rest position :
  noChar p w = true ->
  replaceWith emit (String p pattern) 0 position (w ++ rest)
  = w ++ replaceWith emit (String p pattern) 0 (String.length w + position) rest.
Proof.
  revert position; induction w as [ | c w IH]; intros position Hw.
  - reflexivity.
  - simpl in Hw; apply andb_prop in Hw as [Hc Hw]; apply negb_true_iff in Hc.
    change (String c w ++ rest) with (String c (w ++ rest)).
    cbn [replaceWith].
    rewrite (prefix_head_differs p pattern c (w ++ rest) Hc).
    rewrite (IH (S position) Hw).
    cbn [String.length append]. rewrite Nat.add_succ_r; reflexivity.
Qed.

Ltac scan_template :=
  repeat (simpl; rewrite ?append_assoc;
          try (rewrite replaceWith_app_plain by assumption)).

Lemma thunk_kind_filled kind :
  noChar "$" kind = true ->
  replaceAll "::_KIND_::" kind propertyTemplate = thunkWithKind kind.
Proof.
  intros Hk. rewrite (replaceAll_plain _ _ _ Hk).
  unfold propertyTemplate, propertyCastTemplate, thunkWithKind, propertyHeaderTemplate,
    nl, dquote.
  scan_template. reflexivity.
Qed.

Lemma thunk_name_filled kind name :
  noChar ":" kind = true ->
  noChar ":" name = true ->
  noChar "$" name = true ->
  replaceAll "::_PROPERTY_NAME_::" name (thunkWithKind kind) = thunkWithName kind name.
Proof.
  intros Hk Hn Hd. rewrite (replaceAll_plain _ _ _ Hd).
  unfold thunkWithKind, thunkWithName, thunkHeader, propertyHeaderTemplate, nl, dquote.
  scan_template. reflexivity.
Qed.

Lemma thunk_args_absent kind name args :
  noChar ":" kind = true ->
  noChar ":" name = true ->
  replaceAll "::_ARGS_::" args (thunkWithName kind name) = thunkWithName kind name.
Proof.
  intros Hk Hn.
  destruct (replaceAll_replaceWith "::_ARGS_::" args (thunkWithName kind name))
    as [emit ->].
  unfold thunkWithName, thunkHeader, nl, dquote.
  scan_template. reflexivity.
Qed.

Lemma thunk_signature_filled kind name signature :
  noChar ":" kind = true ->
  noChar ":" name = true ->
  noChar "$" signature = true ->
  replaceAll "::_SIGNATURE_::" signature (thunkWithName kind name)
  = thunkText kind name signature.
Proof.
  intros Hk Hn Hs. rewrite (replaceAll_plain _ _ _ Hs).
  unfold thunkWithName, thunkText, thunkHeader, nl, dquote.
  scan_template. reflexivity.
Qed.

Lemma translateReturnTypeToKind_plain a kind :
  translateReturnTypeToKind a = Ok kind ->
  noChar ":" kind = true /\ noChar "$" kind = true.
Proof.
  destruct a as [type name nullable props].
  unfold translateReturnTypeToKind; simpl.
  split_tags; intros H; injection H as <-; split; reflexivity.
Qed.

Lemma translateParamTypeToJniType_plain {U : Utils} param aliases token :
  translateParamTypeToJniType param aliases = Ok token ->
  noChar "$" token = true.
Proof.
  open_param param.
  unfold translateParamTypeToJniType; simpl.
  destruct (type =? "TypeAliasTypeAnnotation").
  - destruct (getTypeAliasTypeAnnotation aname aliases)
      as [[rtype rname rnull rprops] | ]; simpl; [ | discriminate ].
    split_tags; intros H; injection H as <-; auto; destruct nullable; auto.
  - simpl. split_tags; intros H; injection H as <-; auto; destruct nullable; auto.
Qed.

Lemma translateReturnTypeToJniType_plain a token :
  translateReturnTypeToJniType a = Ok token ->
  noChar "$" token = true.
Proof.
  destruct a as [type name nullable props].
  unfold translateReturnTypeToJniType; simpl.
  split_tags; intros H; injection H as <-; auto; destruct nullable; auto.
Qed.

Lemma mapM_Forall {A B : Type} (f : A -> result B) (P : B -> Prop) xs ys :
  (forall x y, f x = Ok y -> P y) ->
  mapM f xs = Ok ys -> Forall P ys.
Proof.
  intros Hf; revert ys; induction xs as [ | x xs IH]; simpl; intros ys.
  - intros H; injection H as <-; constructor.
  - destruct (f x) as [y | ] eqn:Hy; simpl; [ | discriminate].
    destruct (mapM f xs) as [ys' | ]; simpl; [ | discriminate].
    intros H; injection H as <-.
    constructor; [apply (Hf x y Hy) | apply IH; reflexivity].
Qed.

Lemma join_empty_plain p parts :
  Forall (fun part => noChar p part = true) parts ->
  noChar p (join EmptyString parts) = true.
Proof.
  unfold join; induction 1 as [ | part parts Hpart _ IH]; simpl; [reflexivity | ].
  destruct parts as [ | next parts]; [exact Hpart | ].
  rewrite noChar_app, Hpart; exact IH.
Qed.

Lemma argsSignature_plain {U : Utils} property aliases args :
  argsSignature property aliases = Ok args -> noChar "$" args = true.
Proof.
  unfold argsSignature.
  destruct (mapM _ _) as [parts | ] eqn:Hparts; simpl; [ | discriminate].
  apply (mapM_Forall _ (fun part => noChar "$" part = true)) in Hparts;
    [ | intros x y; apply translateParamTypeToJniType_plain ].
  destruct (isPromise _); simpl.
  - destruct (translateReturnTypeToJniType _) as [promiseArg | ] eqn:Hp; simpl;
      [ | discriminate].
    intros H; injection H as <-.
    apply join_empty_plain, Forall_app; split; [exact Hparts | ].
    constructor; [ | constructor].
    apply (translateReturnTypeToJniType_plain _ _ Hp).
  - intros H; injection H as <-. apply join_empty_plain, Hparts.
Qed.

Lemma translateMethodTypeToJniSignature_plain {U : Utils} property aliases signature :
  translateMethodTypeToJniSignature property aliases = Ok signature ->
  noChar "$" signature = true.
Proof.
  unfold translateMethodTypeToJniSignature.
  destruct (argsSignature property aliases) as [args | ] eqn:Hargs; simpl;
    [ | discriminate].
  apply argsSignature_plain in Hargs.
  destruct (m_name property =? "getConstants"); simpl.
  - intros H; injection H as <-. simpl. rewrite noChar_app, Hargs. reflexivity.
  - destruct (translateReturnTypeToJniType _) as [token | ] eqn:Htoken; simpl;
      [ | discriminate].
    intros H; injection H as <-. simpl.
    rewrite noChar_app, Hargs. simpl.
    apply (translateReturnTypeToJniType_plain _ _ Htoken).
Qed.

(** The four replacements of the emitter, one after the other. *)
Lemma thunk_filled kind name args signature :
  noChar ":" kind = true ->
  noChar "$" kind = true ->
  noChar ":" name = true ->
  noChar "$" name = true ->
  noChar "$" signature = true ->
  replaceAll "::_SIGNATURE_::" signature
    (replaceAll "::_ARGS_::" args
       (replaceAll "::_PROPERTY_NAME_::" name
          (replaceAll "::_KIND_::" kind propertyTemplate)))
  = thunkText kind name signature.
Proof.
  intros Hk Hk' Hn Hn' Hs.
  transitivity (replaceAll "::_SIGNATURE_::" signature (thunkWithName kind name));
    [ | exact (thunk_signature_filled kind name signature Hk Hn Hs) ].
  apply (f_equal (replaceAll "::_SIGNATURE_::" signature)).
  transitivity (replaceAll "::_ARGS_::" args (thunkWithName kind name));
    [ | exact (thunk_args_absent kind name args Hk Hn) ].
  apply (f_equal (replaceAll "::_ARGS_::" args)).
  transitivity (replaceAll "::_PROPERTY_NAME_::" name (thunkWithKind kind));
    [ | exact (thunk_name_filled kind name Hk Hn Hn') ].
  apply (f_equal (replaceAll "::_PROPERTY_NAME_::" name)).
  exact (thunk_kind_filled kind Hk').
Qed.

(** Two steps of a string at once. *)
Lemma string_pair_ind (P : string -> Prop) :
  P EmptyString ->
  (forall c, P (String c EmptyString)) ->
  (forall c d r, P r -> P (String d r) -> P (String c (String d r))) ->
  forall r, P r.
Proof.
  intros Hempty Hone Hstep r.
  assert (H : P r /\ forall c, P (String c r)); [ | exact (proj1 H)].
  induction r as [ | d r [IH IH']].
  - split; [exact Hempty | exact Hone].
  - split; [apply IH' | ]. intros c. apply Hstep; [exact IH | apply IH'].
Qed.

Lemma GetSubstitution_step matched str position c d rest :
  GetSubstitution matched str position (String c (String d rest))
  = if (c =? "$")%char then
      if (d =? "$")%char
      then String "$" (GetSubstitution matched str position rest)
      else if (d =? "&")%char
      then matched ++ GetSubstitution matched str position rest
      else if (d =? "`")%char
      then substring 0 position str ++ GetSubstitution matched str position rest
      else if (d =? "'")%char
      then substring (position + String.length matched)
             (String.length str - (position + String.length matched)) str
             ++ GetSubstitution matched str position rest
      else String c (GetSubstitution matched str position (String d rest))
    else String c (GetSubstitution matched str position (String d rest)).
Proof. reflexivity. Qed.

Lemma dollarPairs_step c d rest :
  dollarPairs (String c (String d rest))
  = if (c =? "$")%char then
      if (d =? "$")%char
      then String "$" (dollarPairs rest)
      else String c (dollarPairs (String d rest))
    else String c (dollarPairs (String d rest)).
Proof. reflexivity. Qed.

(** A replacement text that holds none of the characters that follow the
    dollar sign in a pattern is read with its pairs of dollar signs
    halved, wherever the match is. *)
Lemma GetSubstitution_literal matched str position replacement :
  noChar "&" replacement = true ->
  noChar "`" replacement = true ->
  noChar "'" replacement = true ->
  GetSubstitution matched str position replacement = dollarPairs replacement.
Proof.
  induction replacement as [ | c | c d r IH IH'] using string_pair_ind.
  - reflexivity.
  - intros _ _ _. simpl. destruct (c =? "$")%char; reflexivity.
  - intros Ha Hb Hc.
    assert (Ha' : noChar "&" (String d r) = true)
      by (simpl in Ha; apply andb_prop in Ha as [_ Ha]; exact Ha).
    assert (Hb' : noChar "`" (String d r) = true)
      by (simpl in Hb; apply andb_prop in Hb as [_ Hb]; exact Hb).
    assert (Hc' : noChar "'" (String d r) = true)
      by (simpl in Hc; apply andb_prop in Hc as [_ Hc]; exact Hc).
    rewrite GetSubstitution_step, dollarPairs_step.
    rewrite (IH' Ha' Hb' Hc').
    simpl in Ha', Hb', Hc'.
    apply andb_prop in Ha' as [Hda Ha''], Hb' as [Hdb Hb''], Hc' as [Hdc Hc''].
    apply negb_true_iff in Hda, Hdb, Hdc.
    rewrite Hda, Hdb, Hdc, (IH Ha'' Hb'' Hc''). reflexivity.
Qed.

Lemma noChar_dollarPairs p name :
  noChar p name = true -> noChar p (dollarPairs name) = true.
Proof.
  induction name as [ | c | c d r IH IH'] using string_pair_ind.
  - reflexivity.
  - simpl. destruct (c =? "$")%char; auto.
  - intros Hname.
    assert (Hrest : noChar p (String d r) = true)
      by (simpl in Hname; apply andb_prop in Hname as [_ H]; exact H).
    assert (Hc : negb (c =? p)%char = true)
      by (simpl in Hname; apply andb_prop in Hname as [H _]; exact H).
    rewrite dollarPairs_step.
    destruct (c =? "$")%char eqn:Hdollar; [destruct (d =? "$")%char | ].
    + apply Ascii.eqb_eq in Hdollar. subst c.
      change (noChar p (String "$" (dollarPairs r)))
        with (negb ("$" =? p)%char && noChar p (dollarPairs r)).
      rewrite Hc. simpl in Hrest. apply andb_prop in Hrest as [_ Hrest].
      exact (IH Hrest).
    + change (noChar p (String c (dollarPairs (String d r))))
        with (negb (c =? p)%char && noChar p (dollarPairs (String d r))).
      rewrite Hc. exact (IH' Hrest).
    + change (noChar p (String c (dollarPairs (String d r))))
        with (negb (c =? p)%char && noChar p (dollarPairs (String d r))).
      rewrite Hc. exact (IH' Hrest).
Qed.

Lemma thunk_name_literal kind name :
  noChar ":" kind = true ->
  noChar ":" name = true ->
  noChar "&" name = true ->
  noChar "`" name = true ->
  noChar "'" name = true ->
  replaceAll "::_PROPERTY_NAME_::" name (thunkWithKind kind)
  = thunkWithName kind (dollarPairs name).
Proof.
  intros Hk Hn Ha Hb Hc.
  rewrite (replaceAll_constant _ _ _ (dollarPairs name))
    by (intros n; apply GetSubstitution_literal; assumption).
  unfold thunkWithKind, thunkWithName, thunkHeader, propertyHeaderTemplate, nl, dquote.
  scan_template. reflexivity.
Qed.

(** The four replacements of the emitter for a name that may hold dollar
    signs. *)
Lemma thunk_filled_literal kind name args signature :
  noChar ":" kind = true ->
  noChar "$" kind = true ->
  noChar ":" name = true ->
  noChar "&" name = true ->
  noChar "`" name = true ->
  noChar "'" name = true ->
  noChar "$" signature = true ->
  replaceAll "::_SIGNATURE_::" signature
    (replaceAll "::_ARGS_::" args
       (replaceAll "::_PROPERTY_NAME_::" name
          (replaceAll "::_KIND_::" kind propertyTemplate)))
  = thunkText kind (dollarPairs name) signature.
Proof.
  intros Hk Hk' Hn Ha Hb Hc Hs.
  pose proof (noChar_dollarPairs ":" name Hn) as Hn'.
  transitivity
    (replaceAll "::_SIGNATURE_::" signature (thunkWithName kind (dollarPairs name)));
    [ | exact (thunk_signature_filled kind (dollarPairs name) signature Hk Hn' Hs) ].
  apply (f_equal (replaceAll "::_SIGNATURE_::" signature)).
  transitivity (replaceAll "::_ARGS_::" args (thunkWithName kind (dollarPairs name)));
    [ | exact (thunk_args_absent kind (dollarPairs name) args Hk Hn') ].
  apply (f_equal (replaceAll "::_ARGS_::" args)).
  transitivity (replaceAll "::_PROPERTY_NAME_::" name (thunkWithKind kind));
    [ | exact (thunk_name_literal kind name Hk Hn Ha Hb Hc) ].
  apply (f_equal (replaceAll "::_PROPERTY_NAME_::" name)).
  exact (thunk_kind_filled kind Hk').
Qed.

(** The tokens of the parameters do not depend on their names. *)
Lemma tokens_of_unnamed {U : Utils} aliases params params' :
  map unnamed params' = map unnamed params ->
  mapM (fun param => translateParamTypeToJniType param aliases) params'
  = mapM (fun param => translateParamTypeToJniType param aliases) params.
Proof.
  revert params'; induction params as [ | [name nullable a] params IH];
    intros [ | [name' nullable' a'] params']; simpl; try discriminate;
    [reflexivity | ].
  unfold unnamed at 1 3; simpl.
  intros H; injection H as -> -> Hrest.
  rewrite (IH params' Hrest). reflexivity.
Qed.

(** C10, as the code has it: the thunk of a method that is not skipped, whose
    name holds none of the characters [:], [&], [`] and ['], is the template
    with the dispatch kind, the method name (a pair of dollar signs in it
    standing for one) and the descriptor filled in, and nothing else. The
    argument-name list replaces a placeholder that the template does not
    hold, so no parameter name reaches the text: the same method with its
    parameters renamed gets the same thunk. *)
Theorem thunk_text_without_argument_names {U : Utils} property aliases :
  isEmptyGetConstants (m_name property)
    (returnTypeAnnotation (m_typeAnnotation property)) = false ->
  noChar ":" (m_name property) = true ->
  noChar "&" (m_name property) = true ->
  noChar "`" (m_name property) = true ->
  noChar "'" (m_name property) = true ->
  translateMethodForImplementation property aliases
  = (let* kind := translateReturnTypeToKind
                    (returnTypeAnnotation (m_typeAnnotation property)) in
     let* signature := translateMethodTypeToJniSignature property aliases in
     Ok (thunkText kind (dollarPairs (m_name property)) signature))
  /\ forall params',
      map unnamed params' = map unnamed (params (m_typeAnnotation property)) ->
      translateMethodForImplementation
        (mkMethod (m_name property)
           (mkFunctionTypeAnnotation params'
              (returnTypeAnnotation (m_typeAnnotation property))))
        aliases
      = translateMethodForImplementation property aliases.
Proof.
  intros Hskip Hcolon Ha Hb Hc.
  assert (Htext : forall params',
             translateMethodForImplementation
               (mkMethod (m_name property)
                  (mkFunctionTypeAnnotation params'
                     (returnTypeAnnotation (m_typeAnnotation property))))
               aliases
             = let* kind := translateReturnTypeToKind
                              (returnTypeAnnotation (m_typeAnnotation property)) in
               let* signature :=
                 translateMethodTypeToJniSignature
                   (mkMethod (m_name property)
                      (mkFunctionTypeAnnotation params'
                         (returnTypeAnnotation (m_typeAnnotation property))))
                   aliases in
               Ok (thunkText kind (dollarPairs (m_name property)) signature)).
  { intros params'.
    unfold translateMethodForImplementation. cbn [m_name m_typeAnnotation returnTypeAnnotation].
    rewrite Hskip.
    destruct (translateReturnTypeToKind _) as [kind | ] eqn:Hkind; cbn [bind];
      [ | reflexivity].
    apply translateReturnTypeToKind_plain in Hkind as [Hk Hk'].
    destruct (translateMethodTypeToJniSignature _ aliases)
      as [signature | ] eqn:Hsig; cbn [bind]; [ | reflexivity].
    apply translateMethodTypeToJniSignature_plain in Hsig.
    apply (f_equal Ok).
    apply (thunk_filled_literal kind (m_name property) _ signature
             Hk Hk' Hcolon Ha Hb Hc Hsig). }
  assert (Hself : mkMethod (m_name property)
                    (mkFunctionTypeAnnotation (params (m_typeAnnotation property))
                       (returnTypeAnnotation (m_typeAnnotation property)))
                  = property)
    by (destruct property as [name [ps ret]]; reflexivity).
  split.
  - rewrite <- Hself at 1. rewrite Htext, Hself. reflexivity.
  - intros params' Hparams.
    rewrite (Htext params').
    transitivity
      (translateMethodForImplementation
         (mkMethod (m_name property)
            (mkFunctionTypeAnnotation (params (m_typeAnnotation property))
               (returnTypeAnnotation (m_typeAnnotation property))))
         aliases); [ | rewrite Hself; reflexivity].
    rewrite (Htext (params (m_typeAnnotation property))).
    destruct (translateReturnTypeToKind _) as [kind | ]; cbn [bind]; [ | reflexivity].
    unfold translateMethodTypeToJniSignature, argsSignature, processedReturnTypeAnnotation.
    cbn [m_name m_typeAnnotation returnTypeAnnotation params].
    rewrite (tokens_of_unnamed aliases _ _ Hparams). reflexivity.
Qed.

Lemma thunk_text_without_argument_names_witness :
  translateMethodForImplementation saveMethod []
  = Ok (thunkText "PromiseKind" "save"
          "(Ljava/lang/String;Lcom/facebook/react/bridge/ReadableMap;Lcom/facebook/react/bridge/Promise;)V")
  /\ translateMethodForImplementation pricedMethod []
     = Ok (thunkText "NumberKind" "get$Price" "()D")
  /\ translateMethodForImplementation
       (mkMethod "save"
          (mkFunctionTypeAnnotation
             [ mkParam "rt" false
                 (mkTypeAnnotation "StringTypeAnnotation" EmptyString false None);
               mkParam "count" false (objectAnnotation []) ]
             (mkTypeAnnotation "GenericPromiseTypeAnnotation" EmptyString false None)))
       []
     = translateMethodForImplementation saveMethod [].
Proof.
  split; [ | split].
  - exact (proj1 (thunk_text_without_argument_names saveMethod []
                    eq_refl eq_refl eq_refl eq_refl eq_refl)).
  - exact (proj1 (thunk_text_without_argument_names pricedMethod []
                    eq_refl eq_refl eq_refl eq_refl eq_refl)).
  - exact (proj2 (thunk_text_without_argument_names saveMethod []
                    eq_refl eq_refl eq_refl eq_refl eq_refl)
             [ mkParam "rt" false
                 (mkTypeAnnotation "StringTypeAnnotation" EmptyString false None);
               mkParam "count" false (objectAnnotation []) ]
             eq_refl).
Defined.

(** C10 as stated fails: the thunk of [save(key, payload)], which returns a
    promise, holds none of the names key, payload and promise, and not the
    list the emitter computed from them. *)
Lemma thunk_text_lacks_argument_names :
  translateMethodForImplementation saveMethod []
  = Ok (thunkText "PromiseKind" "save"
          "(Ljava/lang/String;Lcom/facebook/react/bridge/ReadableMap;Lcom/facebook/react/bridge/Promise;)V")
  /\ translatedArguments saveMethod = "payload:promise:"
  /\ map (fun name =>
            occurs name
              (thunkText "PromiseKind" "save"
                 "(Ljava/lang/String;Lcom/facebook/react/bridge/ReadableMap;Lcom/facebook/react/bridge/Promise;)V"))
         ["key"; "payload"; "promise"; "payload:promise:"]
     = [false; false; false; false].
Proof. repeat split; vm_compute; reflexivity. Qed.

(** ** Dictionaries *)

Lemma mem_In k l : mem k l = true <-> In k l.
Proof.
  unfold mem; rewrite existsb_exists; split.
  - intros [x [Hx Heq]]; apply String.eqb_eq in Heq; subst; exact Hx.
  - intros Hk; exists k; split; [exact Hk | apply String.eqb_refl].
Qed.

Section Dictionary.
Context {V : Type}.
Implicit Types (o target source : JsObject V) (k name : string).

Lemma get_obj_set_same k (v : V) o : get k (obj_set k v o) = Some v.
Proof.
  induction o as [ | [k0 v0] o IH]; simpl.
  - now rewrite String.eqb_refl.
  - destruct (k0 =? k) eqn:Hk; simpl; rewrite Hk; [reflexivity | exact IH].
Qed.

Lemma get_obj_set_other k name (v : V) o :
  k <> name -> get name (obj_set k v o) = get name o.
Proof.
  intros Hne; induction o as [ | [k0 v0] o IH]; simpl.
  - apply String.eqb_neq in Hne; now rewrite Hne.
  - destruct (String.eqb_spec k0 k) as [-> | Hk]; simpl.
    + apply String.eqb_neq in Hne; now rewrite Hne.
    + destruct (k0 =? name); [reflexivity | exact IH].
Qed.

Lemma get_None_created k o : get k o = None <-> ~ In k (created o).
Proof.
  induction o as [ | [k0 v0] o IH]; simpl.
  - split; [intros _ [] | reflexivity].
  - destruct (String.eqb_spec k0 k) as [-> | Hk].
    + split; [discriminate | intros H; exfalso; apply H; now left].
    + rewrite IH; split; [intros H [Heq | Hin]; [contradiction | auto] | auto].
Qed.

Lemma created_obj_set k (v : V) o : created (obj_set k v o) = addKey (created o) k.
Proof.
  unfold addKey; induction o as [ | [k0 v0] o IH]; simpl; [reflexivity | ].
  rewrite (String.eqb_sym k k0).
  destruct (k0 =? k); simpl; [reflexivity | ].
  rewrite IH. destruct (mem k (created o)); reflexivity.
Qed.

Lemma insert_index_In (e x : N * string) l :
  In x (insert_index e l) <-> x = e \/ In x l.
Proof.
  induction l as [ | e' l IH]; simpl.
  - intuition.
  - destruct (fst e <=? fst e')%N; simpl; [intuition | ].
    rewrite IH; intuition.
Qed.

Lemma index_keys_In k (keys : list string) :
  In k (map snd (index_keys keys)) <-> In k keys /\ isArrayIndex k = true.
Proof.
  unfold isArrayIndex; induction keys as [ | k0 keys IH]; simpl.
  - intuition.
  - destruct (arrayIndex k0) as [n | ] eqn:Hk0.
    + rewrite in_map_iff. split.
      * intros [[n' k'] [Hk' Hin]]; simpl in Hk'; subst k'.
        apply insert_index_In in Hin as [Heq | Hin].
        -- injection Heq as -> ->. rewrite Hk0; auto.
        -- assert (In k (map snd (index_keys keys))) as Hk
             by (apply in_map_iff; exists (n', k); auto).
           apply IH in Hk; intuition.
      * intros [[-> | Hin] Hidx].
        -- exists (n, k); split; [reflexivity | apply insert_index_In; now left].
        -- assert (In k (map snd (index_keys keys))) as Hk by (apply IH; auto).
           apply in_map_iff in Hk as [[n' k'] [Hk' Hin']]; simpl in Hk'; subst k'.
           exists (n', k); split; [reflexivity | apply insert_index_In; now right].
    + rewrite IH. split.
      * intuition.
      * intros [[-> | Hin] Hidx]; [rewrite Hk0 in Hidx; discriminate | auto].
Qed.

(** Enumeration reorders the keys and neither adds nor drops one. *)
Lemma Object_keys_In k o : In k (Object_keys o) <-> In k (created o).
Proof.
  unfold Object_keys. rewrite in_app_iff, index_keys_In, filter_In.
  destruct (isArrayIndex k); simpl; intuition discriminate.
Qed.

Lemma index_keys_plain (keys : list string) :
  plainKeys keys = true -> index_keys keys = [].
Proof.
  unfold plainKeys, isArrayIndex.
  induction keys as [ | k keys IH]; simpl; [reflexivity | ].
  intros H; apply andb_prop in H as [Hk Hkeys].
  destruct (arrayIndex k); [discriminate | exact (IH Hkeys)].
Qed.

Lemma filter_plain (keys : list string) :
  plainKeys keys = true -> filter (fun k => negb (isArrayIndex k)) keys = keys.
Proof.
  unfold plainKeys.
  induction keys as [ | k keys IH]; simpl; [reflexivity | ].
  intros H; apply andb_prop in H as [Hk Hkeys].
  rewrite Hk, (IH Hkeys); reflexivity.
Qed.

(** With no array index among the keys, enumeration is creation order. *)
Lemma Object_keys_plain o : plainKeys (created o) = true -> Object_keys o = created o.
Proof.
  intros Hplain; unfold Object_keys.
  rewrite (index_keys_plain _ Hplain), (filter_plain _ Hplain); reflexivity.
Qed.

Lemma get_assign_key_same k (v : V) o :
  k <> "__proto__" -> get k (assign_key k v o) = Some v.
Proof.
  intros Hk; unfold assign_key.
  destruct (String.eqb_spec k "__proto__"); [contradiction | ].
  apply get_obj_set_same.
Qed.

Lemma get_assign_key_other k name (v : V) o :
  k <> name -> get name (assign_key k v o) = get name o.
Proof.
  intros Hne; unfold assign_key.
  destruct (k =? "__proto__"); [reflexivity | ].
  apply get_obj_set_other, Hne.
Qed.

Lemma created_assign_key k (v : V) o :
  created (assign_key k v o)
  = if k =? "__proto__" then created o else addKey (created o) k.
Proof.
  unfold assign_key. destruct (k =? "__proto__"); [reflexivity | ].
  apply created_obj_set.
Qed.

Lemma get_assign_absent source name (keys : list string) target :
  get name source = None ->
  get name
    (fold_left (fun acc k => match get k source with
                             | Some v => assign_key k v acc
                             | None => acc
                             end) keys target)
  = get name target.
Proof.
  intros Habsent; revert target.
  induction keys as [ | k keys IH]; intros target; simpl; [reflexivity | ].
  rewrite IH. destruct (get k source) as [v | ] eqn:Hk; [ | reflexivity].
  apply get_assign_key_other. intros ->. congruence.
Qed.

(** No assignment makes [__proto__] an own key. *)
Lemma get_assign_proto source (keys : list string) target :
  get "__proto__"
    (fold_left (fun acc k => match get k source with
                             | Some v => assign_key k v acc
                             | None => acc
                             end) keys target)
  = get "__proto__" target.
Proof.
  revert target.
  induction keys as [ | k keys IH]; intros target; simpl; [reflexivity | ].
  rewrite IH. destruct (get k source) as [v | ]; [ | reflexivity].
  unfold assign_key.
  destruct (String.eqb_spec k "__proto__") as [-> | Hne]; [reflexivity | ].
  apply get_obj_set_other, Hne.
Qed.

Lemma get_assign_present source name (v : V) (keys : list string) target :
  name <> "__proto__" ->
  get name source = Some v ->
  get name target = Some v \/ In name keys ->
  get name
    (fold_left (fun acc k => match get k source with
                             | Some v => assign_key k v acc
                             | None => acc
                             end) keys target)
  = Some v.
Proof.
  intros Hname Hpresent; revert target.
  induction keys as [ | k keys IH]; intros target; simpl.
  - intros [H | []]; exact H.
  - intros Hcases. apply IH.
    destruct (String.eqb_spec k name) as [-> | Hne].
    + left. rewrite Hpresent. apply get_assign_key_same, Hname.
    + destruct Hcases as [Htarget | [Heq | Hin]]; [ | contradiction | now right].
      left. destruct (get k source); [ | exact Htarget].
      rewrite (get_assign_key_other _ _ _ _ Hne). exact Htarget.
Qed.

(** [Object.assign]: the source's value where it has the key, the target's
    where it has not; the key [__proto__] is left as the target has it. *)
Lemma get_Object_assign target source name :
  get name (Object_assign target source)
  = if name =? "__proto__" then get name target
    else match get name source with
         | Some v => Some v
         | None => get name target
         end.
Proof.
  unfold Object_assign.
  destruct (String.eqb_spec name "__proto__") as [-> | Hname];
    [apply get_assign_proto | ].
  destruct (get name source) as [v | ] eqn:Hsource.
  - apply get_assign_present; [exact Hname | exact Hsource | right].
    apply Object_keys_In.
    destruct (in_dec string_dec name (created source)) as [Hin | Hout]; [exact Hin | ].
    apply get_None_created in Hout. congruence.
  - apply get_assign_absent, Hsource.
Qed.

Lemma fold_addKey_skip (q : string -> bool) (keys : list string) (l : list string) :
  fold_left (fun acc k => if q k then addKey acc k else acc) keys l
  = fold_left addKey (filter q keys) l.
Proof.
  revert l; induction keys as [ | k keys IH]; intros l; simpl; [reflexivity | ].
  rewrite IH. destruct (q k); reflexivity.
Qed.

Lemma created_assign source (keys : list string) target :
  Forall (fun k => In k (created source)) keys ->
  created
    (fold_left (fun acc k => match get k source with
                             | Some v => assign_key k v acc
                             | None => acc
                             end) keys target)
  = fold_left addKey (filter (fun k => negb (k =? "__proto__")) keys) (created target).
Proof.
  intros Hkeys. rewrite <- fold_addKey_skip. revert target.
  induction Hkeys as [ | k keys Hk _ IH]; intros target; simpl; [reflexivity | ].
  rewrite IH. f_equal.
  destruct (get k source) as [v | ] eqn:Hget.
  - rewrite created_assign_key. destruct (k =? "__proto__"); reflexivity.
  - apply get_None_created in Hget. contradiction.
Qed.

Lemma created_Object_assign target source :
  created (Object_assign target source)
  = fold_left addKey (filter (fun k => negb (k =? "__proto__")) (Object_keys source))
      (created target).
Proof.
  unfold Object_assign. apply created_assign.
  apply Forall_forall. intros k. apply Object_keys_In.
Qed.

Lemma filter_concat {A : Type} (q : A -> bool) (ls : list (list A)) :
  filter q (concat ls) = concat (map (filter q) ls).
Proof.
  induction ls as [ | l ls IH]; simpl; [reflexivity | ].
  rewrite filter_app, IH; reflexivity.
Qed.

(** The reduction over the groups' tables. *)
Lemma created_flatten (tables : list (JsObject V)) target :
  created (fold_left Object_assign tables target)
  = fold_left addKey
      (filter (fun k => negb (k =? "__proto__")) (concat (map Object_keys tables)))
      (created target).
Proof.
  revert target; induction tables as [ | table tables IH]; intros target; simpl.
  - reflexivity.
  - rewrite IH, created_Object_assign, filter_app, fold_left_app. reflexivity.
Qed.

Lemma get_flatten (tables : list (JsObject V)) target name :
  get name (fold_left Object_assign tables target)
  = if name =? "__proto__" then get name target
    else match lastDefinition name tables with
         | Some definition => Some definition
         | None => get name target
         end.
Proof.
  revert target; induction tables as [ | table tables IH]; intros target; simpl.
  - destruct (name =? "__proto__"); reflexivity.
  - rewrite IH, get_Object_assign.
    destruct (name =? "__proto__"); [reflexivity | ].
    destruct (lastDefinition name tables); [reflexivity | ].
    destruct (get name table); reflexivity.
Qed.

Lemma lastDefinition_app (earlier later : list (JsObject V)) name :
  lastDefinition name (earlier ++ later)%list
  = match lastDefinition name later with
    | Some definition => Some definition
    | None => lastDefinition name earlier
    end.
Proof.
  induction earlier as [ | table earlier IH]; simpl.
  - destruct (lastDefinition name later); reflexivity.
  - rewrite IH. destruct (lastDefinition name later); reflexivity.
Qed.

Lemma lastDefinition_none (later : list (JsObject V)) name :
  (forall table, In table later -> get name table = None) ->
  lastDefinition name later = None.
Proof.
  induction later as [ | table later IH]; simpl; intros Hnone; [reflexivity | ].
  rewrite IH by auto. apply Hnone. now left.
Qed.

End Dictionary.

(** ** Order of first occurrence *)

Lemma filter_and {A : Type} (f g : A -> bool) (l : list A) :
  filter f (filter g l) = filter (fun x => f x && g x) l.
Proof.
  induction l as [ | x l IH]; simpl; [reflexivity | ].
  destruct (g x); simpl; rewrite ?andb_true_r, ?andb_false_r;
    [destruct (f x) | ]; now rewrite IH.
Qed.

Lemma firstSeen_filter (q : string -> bool) (l : list string) :
  firstSeen (filter q l) = filter q (firstSeen l).
Proof.
  induction l as [ | k l IH]; simpl; [reflexivity | ].
  destruct (q k) eqn:Hk; simpl; rewrite ?Hk, IH, !filter_and.
  - f_equal. apply filter_ext; intros x; apply andb_comm.
  - apply filter_ext; intros x.
    destruct (String.eqb_spec x k) as [-> | _]; simpl;
      [now rewrite Hk | now rewrite andb_true_r].
Qed.

Lemma firstSeen_In k (l : list string) : In k (firstSeen l) -> In k l.
Proof.
  induction l as [ | k0 l IH]; simpl; [auto | ].
  intros [Heq | Hin]; [now left | right].
  apply filter_In in Hin as [Hin _]; auto.
Qed.

(** Adding the keys of [l] one by one to [keys] appends the new ones in the
    order of their first occurrence. *)
Lemma fold_addKey (l keys : list string) :
  fold_left addKey l keys
  = (keys ++ firstSeen (filter (fun x => negb (mem x keys)) l))%list.
Proof.
  revert keys; induction l as [ | k l IH]; intros keys; simpl.
  - now rewrite app_nil_r.
  - unfold addKey at 2. destruct (mem k keys) eqn:Hk; simpl; [apply IH | ].
    rewrite IH, <- app_assoc; simpl. do 2 f_equal.
    rewrite <- firstSeen_filter, filter_and. f_equal.
    apply filter_ext; intros x.
    unfold mem; rewrite existsb_app; simpl.
    rewrite orb_false_r, negb_orb. apply andb_comm.
Qed.

Lemma fold_addKey_nil (l : list string) : fold_left addKey l [] = firstSeen l.
Proof.
  rewrite fold_addKey; simpl. f_equal.
  induction l as [ | k l IH]; simpl; [reflexivity | now rewrite IH].
Qed.

Lemma plainKeys_forall (keys : list string) :
  plainKeys keys = true <-> forall k, In k keys -> isArrayIndex k = false.
Proof.
  unfold plainKeys; rewrite forallb_forall.
  split; intros H k Hk; specialize (H k Hk);
    destruct (isArrayIndex k); simpl in *; congruence.
Qed.

Lemma plainTables_keys {V : Type} (tables : list (JsObject V)) :
  plainTables tables = true ->
  plainKeys (firstSeen (concat (map Object_keys tables))) = true.
Proof.
  unfold plainTables; rewrite forallb_forall; intros Hplain.
  apply plainKeys_forall; intros k Hk.
  apply firstSeen_In, in_concat in Hk as [keys [Hkeys Hk]].
  apply in_map_iff in Hkeys as [table [<- Htable]].
  apply Object_keys_In in Hk.
  specialize (Hplain table Htable).
  rewrite plainKeys_forall in Hplain; auto.
Qed.

(** ** The lookup function *)

Lemma lookup_block_filled name :
  noChar "$" name = true ->
  replaceAll "::_MODULE_NAME_::" name oneModuleLookupTemplate = lookupBlock name.
Proof.
  intros Hname. rewrite (replaceAll_plain _ _ _ Hname).
  unfold oneModuleLookupTemplate, lookupBlock, nl, dquote.
  scan_template. reflexivity.
Qed.

(** The body of the lookup function is one block for each module name, in
    the order the flattened table enumerates them. *)
Lemma moduleLookup_blocks (nativeModules : JsObject NativeModuleShape) :
  forallb (noChar "$") (Object_keys nativeModules) = true ->
  moduleLookup nativeModules = join nl (map lookupBlock (Object_keys nativeModules)).
Proof.
  unfold moduleLookup; intros Hnames. f_equal.
  induction (Object_keys nativeModules) as [ | name names IH]; simpl in *;
    [reflexivity | ].
  apply andb_prop in Hnames as [Hname Hnames].
  rewrite (lookup_block_filled name Hname), (IH Hnames); reflexivity.
Qed.

(** C9: in the file generated for a schema with the one module Calc, the
    body of the lookup function is the block of Calc and nothing more: the
    closing brace of the function follows the block, and no statement is
    left for a module name that matches no block. With no module at all the
    body is empty. *)
Theorem lookup_function_ends_after_blocks {U : Utils} :
  generate "Sample" calcSchema "SampleSpec"
  = Ok [("SampleSpec-generated.cpp", calcFile)]
  /\ moduleLookup (flattenNativeModules calcSchema) = lookupBlock "Calc"
  /\ moduleLookup (flattenNativeModules (mkSchema [])) = EmptyString.
Proof. repeat split; vm_compute; reflexivity. Qed.

(** * Further properties of the generator *)

(** ** The translators, tag by tag *)

(** X1: for an annotation written in place that is no reserved scalar, the
    parameter translator returns the token of the tag in its table, whatever
    the alias table and the parameter name are, and throws an error that
    ends with the tag for every other tag. *)
Theorem translateParamTypeToJniType_in_place {U : Utils} param aliases :
  ta_type (p_typeAnnotation param) <> aliasTag ->
  ta_type (p_typeAnnotation param) <> reservedTag ->
  translateParamTypeToJniType param aliases
  = match get (ta_type (p_typeAnnotation param)) (paramTokens (p_nullable param)) with
    | Some token => Ok token
    | None =>
        Throw ("Unknown prop type for method arg, found: "
                 ++ ta_type (p_typeAnnotation param) ++ dquote)
    end.
Proof.
  open_param param. unfold aliasTag, reservedTag.
  intros Halias Hreserved.
  unfold translateParamTypeToJniType; simpl.
  destruct (String.eqb_spec type "TypeAliasTypeAnnotation"); [contradiction | ].
  simpl. split_tags.
Qed.

Lemma translateParamTypeToJniType_in_place_witness :
  translateParamTypeToJniType callbackParam flagAliases
  = Ok "Lcom/facebook/react/bridge/Callback;"
  /\ translateParamTypeToJniType anyParam flagAliases
     = Throw ("Unknown prop type for method arg, found: AnyTypeAnnotation" ++ dquote).
Proof.
  split.
  - rewrite (translateParamTypeToJniType_in_place callbackParam flagAliases);
      [reflexivity | discriminate | discriminate].
  - rewrite (translateParamTypeToJniType_in_place anyParam flagAliases);
      [reflexivity | discriminate | discriminate].
Defined.

(** X2: the return translator returns the token of the tag in its table and
    throws an error that ends with the tag for every other tag: a callback
    and an alias reference are both refused in return position. *)
Theorem translateReturnTypeToJniType_table a :
  ta_type a <> reservedTag ->
  translateReturnTypeToJniType a
  = match get (ta_type a) (returnTokens (ta_nullable a)) with
    | Some token => Ok token
    | None =>
        Throw ("Unknown prop type for method return type, found: "
                 ++ ta_type a ++ dquote)
    end.
Proof.
  destruct a as [type name nullable props]. unfold reservedTag; simpl.
  intros Hreserved.
  unfold translateReturnTypeToJniType; simpl.
  split_tags.
Qed.

Lemma translateReturnTypeToJniType_table_witness :
  translateReturnTypeToJniType (p_typeAnnotation callbackParam)
  = Throw ("Unknown prop type for method return type, found: FunctionTypeAnnotation"
             ++ dquote)
  /\ translateReturnTypeToJniType (objectAnnotation [])
     = Ok "Lcom/facebook/react/bridge/WritableMap;".
Proof.
  split.
  - rewrite (translateReturnTypeToJniType_table (p_typeAnnotation callbackParam));
      [reflexivity | discriminate].
  - rewrite (translateReturnTypeToJniType_table (objectAnnotation []));
      [reflexivity | discriminate].
Defined.

(** The kind translator and the return translator accept the same
    annotations. *)
Lemma kind_and_return_token_together a :
  succeeds (translateReturnTypeToKind a) = succeeds (translateReturnTypeToJniType a).
Proof.
  destruct a as [type name nullable props].
  unfold translateReturnTypeToKind, translateReturnTypeToJniType; simpl.
  split_tags; reflexivity.
Qed.

(** X3: a return annotation has a dispatch kind exactly when it has a return
    token. *)
Theorem kind_iff_return_token a :
  (exists kind, translateReturnTypeToKind a = Ok kind)
  <-> (exists token, translateReturnTypeToJniType a = Ok token).
Proof.
  pose proof (kind_and_return_token_together a) as H.
  destruct (translateReturnTypeToKind a) as [kind | m];
    destruct (translateReturnTypeToJniType a) as [token | m'];
    simpl in H; try discriminate.
  - split; intros _; eexists; reflexivity.
  - split; intros [x Hx]; discriminate.
Qed.

(** X4: outside the object and array tags, an annotation that has a return
    token has the same token in parameter position under the same
    nullability; for the object and array tags the parameter token names the
    readable class and the return token the writable one. *)
Theorem tokens_across_positions {U : Utils} a name aliases token :
  translateReturnTypeToJniType a = Ok token ->
  (mem (ta_type a) containerTags = false ->
   translateParamTypeToJniType (mkParam name (ta_nullable a) a) aliases = Ok token)
  /\ (mem (ta_type a) containerTags = true ->
      exists class,
        (class = "Map;" \/ class = "Array;")
        /\ token = "Lcom/facebook/react/bridge/Writable" ++ class
        /\ translateParamTypeToJniType (mkParam name (ta_nullable a) a) aliases
           = Ok ("Lcom/facebook/react/bridge/Readable" ++ class)).
Proof.
  destruct a as [type aname nullable props].
  unfold translateReturnTypeToJniType, translateParamTypeToJniType, mem, containerTags;
    simpl.
  split_tags; intros H; injection H as <-; split; intros Hc; try discriminate;
    try reflexivity.
  - exists "Map;"; auto.
  - exists "Map;"; auto.
  - exists "Array;"; auto.
Qed.

Lemma tokens_across_positions_witness :
  translateParamTypeToJniType (mkParam "limit" true (numberAnnotation true)) []
  = Ok "Ljava/lang/Double;"
  /\ translateParamTypeToJniType (mkParam "options" false (objectAnnotation [])) []
     = Ok "Lcom/facebook/react/bridge/ReadableMap;".
Proof.
  split.
  - apply (tokens_across_positions (numberAnnotation true) "limit" []
             "Ljava/lang/Double;" eq_refl); reflexivity.
  - destruct (proj2 (tokens_across_positions (objectAnnotation []) "options" []
                       "Lcom/facebook/react/bridge/WritableMap;" eq_refl) eq_refl)
      as [class [_ [Hw Hr]]].
    injection Hw as <-. exact Hr.
Defined.

(** X5: an alias reference is resolved once: when the annotation it
    resolves to is again an alias reference, the parameter translator
    throws the error of an unknown tag. *)
Theorem alias_of_alias_is_refused {U : Utils} param aliases resolved :
  ta_type (p_typeAnnotation param) = aliasTag ->
  getTypeAliasTypeAnnotation (ta_name (p_typeAnnotation param)) aliases = Ok resolved ->
  ta_type resolved = aliasTag ->
  translateParamTypeToJniType param aliases
  = Throw ("Unknown prop type for method arg, found: TypeAliasTypeAnnotation" ++ dquote).
Proof.
  open_param param. destruct resolved as [rtype rname rnull rprops]; simpl.
  unfold aliasTag. intros -> Hresolved ->.
  unfold translateParamTypeToJniType; simpl.
  rewrite Hresolved. reflexivity.
Qed.

Lemma alias_of_alias_is_refused_witness :
  translateParamTypeToJniType
    (mkParam "enabled" false (mkTypeAnnotation aliasTag "Outer" false None))
    chainedAliases
  = Throw ("Unknown prop type for method arg, found: TypeAliasTypeAnnotation" ++ dquote).
Proof.
  apply (alias_of_alias_is_refused
           (mkParam "enabled" false (mkTypeAnnotation aliasTag "Outer" false None))
           chainedAliases (mkTypeAnnotation aliasTag "Flag" false None));
    reflexivity.
Defined.

(** X6: the name of a parameter never reaches its token, whatever the
    annotation is, and its nullability reaches it only for the boolean and
    numeric tags: a nullable object, array, string or callback gets the
    token of the non-nullable one, and no error. *)
Theorem nullable_ignored_outside_value_types {U : Utils}
    name name' nullable nullable' a aliases :
  translateParamTypeToJniType (mkParam name nullable a) aliases
  = translateParamTypeToJniType (mkParam name' nullable a) aliases
  /\ (mem (ta_type a) (aliasTag :: "BooleanTypeAnnotation" :: numericTags) = false ->
      translateParamTypeToJniType (mkParam name nullable a) aliases
      = translateParamTypeToJniType (mkParam name' nullable' a) aliases).
Proof.
  split; [reflexivity | ].
  destruct a as [type aname anull props].
  unfold mem, aliasTag, numericTags, translateParamTypeToJniType; simpl.
  split_tags.
Qed.

Lemma nullable_ignored_outside_value_types_witness :
  translateParamTypeToJniType (mkParam "flag" true (booleanAnnotation false)) flagAliases
  = translateParamTypeToJniType (mkParam "other" true (booleanAnnotation false)) flagAliases
  /\ translateParamTypeToJniType (mkParam "options" true (objectAnnotation [])) []
     = translateParamTypeToJniType (mkParam "settings" false (objectAnnotation [])) [].
Proof.
  split.
  - exact (proj1 (nullable_ignored_outside_value_types
                    "flag" "other" true false (booleanAnnotation false) flagAliases)).
  - exact (proj2 (nullable_ignored_outside_value_types
                    "options" "settings" true false (objectAnnotation []) [])
             eq_refl).
Defined.

(** ** Descriptors of arbitrary methods *)

Lemma append_empty_r (u : string) : u ++ EmptyString = u.
Proof.
  induction u as [ | c u IH]; simpl; [reflexivity | now rewrite IH].
Qed.

Lemma join_empty_cons part parts :
  join EmptyString (part :: parts) = part ++ join EmptyString parts.
Proof.
  unfold join; simpl. destruct parts; [now rewrite append_empty_r | reflexivity].
Qed.

Lemma join_empty_snoc parts part :
  join EmptyString (parts ++ [part])%list = join EmptyString parts ++ part.
Proof.
  induction parts as [ | first parts IH].
  - simpl. reflexivity.
  - change ((first :: parts) ++ [part])%list with (first :: (parts ++ [part]))%list.
    rewrite !join_empty_cons, IH, append_assoc. reflexivity.
Qed.

Lemma mapM_length {A B : Type} (f : A -> result B) xs ys :
  mapM f xs = Ok ys -> List.length ys = List.length xs.
Proof.
  revert ys; induction xs as [ | x xs IH]; simpl; intros ys.
  - intros H; injection H as <-; reflexivity.
  - destruct (f x) as [y | ]; simpl; [ | discriminate].
    destruct (mapM f xs) as [ys' | ]; simpl; [ | discriminate].
    intros H; injection H as <-. simpl. now rewrite (IH ys').
Qed.

Lemma mapM_first_failure {A B : Type} (f : A -> result B) earlier x later ys message :
  mapM f earlier = Ok ys ->
  f x = Throw message ->
  mapM f (earlier ++ x :: later)%list = Throw message.
Proof.
  revert ys; induction earlier as [ | e earlier IH]; simpl; intros ys.
  - intros _ ->. reflexivity.
  - destruct (f e) as [y | ]; simpl; [ | discriminate].
    destruct (mapM f earlier) as [ys' | ] eqn:Hearlier; simpl; [ | discriminate].
    intros _ Hx. rewrite (IH ys' eq_refl Hx). reflexivity.
Qed.

Lemma mapM_failure_source {A B : Type} (f : A -> result B) xs message :
  mapM f xs = Throw message -> exists x, In x xs /\ f x = Throw message.
Proof.
  induction xs as [ | x xs IH]; simpl; [discriminate | ].
  destruct (f x) as [y | m] eqn:Hx; simpl.
  - destruct (mapM f xs) as [ys | m]; simpl; [discriminate | ].
    intros H; injection H as ->.
    destruct (IH eq_refl) as [x' [Hin Hx']]. exists x'; auto.
  - intros H; injection H as ->. exists x; auto.
Qed.

Lemma mapM_succeeds {A B : Type} (f : A -> result B) xs :
  (exists ys, mapM f xs = Ok ys) <-> (forall x, In x xs -> exists y, f x = Ok y).
Proof.
  induction xs as [ | x xs IH]; simpl.
  - split; [intros _ x [] | intros _; eexists; reflexivity].
  - split.
    + intros [ys Hys] x' Hin.
      destruct (f x) as [y | ] eqn:Hx; simpl in Hys; [ | discriminate].
      destruct (mapM f xs) as [ys' | ] eqn:Hxs; simpl in Hys; [ | discriminate].
      destruct Hin as [<- | Hin]; [eexists; exact Hx | ].
      apply (proj1 IH); [eexists; reflexivity | exact Hin].
    + intros Hall.
      destruct (Hall x (or_introl eq_refl)) as [y ->]; simpl.
      destruct (proj2 IH (fun x' Hin => Hall x' (or_intror Hin))) as [ys ->]; simpl.
      eexists; reflexivity.
Qed.

Lemma promise_return_token a :
  isPromise a = true -> translateReturnTypeToJniType a = Ok promiseToken.
Proof.
  destruct a as [type name nullable props]; unfold isPromise; simpl.
  intros H; apply String.eqb_eq in H; subst type. reflexivity.
Qed.

(** The parts of a descriptor that is built. *)
Lemma descriptor_parts {U : Utils} property aliases signature :
  translateMethodTypeToJniSignature property aliases = Ok signature ->
  exists tokens returnToken,
    mapM (fun param => translateParamTypeToJniType param aliases)
         (params (m_typeAnnotation property)) = Ok tokens
    /\ signature
       = "(" ++ join EmptyString tokens
             ++ (if isPromise (returnTypeAnnotation (m_typeAnnotation property))
                 then promiseToken else EmptyString)
             ++ ")" ++ returnToken
    /\ (if m_name property =? "getConstants"
        then returnToken = "Ljava/util/Map;"
        else translateReturnTypeToJniType (processedReturnTypeAnnotation property)
             = Ok returnToken).
Proof.
  unfold translateMethodTypeToJniSignature, argsSignature.
  destruct (mapM _ _) as [tokens | ] eqn:Htokens; simpl; [ | discriminate].
  intros Hsig. exists tokens.
  assert (exists args,
             args = join EmptyString tokens
                      ++ (if isPromise (returnTypeAnnotation (m_typeAnnotation property))
                          then promiseToken else EmptyString)
             /\ (let* returnSignature :=
                   if m_name property =? "getConstants"
                   then Ok "Ljava/util/Map;"
                   else translateReturnTypeToJniType
                          (processedReturnTypeAnnotation property) in
                 Ok ("(" ++ args ++ ")" ++ returnSignature)) = Ok signature)
    as [args [Hargs Hrest]].
  { destruct (isPromise _) eqn:Hpromise.
    - rewrite (promise_return_token _ Hpromise) in Hsig; simpl in Hsig.
      eexists; split; [ | exact Hsig]. apply join_empty_snoc.
    - simpl in Hsig. eexists; split; [ | exact Hsig]. now rewrite append_empty_r. }
  subst args. clear Hsig.
  destruct (m_name property =? "getConstants"); cbn [bind] in Hrest.
  - exists "Ljava/util/Map;".
    assert (signature
            = "(" ++ (join EmptyString tokens
                        ++ (if isPromise (returnTypeAnnotation (m_typeAnnotation property))
                            then promiseToken else EmptyString))
                  ++ ")" ++ "Ljava/util/Map;") as -> by congruence.
    split; [reflexivity | split; [now rewrite append_assoc | reflexivity]].
  - destruct (translateReturnTypeToJniType _) as [returnToken | ]; cbn [bind] in Hrest;
      [ | discriminate].
    exists returnToken.
    assert (signature
            = "(" ++ (join EmptyString tokens
                        ++ (if isPromise (returnTypeAnnotation (m_typeAnnotation property))
                            then promiseToken else EmptyString))
                  ++ ")" ++ returnToken) as -> by congruence.
    split; [reflexivity | split; [now rewrite append_assoc | reflexivity]].
Qed.

(** X7: a descriptor that is built holds, between its parentheses, one token
    for each declared parameter, in order, and after them the promise token
    when the method returns a promise; after the parentheses comes the map
    token for getConstants and the token of the effective return annotation
    for every other name. *)
Theorem descriptor_shape {U : Utils} property aliases signature :
  translateMethodTypeToJniSignature property aliases = Ok signature ->
  exists tokens returnToken,
    mapM (fun param => translateParamTypeToJniType param aliases)
         (params (m_typeAnnotation property)) = Ok tokens
    /\ List.length tokens = List.length (params (m_typeAnnotation property))
    /\ signature
       = "(" ++ join EmptyString tokens
             ++ (if isPromise (returnTypeAnnotation (m_typeAnnotation property))
                 then promiseToken else EmptyString)
             ++ ")" ++ returnToken
    /\ (if m_name property =? "getConstants"
        then returnToken = "Ljava/util/Map;"
        else translateReturnTypeToJniType (processedReturnTypeAnnotation property)
             = Ok returnToken).
Proof.
  intros Hsig.
  destruct (descriptor_parts property aliases signature Hsig)
    as [tokens [returnToken [Htokens [Hsignature Hreturn]]]].
  exists tokens, returnToken.
  split; [exact Htokens | split; [ | split; assumption]].
  apply (mapM_length _ _ _ Htokens).
Qed.

Lemma descriptor_shape_witness :
  exists tokens returnToken,
    mapM (fun param => translateParamTypeToJniType param [])
         (params (m_typeAnnotation saveMethod)) = Ok tokens
    /\ List.length tokens = 2
    /\ "(Ljava/lang/String;Lcom/facebook/react/bridge/ReadableMap;Lcom/facebook/react/bridge/Promise;)V"
       = "(" ++ join EmptyString tokens ++ promiseToken ++ ")" ++ returnToken
    /\ translateReturnTypeToJniType voidReturn = Ok returnToken.
Proof.
  destruct (descriptor_shape saveMethod []
              "(Ljava/lang/String;Lcom/facebook/react/bridge/ReadableMap;Lcom/facebook/react/bridge/Promise;)V"
              eq_refl)
    as [tokens [returnToken [Htokens [Hlength [Hsig Hreturn]]]]].
  exists tokens, returnToken. auto.
Defined.

(** X8: the descriptor fails with the error of the first declared parameter
    that has no token, whatever the later parameters and the return
    annotation are. *)
Theorem descriptor_fails_at_first_parameter {U : Utils}
    property aliases earlier param later tokens message :
  params (m_typeAnnotation property) = (earlier ++ param :: later)%list ->
  mapM (fun param => translateParamTypeToJniType param aliases) earlier = Ok tokens ->
  translateParamTypeToJniType param aliases = Throw message ->
  translateMethodTypeToJniSignature property aliases = Throw message.
Proof.
  intros Hparams Hearlier Hparam.
  unfold translateMethodTypeToJniSignature, argsSignature.
  rewrite Hparams, (mapM_first_failure _ _ _ _ _ _ Hearlier Hparam).
  reflexivity.
Qed.

Lemma descriptor_fails_at_first_parameter_witness :
  translateMethodTypeToJniSignature oddMethod []
  = Throw ("Unknown prop type for method arg, found: AnyTypeAnnotation" ++ dquote).
Proof.
  apply (descriptor_fails_at_first_parameter oddMethod []
           [mkParam "depth" false (numberAnnotation false)] anyParam [callbackParam]
           ["D"]);
    reflexivity.
Defined.

(** X9: for a method that returns a promise, the dispatch kind is
    PromiseKind and the descriptor is the tokens of the declared parameters,
    then the promise token, and the return token V, or the map token when
    the method is named getConstants. *)
Theorem promise_descriptor {U : Utils} property aliases tokens :
  isPromise (returnTypeAnnotation (m_typeAnnotation property)) = true ->
  mapM (fun param => translateParamTypeToJniType param aliases)
       (params (m_typeAnnotation property)) = Ok tokens ->
  translateReturnTypeToKind (returnTypeAnnotation (m_typeAnnotation property))
  = Ok "PromiseKind"
  /\ translateMethodTypeToJniSignature property aliases
     = Ok ("(" ++ join EmptyString tokens ++ promiseToken ++ ")"
               ++ (if m_name property =? "getConstants" then "Ljava/util/Map;" else "V")).
Proof.
  intros Hpromise Htokens. split.
  - destruct (returnTypeAnnotation _) as [type name nullable props].
    unfold isPromise in Hpromise; simpl in Hpromise.
    apply String.eqb_eq in Hpromise; subst type. reflexivity.
  - unfold translateMethodTypeToJniSignature, argsSignature, processedReturnTypeAnnotation.
    rewrite Htokens, Hpromise, (promise_return_token _ Hpromise); simpl.
    rewrite join_empty_snoc.
    change (translateReturnTypeToJniType voidReturn) with (@Ok string "V").
    destruct (m_name property =? "getConstants"); cbn [bind];
      rewrite append_assoc; reflexivity.
Qed.

Lemma promise_descriptor_witness :
  translateReturnTypeToKind (returnTypeAnnotation (m_typeAnnotation saveMethod))
  = Ok "PromiseKind"
  /\ translateMethodTypeToJniSignature saveMethod []
     = Ok "(Ljava/lang/String;Lcom/facebook/react/bridge/ReadableMap;Lcom/facebook/react/bridge/Promise;)V".
Proof.
  apply (promise_descriptor saveMethod []
           ["Ljava/lang/String;"; "Lcom/facebook/react/bridge/ReadableMap;"]);
    reflexivity.
Defined.

(** ** Thunks and registration entries of arbitrary methods *)

(** X10: the thunk emitter fails only with the error of the kind translator
    on the return annotation or with the error of the parameter translator
    on a declared parameter; the return translator adds no error of its own,
    since the kind translator refuses the same annotations. *)
Theorem thunk_error_sources {U : Utils} property aliases message :
  translateMethodForImplementation property aliases = Throw message ->
  translateReturnTypeToKind (returnTypeAnnotation (m_typeAnnotation property))
  = Throw message
  \/ exists param,
      In param (params (m_typeAnnotation property))
      /\ translateParamTypeToJniType param aliases = Throw message.
Proof.
  unfold translateMethodForImplementation.
  destruct (isEmptyGetConstants _ _); [discriminate | ].
  pose proof (kind_and_return_token_together
                (returnTypeAnnotation (m_typeAnnotation property))) as Hsame.
  destruct (translateReturnTypeToKind _) as [kind | m]; cbn [bind].
  2: { intros H; injection H as ->. now left. }
  destruct (translateMethodTypeToJniSignature property aliases) as [signature | m] eqn:Hsig;
    cbn [bind]; [discriminate | ].
  intros H; injection H as ->. right.
  unfold translateMethodTypeToJniSignature, argsSignature in Hsig.
  destruct (mapM _ _) as [tokens | m] eqn:Htokens; cbn [bind] in Hsig.
  2: { injection Hsig as ->. apply (mapM_failure_source _ _ _ Htokens). }
  exfalso.
  unfold processedReturnTypeAnnotation in Hsig.
  destruct (isPromise _) eqn:Hpromise.
  - rewrite (promise_return_token _ Hpromise) in Hsig; cbn [bind] in Hsig.
    change (translateReturnTypeToJniType voidReturn) with (@Ok string "V") in Hsig.
    destruct (m_name property =? "getConstants"); discriminate.
  - cbn [bind] in Hsig.
    destruct (m_name property =? "getConstants"); [discriminate | ].
    destruct (translateReturnTypeToJniType _); simpl in *; discriminate.
Qed.

Lemma thunk_error_sources_witness :
  (translateReturnTypeToKind (returnTypeAnnotation (m_typeAnnotation oddMethod))
   = Throw ("Unknown prop type for returning value, found: AnyTypeAnnotation" ++ dquote)
   \/ exists param,
       In param (params (m_typeAnnotation oddMethod))
       /\ translateParamTypeToJniType param []
          = Throw ("Unknown prop type for returning value, found: AnyTypeAnnotation"
                     ++ dquote))
  /\ (translateReturnTypeToKind (returnTypeAnnotation (m_typeAnnotation oddParamMethod))
      = Throw ("Unknown prop type for method arg, found: AnyTypeAnnotation" ++ dquote)
      \/ exists param,
          In param (params (m_typeAnnotation oddParamMethod))
          /\ translateParamTypeToJniType param []
             = Throw ("Unknown prop type for method arg, found: AnyTypeAnnotation"
                        ++ dquote)).
Proof.
  split.
  - apply (thunk_error_sources oddMethod []). reflexivity.
  - apply (thunk_error_sources oddParamMethod []). reflexivity.
Defined.

Lemma startsWith_not_empty c s : startsWith c s = true -> (s =? EmptyString) = false.
Proof. destruct s; simpl; [discriminate | reflexivity]. Qed.

(** X11: the thunk text and the registration entry of a method are empty
    together: both are empty for the constants accessor with an empty
    structural object, and for every other method the entry is not empty
    and the thunk, when it is built, is not empty. *)
Theorem thunk_and_entry_skipped_together {U : Utils} property aliases :
  (propertyDef property =? EmptyString)
  = isEmptyGetConstants (m_name property)
      (returnTypeAnnotation (m_typeAnnotation property))
  /\ match translateMethodForImplementation property aliases with
     | Ok text =>
         (text =? EmptyString)
         = isEmptyGetConstants (m_name property)
             (returnTypeAnnotation (m_typeAnnotation property))
     | Throw _ =>
         isEmptyGetConstants (m_name property)
           (returnTypeAnnotation (m_typeAnnotation property)) = false
     end.
Proof.
  unfold propertyDef, translateMethodForImplementation.
  destruct (isEmptyGetConstants _ _); [split; reflexivity | ].
  split.
  - apply (startsWith_not_empty " "%char).
    repeat (apply replaceAll_startsWith; [reflexivity | ]).
    reflexivity.
  - destruct (translateReturnTypeToKind _) as [kind | ]; cbn [bind]; [ | reflexivity].
    destruct (translateMethodTypeToJniSignature property aliases) as [signature | ];
      cbn [bind]; [ | reflexivity].
    apply (startsWith_not_empty (ascii_of_nat 10)).
    repeat (apply replaceAll_startsWith; [reflexivity | ]).
    reflexivity.
Qed.

Lemma string_of_uint_plain d : noChar "$" (NilEmpty.string_of_uint d) = true.
Proof. induction d; simpl; auto. Qed.

Lemma entry_name_filled name :
  noChar "$" name = true ->
  replaceAll "::_PROPERTY_NAME_::" name propertyDefTemplate = entryWithName name.
Proof.
  intros Hname. rewrite (replaceAll_plain _ _ _ Hname).
  unfold propertyDefTemplate, entryWithName, dquote.
  scan_template. reflexivity.
Qed.

Lemma entry_count_filled name count :
  noChar ":" name = true ->
  noChar "$" count = true ->
  replaceAll "::_ARGS_COUNT_::" count (entryWithName name) = entryText name count.
Proof.
  intros Hname Hcount. rewrite (replaceAll_plain _ _ _ Hcount).
  unfold entryWithName, entryText, dquote.
  scan_template. reflexivity.
Qed.

(** X12: the registration entry of a method that is not skipped, whose name
    holds no colon and no dollar sign, maps the name to the number of
    declared parameters and to the thunk of that name; the promise of a
    promise return is not counted, and neither the parameter types nor the
    return annotation reach the entry. *)
Theorem registration_entry_text property :
  isEmptyGetConstants (m_name property)
    (returnTypeAnnotation (m_typeAnnotation property)) = false ->
  noChar ":" (m_name property) = true ->
  noChar "$" (m_name property) = true ->
  propertyDef property
  = entryText (m_name property)
      (Number_toString (List.length (params (m_typeAnnotation property)))).
Proof.
  intros Hskip Hcolon Hdollar. unfold propertyDef. rewrite Hskip.
  transitivity
    (replaceAll "::_ARGS_COUNT_::"
       (Number_toString (List.length (params (m_typeAnnotation property))))
       (entryWithName (m_name property))).
  - apply (f_equal (replaceAll "::_ARGS_COUNT_::" _)).
    exact (entry_name_filled _ Hdollar).
  - apply entry_count_filled; [exact Hcolon | apply string_of_uint_plain].
Qed.

Lemma registration_entry_text_witness :
  propertyDef saveMethod = entryText "save" "2".
Proof.
  apply (registration_entry_text saveMethod); reflexivity.
Defined.

(** ** The generated file *)

Lemma get_of_key {V : Type} (o : JsObject V) k :
  In k (Object_keys o) -> exists v, get k o = Some v.
Proof.
  intros Hk; apply Object_keys_In in Hk.
  destruct (get k o) as [v | ] eqn:Hget; [eexists; reflexivity | ].
  apply get_None_created in Hget. contradiction.
Qed.

Lemma key_of_get {V : Type} (o : JsObject V) k v :
  get k o = Some v -> In k (Object_keys o).
Proof.
  intros Hget. apply Object_keys_In.
  destruct (in_dec string_dec k (created o)) as [Hin | Hout]; [exact Hin | ].
  apply get_None_created in Hout. congruence.
Qed.

(** ** The flattened table *)

Lemma insert_index_names (e : N * string) l x :
  In x (map snd (insert_index e l)) <-> x = snd e \/ In x (map snd l).
Proof.
  induction l as [ | e' l IH]; simpl.
  - intuition.
  - destruct (fst e <=? fst e')%N; simpl; [intuition | ].
    rewrite IH; intuition.
Qed.

Lemma insert_index_NoDup (e : N * string) l :
  NoDup (map snd l) -> ~ In (snd e) (map snd l) -> NoDup (map snd (insert_index e l)).
Proof.
  induction l as [ | e' l IH]; simpl; intros Hl He.
  - constructor; [intros [] | constructor].
  - destruct (fst e <=? fst e')%N; simpl.
    + constructor; [exact He | exact Hl].
    + apply NoDup_cons_iff in Hl as [He' Hl].
      constructor.
      * rewrite insert_index_names. intros [Heq | Hin]; [ | contradiction].
        apply He. left. now symmetry.
      * apply IH; [exact Hl | ]. intros Hin. apply He. now right.
Qed.

Lemma index_keys_NoDup (keys : list string) :
  NoDup keys -> NoDup (map snd (index_keys keys)).
Proof.
  induction 1 as [ | k keys Hk _ IH]; simpl; [constructor | ].
  destruct (arrayIndex k) as [n | ]; [ | exact IH].
  apply insert_index_NoDup; [exact IH | ].
  simpl. intros Hin. apply index_keys_In in Hin as [Hin _]. contradiction.
Qed.

Lemma Object_keys_NoDup {V : Type} (o : JsObject V) :
  NoDup (created o) -> NoDup (Object_keys o).
Proof.
  intros Hcreated. unfold Object_keys. apply NoDup_app.
  - apply index_keys_NoDup, Hcreated.
  - apply NoDup_filter, Hcreated.
  - intros k Hindex Hplain.
    apply index_keys_In in Hindex as [_ Hindex].
    apply filter_In in Hplain as [_ Hplain].
    rewrite Hindex in Hplain. discriminate.
Qed.

Lemma firstSeen_NoDup (l : list string) : NoDup (firstSeen l).
Proof.
  induction l as [ | k l IH]; simpl; constructor.
  - intros Hin. apply filter_In in Hin as [_ Hk].
    rewrite String.eqb_refl in Hk. discriminate.
  - apply NoDup_filter, IH.
Qed.

Lemma firstSeen_keeps k (l : list string) : In k l -> In k (firstSeen l).
Proof.
  induction l as [ | k0 l IH]; simpl; [auto | ].
  destruct (String.eqb_spec k k0) as [-> | Hne]; [now left | ].
  intros [Heq | Hin]; [now left | right].
  apply filter_In. split; [exact (IH Hin) | ].
  apply String.eqb_neq in Hne. now rewrite Hne.
Qed.

Lemma flat_map_ext_in {A B : Type} (f g : A -> list B) (l : list A) :
  (forall x, In x l -> f x = g x) -> flat_map f l = flat_map g l.
Proof.
  induction l as [ | x l IH]; simpl; intros Hfg; [reflexivity | ].
  rewrite (Hfg x (or_introl eq_refl)), IH; [reflexivity | ].
  intros y Hy; apply Hfg; now right.
Qed.

(** An object with no repeated key is its keys, in creation order, each
    with its value. *)
Lemma object_by_keys {V : Type} (o : JsObject V) :
  NoDup (created o) ->
  o = flat_map (fun k => match get k o with
                         | Some v => [(k, v)]
                         | None => []
                         end)
               (created o).
Proof.
  induction o as [ | [k v] o IH]; simpl; intros Hkeys; [reflexivity | ].
  apply NoDup_cons_iff in Hkeys as [Hk Hkeys].
  rewrite String.eqb_refl. simpl. f_equal.
  transitivity (flat_map (fun k' => match get k' o with
                                    | Some v' => [(k', v')]
                                    | None => []
                                    end)
                         (created o)); [exact (IH Hkeys) | ].
  apply flat_map_ext_in. intros k' Hk'.
  destruct (String.eqb_spec k k') as [-> | _]; [contradiction | reflexivity].
Qed.

Lemma created_flattened schema :
  created (flattenNativeModules schema) = mergedNames (groupTables schema).
Proof.
  unfold flattenNativeModules, mergedNames.
  rewrite created_flatten. simpl. rewrite fold_addKey_nil. apply firstSeen_filter.
Qed.

Lemma get_flattened schema name :
  get name (flattenNativeModules schema)
  = if name =? "__proto__" then None else lastDefinition name (groupTables schema).
Proof.
  unfold flattenNativeModules. rewrite get_flatten. simpl.
  destruct (name =? "__proto__"); [reflexivity | ].
  destruct (lastDefinition name (groupTables schema)); reflexivity.
Qed.

Lemma mergedNames_NoDup {V : Type} (tables : list (JsObject V)) :
  NoDup (mergedNames tables).
Proof. apply NoDup_filter, firstSeen_NoDup. Qed.

(** The flattened table is the merged table, key by key and in order. *)
Lemma flattened_merged schema :
  flattenNativeModules schema = mergedModules (groupTables schema).
Proof.
  transitivity
    (flat_map (fun k => match get k (flattenNativeModules schema) with
                        | Some v => [(k, v)]
                        | None => []
                        end)
              (created (flattenNativeModules schema))).
  - apply object_by_keys. rewrite created_flattened. apply mergedNames_NoDup.
  - rewrite created_flattened. unfold mergedModules.
    apply flat_map_ext_in. intros name Hin.
    rewrite get_flattened.
    apply filter_In in Hin as [_ Hname].
    apply negb_true_iff in Hname. rewrite Hname. reflexivity.
Qed.

Lemma Object_keys_flattened schema :
  plainTables (groupTables schema) = true ->
  Object_keys (flattenNativeModules schema) = mergedNames (groupTables schema).
Proof.
  intros Hplain.
  rewrite Object_keys_plain; [apply created_flattened | ].
  rewrite created_flattened.
  apply plainTables_keys in Hplain.
  rewrite plainKeys_forall in Hplain. apply plainKeys_forall.
  intros k Hk. apply filter_In in Hk as [Hk _]. auto.
Qed.

(** X14: the flattened table enumerates every module name once, whatever
    the groups repeat, and enumerates exactly the names other than
    [__proto__] that some group defines: apart from a module of that name,
    flattening neither drops nor invents a module, so the file has one class
    and one lookup block for each distinct module name. *)
Theorem flattened_names schema :
  NoDup (Object_keys (flattenNativeModules schema))
  /\ forall name,
      In name (Object_keys (flattenNativeModules schema))
      <-> name <> "__proto__"
          /\ exists table,
              In table (groupTables schema) /\ In name (Object_keys table).
Proof.
  split.
  - apply Object_keys_NoDup. rewrite created_flattened. apply mergedNames_NoDup.
  - intros name. rewrite Object_keys_In, created_flattened.
    unfold mergedNames. rewrite filter_In, negb_true_iff, String.eqb_neq.
    split.
    + intros [Hin Hname]. split; [exact Hname | ].
      apply firstSeen_In, in_concat in Hin as [keys [Hkeys Hin]].
      apply in_map_iff in Hkeys as [table [<- Htable]].
      exists table; auto.
    + intros [Hname [table [Htable Hin]]]. split; [ | exact Hname].
      apply firstSeen_keeps, in_concat.
      exists (Object_keys table). split; [ | exact Hin].
      apply in_map_iff. exists table; auto.
Qed.

(** X13: generation is all or nothing. It returns a file exactly when the
    thunk of every method can be built in the last definition of every
    module name other than [__proto__], and then returns the single file
    named after the module spec with the suffix [-generated.cpp]; one method
    that cannot be translated makes the whole call throw, and a module named
    [__proto__] is never looked at. *)
Theorem generate_all_or_nothing {U : Utils} libraryName schema moduleSpecName :
  ((exists files, generate libraryName schema moduleSpecName = Ok files)
   <-> (forall name nativeModule property,
           name <> "__proto__" ->
           lastDefinition name (groupTables schema) = Some nativeModule ->
           In property (properties nativeModule) ->
           exists text,
             translateMethodForImplementation property (aliases nativeModule) = Ok text))
  /\ (forall files,
         generate libraryName schema moduleSpecName = Ok files ->
         exists text, files = [(moduleSpecName ++ "-generated.cpp", text)]).
Proof.
  assert (Hflat : forall name nativeModule,
             get name (flattenNativeModules schema) = Some nativeModule
             <-> name <> "__proto__"
                 /\ lastDefinition name (groupTables schema) = Some nativeModule).
  { intros name nativeModule. rewrite get_flattened.
    destruct (String.eqb_spec name "__proto__") as [-> | Hname].
    - split; [discriminate | intros [H _]; now contradiction H].
    - split; [intros H; split; assumption | intros [_ H]; exact H]. }
  unfold generate. split; [split | ].
  - intros [files Hfiles] name nativeModule property Hname Hlast Hin.
    assert (Hget : get name (flattenNativeModules schema) = Some nativeModule)
      by (apply Hflat; split; assumption).
    destruct (mapM _ _) as [moduleTexts | ] eqn:Htexts; cbn [bind] in Hfiles;
      [ | discriminate].
    assert (exists text, moduleText (flattenNativeModules schema) name = Ok text)
      as [text Htext].
    { apply (proj1 (mapM_succeeds (moduleText (flattenNativeModules schema))
                      (Object_keys (flattenNativeModules schema))));
        [eexists; exact Htexts | ].
      apply (key_of_get _ _ _ Hget). }
    unfold moduleText in Htext. rewrite Hget in Htext.
    destruct (mapM _ (properties nativeModule)) as [thunks | ] eqn:Hthunks;
      cbn [bind] in Htext; [ | discriminate].
    apply (proj1 (mapM_succeeds
                    (fun property =>
                       translateMethodForImplementation property (aliases nativeModule))
                    (properties nativeModule)));
      [eexists; exact Hthunks | exact Hin].
  - intros Hall.
    assert (exists moduleTexts,
               mapM (moduleText (flattenNativeModules schema))
                    (Object_keys (flattenNativeModules schema)) = Ok moduleTexts)
      as [moduleTexts ->].
    { apply (proj2 (mapM_succeeds (moduleText (flattenNativeModules schema))
                      (Object_keys (flattenNativeModules schema)))).
      intros name Hname.
      destruct (get_of_key _ _ Hname) as [nativeModule Hget].
      unfold moduleText. rewrite Hget.
      apply Hflat in Hget as [Hproto Hlast].
      destruct (proj2 (mapM_succeeds
                         (fun property =>
                            translateMethodForImplementation property
                              (aliases nativeModule))
                         (properties nativeModule))
                  (fun property => Hall name nativeModule property Hproto Hlast))
        as [thunks ->].
      cbn [bind]. eexists; reflexivity. }
    cbn [bind]. eexists; reflexivity.
  - intros files.
    destruct (mapM _ _) as [moduleTexts | ]; cbn [bind]; [ | discriminate].
    intros H; injection H as <-. eexists; reflexivity.
Qed.

Lemma generate_all_or_nothing_witness :
  (exists text, translateMethodForImplementation addMethod [] = Ok text)
  /\ exists text,
      [("SampleSpec-generated.cpp", calcFile)] = [("SampleSpec" ++ "-generated.cpp", text)].
Proof.
  destruct (generate_all_or_nothing "Sample" calcSchema "SampleSpec") as [Hiff Hname].
  split.
  - apply (proj1 Hiff (ex_intro _ [("SampleSpec-generated.cpp", calcFile)] eq_refl)
             "Calc" (mkNativeModule [] [addMethod]) addMethod);
      [discriminate | reflexivity | left; reflexivity].
  - apply (Hname [("SampleSpec-generated.cpp", calcFile)]). reflexivity.
Defined.

(** ** The text of a module *)

Lemma replaceWith_constant replacement pattern skip position rest :
  replaceWith (fun _ => replacement) pattern skip position rest
  = replacePlain pattern replacement skip rest.
Proof.
  revert skip position.
  induction rest as [ | c rest IH]; intros skip position; simpl; [reflexivity | ].
  destruct skip as [ | k]; [ | apply IH].
  rewrite !IH; reflexivity.
Qed.

Lemma replaceAll_replacePlain pattern replacement s :
  noChar "$" replacement = true ->
  replaceAll pattern replacement s = replacePlain pattern replacement 0 s.
Proof.
  intros Hplain. rewrite (replaceAll_plain _ _ _ Hplain). apply replaceWith_constant.
Qed.

Lemma replaceFirst_from_plain pattern replacement str position rest :
  noChar "$" replacement = true ->
  replaceFirst_from pattern replacement str position rest
  = replaceFirstPlain pattern replacement rest.
Proof.
  intros Hplain; revert position.
  induction rest as [ | c rest IH]; intros position.
  - simpl. now rewrite (GetSubstitution_plain _ _ _ _ Hplain).
  - cbn [replaceFirst_from replaceFirstPlain].
    rewrite (GetSubstitution_plain _ _ _ _ Hplain), IH. reflexivity.
Qed.

Lemma replaceFirst_replaceFirstPlain pattern replacement s :
  noChar "$" replacement = true ->
  replaceFirst pattern replacement s = replaceFirstPlain pattern replacement s.
Proof. intros Hplain. apply replaceFirst_from_plain, Hplain. Qed.

Lemma replacePlain_app_plain p pattern replacement w rest :
  noChar p w = true ->
  replacePlain (String p pattern) replacement 0 (w ++ rest)
  = w ++ replacePlain (String p pattern) replacement 0 rest.
Proof.
  induction w as [ | c w IH]; intros Hw; [reflexivity | ].
  simpl in Hw; apply andb_prop in Hw as [Hc Hw]; apply negb_true_iff in Hc.
  change (String c w ++ rest) with (String c (w ++ rest)).
  cbn [replacePlain].
  rewrite (prefix_head_differs p pattern c (w ++ rest) Hc), (IH Hw). reflexivity.
Qed.

Lemma replaceFirstPlain_app_plain p pattern replacement w rest :
  noChar p w = true ->
  replaceFirstPlain (String p pattern) replacement (w ++ rest)
  = w ++ replaceFirstPlain (String p pattern) replacement rest.
Proof.
  induction w as [ | c w IH]; intros Hw; [reflexivity | ].
  simpl in Hw; apply andb_prop in Hw as [Hc Hw]; apply negb_true_iff in Hc.
  change (String c w ++ rest) with (String c (w ++ rest)).
  cbn [replaceFirstPlain].
  rewrite (prefix_head_differs p pattern c (w ++ rest) Hc), (IH Hw). reflexivity.
Qed.

Ltac scan_text :=
  repeat (simpl; rewrite ?append_assoc;
          try (rewrite replacePlain_app_plain by assumption);
          try (rewrite replaceFirstPlain_app_plain by assumption)).

(** The module name reaches the one placeholder of a thunk, whatever text
    follows the thunk. *)
Lemma thunk_module_filled moduleName kind name signature rest :
  noChar ":" kind = true ->
  noChar ":" name = true ->
  noChar ":" signature = true ->
  replacePlain "::_MODULE_NAME_::" moduleName 0 (thunkText kind name signature ++ rest)
  = finalThunk moduleName kind name signature
      ++ replacePlain "::_MODULE_NAME_::" moduleName 0 rest.
Proof.
  intros Hk Hn Hs.
  unfold thunkText, thunkHeader, finalThunk, nl, dquote.
  scan_text. reflexivity.
Qed.

Lemma thunk_holds_no_map entries kind name signature rest :
  noChar ":" kind = true ->
  noChar ":" name = true ->
  noChar ":" signature = true ->
  replaceFirstPlain "::_PROPERTIES_MAP_::" entries (thunkText kind name signature ++ rest)
  = thunkText kind name signature
      ++ replaceFirstPlain "::_PROPERTIES_MAP_::" entries rest.
Proof.
  intros Hk Hn Hs.
  unfold thunkText, thunkHeader, nl, dquote.
  scan_text. reflexivity.
Qed.

Lemma entry_module_filled moduleName name count rest :
  noChar ":" name = true ->
  noChar ":" count = true ->
  replacePlain "::_MODULE_NAME_::" moduleName 0 (entryText name count ++ rest)
  = finalEntry moduleName name count
      ++ replacePlain "::_MODULE_NAME_::" moduleName 0 rest.
Proof.
  intros Hn Hc.
  unfold entryText, finalEntry, dquote.
  scan_text. reflexivity.
Qed.

#[local] Arguments join : simpl never.

Lemma join_cons_cons sep (x y : string) l :
  join sep (x :: y :: l) = x ++ sep ++ join sep (y :: l).
Proof. reflexivity. Qed.

Lemma join_plain c sep parts :
  noChar c sep = true ->
  forallb (noChar c) parts = true ->
  noChar c (join sep parts) = true.
Proof.
  intros Hsep. induction parts as [ | part parts IH]; [reflexivity | ].
  intros H; apply andb_prop in H as [Hpart Hparts].
  destruct parts as [ | next parts]; [exact Hpart | ].
  rewrite join_cons_cons, !noChar_app, Hpart, Hsep. exact (IH Hparts).
Qed.

Lemma sourceThunk_plain parts :
  cleanThunk "$" parts = true -> noChar "$" (sourceThunk parts) = true.
Proof.
  destruct parts as [[[kind name] signature] | ]; cbn [cleanThunk sourceThunk];
    [ | reflexivity].
  intros H; apply andb_prop in H as [H Hs]; apply andb_prop in H as [Hk Hn].
  unfold thunkText, thunkHeader. rewrite !noChar_app, Hk, Hn, Hs. reflexivity.
Qed.

Lemma sourceEntry_plain parts :
  cleanEntry "$" parts = true -> noChar "$" (sourceEntry parts) = true.
Proof.
  destruct parts as [[name count] | ]; cbn [cleanEntry sourceEntry]; [ | reflexivity].
  intros H; apply andb_prop in H as [Hn Hc].
  unfold entryText. rewrite !noChar_app, Hn, Hc. reflexivity.
Qed.

Lemma forallb_map {A B : Type} (f : A -> B) (p : B -> bool) (q : A -> bool) l :
  (forall x, q x = true -> p (f x) = true) ->
  forallb q l = true -> forallb p (map f l) = true.
Proof.
  intros Hpq. induction l as [ | x l IH]; simpl; [reflexivity | ].
  intros H; apply andb_prop in H as [Hx Hl].
  now rewrite (Hpq x Hx), (IH Hl).
Qed.

(** The module name reaches every thunk of a module and every entry. *)
Lemma thunks_module_filled moduleName parts rest :
  forallb (cleanThunk ":") parts = true ->
  replacePlain "::_MODULE_NAME_::" moduleName 0
    (join nl (map sourceThunk parts) ++ rest)
  = join nl (map (finalThunkOf moduleName) parts)
      ++ replacePlain "::_MODULE_NAME_::" moduleName 0 rest.
Proof.
  revert rest. induction parts as [ | part parts IH]; intros rest; [reflexivity | ].
  intros H; apply andb_prop in H as [Hpart Hparts].
  assert (forall tail,
             replacePlain "::_MODULE_NAME_::" moduleName 0 (sourceThunk part ++ tail)
             = finalThunkOf moduleName part
                 ++ replacePlain "::_MODULE_NAME_::" moduleName 0 tail) as Hstep.
  { intros tail. destruct part as [[[kind name] signature] | ]; [ | reflexivity].
    simpl in Hpart.
    apply andb_prop in Hpart as [Hpart Hs]; apply andb_prop in Hpart as [Hk Hn].
    apply thunk_module_filled; assumption. }
  destruct parts as [ | next parts]; [apply Hstep | ].
  change (map sourceThunk (part :: next :: parts))
    with (sourceThunk part :: map sourceThunk (next :: parts)).
  change (map (finalThunkOf moduleName) (part :: next :: parts))
    with (finalThunkOf moduleName part :: map (finalThunkOf moduleName) (next :: parts)).
  change (map sourceThunk (next :: parts))
    with (sourceThunk next :: map sourceThunk parts) at 1.
  change (map (finalThunkOf moduleName) (next :: parts))
    with (finalThunkOf moduleName next :: map (finalThunkOf moduleName) parts) at 1.
  rewrite !join_cons_cons, !append_assoc, Hstep.
  rewrite (replacePlain_app_plain ":" _ _ nl) by reflexivity.
  f_equal. f_equal.
  exact (IH rest Hparts).
Qed.

Lemma thunks_hold_no_map entries parts rest :
  forallb (cleanThunk ":") parts = true ->
  replaceFirstPlain "::_PROPERTIES_MAP_::" entries
    (join nl (map sourceThunk parts) ++ rest)
  = join nl (map sourceThunk parts)
      ++ replaceFirstPlain "::_PROPERTIES_MAP_::" entries rest.
Proof.
  revert rest. induction parts as [ | part parts IH]; intros rest; [reflexivity | ].
  intros H; apply andb_prop in H as [Hpart Hparts].
  assert (forall tail,
             replaceFirstPlain "::_PROPERTIES_MAP_::" entries (sourceThunk part ++ tail)
             = sourceThunk part
                 ++ replaceFirstPlain "::_PROPERTIES_MAP_::" entries tail) as Hstep.
  { intros tail. destruct part as [[[kind name] signature] | ]; [ | reflexivity].
    simpl in Hpart.
    apply andb_prop in Hpart as [Hpart Hs]; apply andb_prop in Hpart as [Hk Hn].
    apply thunk_holds_no_map; assumption. }
  destruct parts as [ | next parts]; [apply Hstep | ].
  change (map sourceThunk (part :: next :: parts))
    with (sourceThunk part :: map sourceThunk (next :: parts)).
  change (map sourceThunk (next :: parts))
    with (sourceThunk next :: map sourceThunk parts).
  rewrite !join_cons_cons, !append_assoc, Hstep.
  rewrite (replaceFirstPlain_app_plain ":" _ _ nl) by reflexivity.
  f_equal. f_equal.
  exact (IH rest Hparts).
Qed.

Lemma entries_module_filled moduleName parts rest :
  forallb (cleanEntry ":") parts = true ->
  replacePlain "::_MODULE_NAME_::" moduleName 0
    (join nl (map sourceEntry parts) ++ rest)
  = join nl (map (finalEntryOf moduleName) parts)
      ++ replacePlain "::_MODULE_NAME_::" moduleName 0 rest.
Proof.
  revert rest. induction parts as [ | part parts IH]; intros rest; [reflexivity | ].
  intros H; apply andb_prop in H as [Hpart Hparts].
  assert (forall tail,
             replacePlain "::_MODULE_NAME_::" moduleName 0 (sourceEntry part ++ tail)
             = finalEntryOf moduleName part
                 ++ replacePlain "::_MODULE_NAME_::" moduleName 0 tail) as Hstep.
  { intros tail. destruct part as [[name count] | ]; [ | reflexivity].
    simpl in Hpart. apply andb_prop in Hpart as [Hn Hc].
    apply entry_module_filled; assumption. }
  destruct parts as [ | next parts]; [apply Hstep | ].
  change (map sourceEntry (part :: next :: parts))
    with (sourceEntry part :: map sourceEntry (next :: parts)).
  change (map (finalEntryOf moduleName) (part :: next :: parts))
    with (finalEntryOf moduleName part :: map (finalEntryOf moduleName) (next :: parts)).
  change (map sourceEntry (next :: parts))
    with (sourceEntry next :: map sourceEntry parts) at 1.
  change (map (finalEntryOf moduleName) (next :: parts))
    with (finalEntryOf moduleName next :: map (finalEntryOf moduleName) parts) at 1.
  rewrite !join_cons_cons, !append_assoc, Hstep.
  rewrite (replacePlain_app_plain ":" _ _ nl) by reflexivity.
  f_equal. f_equal.
  exact (IH rest Hparts).
Qed.

Lemma class_thunks_filled thunks :
  noChar "$" thunks = true ->
  replaceAll "::_TURBOMODULE_METHOD_INVOKERS_::" thunks moduleTemplate
  = classWithThunks thunks.
Proof.
  intros Hthunks. rewrite (replaceAll_replacePlain _ _ _ Hthunks).
  change moduleTemplate with (classWithThunks "::_TURBOMODULE_METHOD_INVOKERS_::").
  unfold classWithThunks, nl.
  scan_text. reflexivity.
Qed.

Lemma class_entries_filled parts entries :
  forallb (cleanThunk ":") parts = true ->
  noChar "$" entries = true ->
  replaceFirst "::_PROPERTIES_MAP_::" entries
    (classWithThunks (join nl (map sourceThunk parts)))
  = classWithEntries (join nl (map sourceThunk parts)) entries.
Proof.
  intros Hparts Hentries. rewrite (replaceFirst_replaceFirstPlain _ _ _ Hentries).
  unfold classWithThunks, classWithEntries.
  rewrite (thunks_hold_no_map _ _ _ Hparts).
  f_equal; unfold nl; scan_text; reflexivity.
Qed.

Lemma class_module_filled moduleName thunks entries :
  forallb (cleanThunk ":") thunks = true ->
  forallb (cleanEntry ":") entries = true ->
  noChar "$" moduleName = true ->
  replaceAll "::_MODULE_NAME_::" moduleName
    (classWithEntries (join nl (map sourceThunk thunks))
       (join nl (map sourceEntry entries)))
  = classText moduleName
      (join nl (map (finalThunkOf moduleName) thunks))
      (join nl (map (finalEntryOf moduleName) entries)).
Proof.
  intros Hthunks Hentries Hname.
  rewrite (replaceAll_replacePlain _ _ _ Hname).
  unfold classWithEntries, classText.
  rewrite (thunks_module_filled _ _ _ Hthunks).
  f_equal.
  transitivity
    (nl ++ nl ++ "Native" ++ moduleName ++ "SpecJSI::Native" ++ moduleName
        ++ "SpecJSI(const JavaTurboModule::InitParams &params)" ++ nl
        ++ "  : JavaTurboModule(params) {" ++ nl
        ++ replacePlain "::_MODULE_NAME_::" moduleName 0
             (join nl (map sourceEntry entries) ++ nl ++ "}")).
  - unfold nl. simpl. reflexivity.
  - rewrite (entries_module_filled _ _ _ Hentries). reflexivity.
Qed.

Lemma translateParamTypeToJniType_colon_free {U : Utils} param aliases token :
  translateParamTypeToJniType param aliases = Ok token ->
  noChar ":" token = true.
Proof.
  open_param param.
  unfold translateParamTypeToJniType; simpl.
  destruct (type =? "TypeAliasTypeAnnotation").
  - destruct (getTypeAliasTypeAnnotation aname aliases)
      as [[rtype rname rnull rprops] | ]; simpl; [ | discriminate ].
    split_tags; intros H; injection H as <-; auto; destruct nullable; auto.
  - simpl. split_tags; intros H; injection H as <-; auto; destruct nullable; auto.
Qed.

Lemma translateReturnTypeToJniType_colon_free a token :
  translateReturnTypeToJniType a = Ok token ->
  noChar ":" token = true.
Proof.
  destruct a as [type name nullable props].
  unfold translateReturnTypeToJniType; simpl.
  split_tags; intros H; injection H as <-; auto; destruct nullable; auto.
Qed.

Lemma translateMethodTypeToJniSignature_colon_free {U : Utils} property aliases signature :
  translateMethodTypeToJniSignature property aliases = Ok signature ->
  noChar ":" signature = true.
Proof.
  intros Hsig.
  destruct (descriptor_parts property aliases signature Hsig)
    as [tokens [returnToken [Htokens [Hsignature Hreturn]]]].
  subst signature.
  apply (mapM_Forall _ (fun part => noChar ":" part = true)) in Htokens;
    [ | intros x y; apply translateParamTypeToJniType_colon_free ].
  rewrite !noChar_app, (join_empty_plain ":" tokens Htokens).
  assert (noChar ":" returnToken = true) as ->.
  { destruct (m_name property =? "getConstants"); [now subst | ].
    apply (translateReturnTypeToJniType_colon_free _ _ Hreturn). }
  destruct (isPromise _); reflexivity.
Qed.

Lemma string_of_uint_colon_free d : noChar ":" (NilEmpty.string_of_uint d) = true.
Proof. induction d; simpl; auto. Qed.

Lemma thunkParts_clean {U : Utils} property aliases parts :
  plainName (m_name property) = true ->
  thunkParts property aliases = Ok parts ->
  cleanThunk ":" parts = true /\ cleanThunk "$" parts = true.
Proof.
  unfold plainName, thunkParts. intros Hname.
  apply andb_prop in Hname as [Hcolon Hdollar].
  destruct (isEmptyGetConstants _ _).
  - intros H; injection H as <-. split; reflexivity.
  - destruct (translateReturnTypeToKind _) as [kind | ] eqn:Hkind; cbn [bind];
      [ | discriminate].
    destruct (translateMethodTypeToJniSignature property aliases)
      as [signature | ] eqn:Hsig; cbn [bind]; [ | discriminate].
    intros H; injection H as <-.
    apply translateReturnTypeToKind_plain in Hkind as [Hk Hk'].
    pose proof (translateMethodTypeToJniSignature_colon_free _ _ _ Hsig) as Hs.
    pose proof (translateMethodTypeToJniSignature_plain _ _ _ Hsig) as Hs'.
    cbn [cleanThunk]. now rewrite Hk, Hk', Hcolon, Hdollar, Hs, Hs'.
Qed.

Lemma entryParts_clean property :
  plainName (m_name property) = true ->
  cleanEntry ":" (entryParts property) = true
  /\ cleanEntry "$" (entryParts property) = true.
Proof.
  unfold plainName, entryParts. intros Hname.
  apply andb_prop in Hname as [Hcolon Hdollar].
  destruct (isEmptyGetConstants _ _); [split; reflexivity | ].
  cbn [cleanEntry]. unfold Number_toString.
  now rewrite Hcolon, Hdollar, string_of_uint_colon_free, string_of_uint_plain.
Qed.

(** The emitter, read through the parts it fills in. *)
Lemma thunk_by_parts {U : Utils} property aliases :
  plainName (m_name property) = true ->
  translateMethodForImplementation property aliases
  = let* parts := thunkParts property aliases in Ok (sourceThunk parts).
Proof.
  unfold plainName, thunkParts, translateMethodForImplementation. intros Hname.
  apply andb_prop in Hname as [Hcolon Hdollar].
  destruct (isEmptyGetConstants _ _); [reflexivity | ].
  destruct (translateReturnTypeToKind _) as [kind | ] eqn:Hkind; cbn [bind];
    [ | reflexivity].
  apply translateReturnTypeToKind_plain in Hkind as [Hk Hk'].
  destruct (translateMethodTypeToJniSignature property aliases)
    as [signature | ] eqn:Hsig; cbn [bind]; [ | reflexivity].
  apply translateMethodTypeToJniSignature_plain in Hsig.
  apply (f_equal Ok).
  apply (thunk_filled kind (m_name property) _ signature Hk Hk' Hcolon Hdollar Hsig).
Qed.

Lemma entry_by_parts property :
  plainName (m_name property) = true ->
  propertyDef property = sourceEntry (entryParts property).
Proof.
  unfold plainName, entryParts, propertyDef. intros Hname.
  apply andb_prop in Hname as [Hcolon Hdollar].
  destruct (isEmptyGetConstants _ _); [reflexivity | ].
  cbn [sourceEntry].
  transitivity
    (replaceAll "::_ARGS_COUNT_::"
       (Number_toString (List.length (params (m_typeAnnotation property))))
       (entryWithName (m_name property))).
  - apply (f_equal (replaceAll "::_ARGS_COUNT_::" _)).
    exact (entry_name_filled _ Hdollar).
  - apply entry_count_filled; [exact Hcolon | apply string_of_uint_plain].
Qed.

Lemma thunks_by_parts {U : Utils} properties aliases :
  forallb (fun property => plainName (m_name property)) properties = true ->
  mapM (fun property => translateMethodForImplementation property aliases) properties
  = let* parts := mapM (fun property => thunkParts property aliases) properties in
    Ok (map sourceThunk parts).
Proof.
  induction properties as [ | property properties IH]; [reflexivity | ].
  intros H; apply andb_prop in H as [Hname Hnames].
  cbn [mapM]. rewrite (thunk_by_parts property aliases Hname), (IH Hnames).
  destruct (thunkParts property aliases) as [part | ]; cbn [bind]; [ | reflexivity].
  destruct (mapM (fun property => thunkParts property aliases) properties)
    as [parts | ]; reflexivity.
Qed.

Lemma thunkParts_all_clean {U : Utils} properties aliases parts :
  forallb (fun property => plainName (m_name property)) properties = true ->
  mapM (fun property => thunkParts property aliases) properties = Ok parts ->
  forallb (cleanThunk ":") parts = true /\ forallb (cleanThunk "$") parts = true.
Proof.
  revert parts. induction properties as [ | property properties IH]; intros parts.
  - intros _ H; injection H as <-. split; reflexivity.
  - intros H; apply andb_prop in H as [Hname Hnames]. cbn [mapM].
    destruct (thunkParts property aliases) as [part | ] eqn:Hpart; cbn [bind];
      [ | discriminate].
    destruct (mapM _ properties) as [rest | ]; cbn [bind]; [ | discriminate].
    intros H; injection H as <-.
    destruct (thunkParts_clean _ _ _ Hname Hpart) as [Hc Hd].
    destruct (IH rest Hnames eq_refl) as [Hcs Hds].
    cbn [forallb]. now rewrite Hc, Hd, Hcs, Hds.
Qed.

Lemma entryParts_all_clean properties :
  forallb (fun property => plainName (m_name property)) properties = true ->
  forallb (cleanEntry ":") (map entryParts properties) = true
  /\ forallb (cleanEntry "$") (map entryParts properties) = true.
Proof.
  induction properties as [ | property properties IH]; [split; reflexivity | ].
  intros H; apply andb_prop in H as [Hname Hnames].
  destruct (entryParts_clean _ Hname) as [Hc Hd].
  destruct (IH Hnames) as [Hcs Hds].
  cbn [map forallb]. now rewrite Hc, Hd, Hcs, Hds.
Qed.

(** The text of a module whose method names are plain. *)
Lemma moduleText_form {U : Utils} nativeModules name nativeModule :
  get name nativeModules = Some nativeModule ->
  noChar "$" name = true ->
  forallb (fun property => plainName (m_name property)) (properties nativeModule) = true ->
  moduleText nativeModules name
  = let* parts :=
      mapM (fun property => thunkParts property (aliases nativeModule))
           (properties nativeModule) in
    Ok (classText name
          (join nl (map (finalThunkOf name) parts))
          (join nl (map (finalEntryOf name) (map entryParts (properties nativeModule))))).
Proof.
  intros Hget Hname Hnames.
  unfold moduleText. rewrite Hget.
  rewrite (thunks_by_parts _ _ Hnames).
  destruct (mapM _ _) as [parts | ] eqn:Hparts; cbn [bind]; [ | reflexivity].
  destruct (thunkParts_all_clean _ _ _ Hnames Hparts) as [Hcolon Hdollar].
  destruct (entryParts_all_clean _ Hnames) as [Hecolon Hedollar].
  assert (map propertyDef (properties nativeModule)
          = map sourceEntry (map entryParts (properties nativeModule))) as ->.
  { rewrite map_map. apply map_ext_in. intros property Hin.
    apply entry_by_parts.
    apply (proj1 (forallb_forall _ _) Hnames property Hin). }
  apply (f_equal Ok).
  transitivity
    (replaceAll "::_MODULE_NAME_::" name
       (classWithEntries (join nl (map sourceThunk parts))
          (join nl (map sourceEntry (map entryParts (properties nativeModule)))))).
  - apply (f_equal (replaceAll "::_MODULE_NAME_::" name)).
    transitivity
      (replaceFirst "::_PROPERTIES_MAP_::"
         (join nl (map sourceEntry (map entryParts (properties nativeModule))))
         (classWithThunks (join nl (map sourceThunk parts)))).
    + apply (f_equal (replaceFirst "::_PROPERTIES_MAP_::" _)).
      apply class_thunks_filled.
      apply join_plain; [reflexivity | ].
      apply (forallb_map sourceThunk _ (cleanThunk "$")); [ | exact Hdollar].
      apply sourceThunk_plain.
    + apply class_entries_filled; [exact Hcolon | ].
      apply join_plain; [reflexivity | ].
      apply (forallb_map sourceEntry _ (cleanEntry "$")); [ | exact Hedollar].
      apply sourceEntry_plain.
  - apply class_module_filled; assumption.
Qed.

(** X15: the text of a module whose name holds no dollar sign and whose
    method names hold no colon and no dollar sign: the thunks of its methods
    in declaration order, each on the class of the module and with its own
    kind, name and descriptor, a blank line, and the constructor of the
    class with one registration entry for each method in the same order; a
    skipped method leaves an empty line in both places, and the first method
    that cannot be translated makes the module fail with its error. *)
Theorem moduleText_of_plain_names {U : Utils} nativeModules name nativeModule :
  get name nativeModules = Some nativeModule ->
  noChar "$" name = true ->
  forallb (fun property => plainName (m_name property)) (properties nativeModule) = true ->
  moduleText nativeModules name
  = let* parts :=
      mapM (fun property => thunkParts property (aliases nativeModule))
           (properties nativeModule) in
    Ok (classText name
          (join nl (map (finalThunkOf name) parts))
          (join nl (map (finalEntryOf name) (map entryParts (properties nativeModule))))).
Proof. exact (moduleText_form nativeModules name nativeModule). Qed.

Lemma moduleText_of_plain_names_witness :
  moduleText storeTable "Store"
  = Ok (classText "Store"
          (join nl
             [ finalThunk "Store" "PromiseKind" "save"
                 "(Ljava/lang/String;Lcom/facebook/react/bridge/ReadableMap;Lcom/facebook/react/bridge/Promise;)V";
               EmptyString;
               finalThunk "Store" "ArrayKind" "list"
                 "(Ljava/lang/Double;)Lcom/facebook/react/bridge/WritableArray;" ])
          (join nl
             [ finalEntry "Store" "save" "2";
               EmptyString;
               finalEntry "Store" "list" "1" ])).
Proof.
  rewrite (moduleText_of_plain_names storeTable "Store" storeModule eq_refl eq_refl eq_refl).
  reflexivity.
Defined.

(** ** The whole file *)

Lemma inert_empty : inert EmptyString.
Proof. intros q replacement rest. reflexivity. Qed.

Lemma inert_app a b : inert a -> inert b -> inert (a ++ b).
Proof.
  intros Ha Hb q replacement rest.
  now rewrite !append_assoc, Ha, Hb.
Qed.

Lemma inert_plain w : noChar ":" w = true -> inert w.
Proof. intros Hw q replacement rest. now apply replacePlain_app_plain. Qed.

Lemma inert_join parts : Forall inert parts -> inert (join nl parts).
Proof.
  induction 1 as [ | part parts Hpart _ IH]; [apply inert_empty | ].
  destruct parts as [ | next parts]; [exact Hpart | ].
  rewrite join_cons_cons.
  apply inert_app; [exact Hpart | ].
  apply inert_app; [now apply inert_plain | exact IH].
Qed.

Lemma inert_finalThunk moduleName kind name signature :
  noChar ":" moduleName = true ->
  noChar ":" kind = true ->
  noChar ":" name = true ->
  noChar ":" signature = true ->
  inert (finalThunk moduleName kind name signature).
Proof.
  intros Hm Hk Hn Hs q replacement rest.
  unfold finalThunk, nl, dquote.
  scan_text. reflexivity.
Qed.

Lemma inert_finalEntry moduleName name count :
  noChar ":" moduleName = true ->
  noChar ":" name = true ->
  noChar ":" count = true ->
  inert (finalEntry moduleName name count).
Proof.
  intros Hm Hn Hc q replacement rest.
  unfold finalEntry, dquote.
  scan_text. reflexivity.
Qed.

Lemma inert_lookupBlock name : noChar ":" name = true -> inert (lookupBlock name).
Proof.
  intros Hn q replacement rest.
  unfold lookupBlock, nl, dquote.
  scan_text. reflexivity.
Qed.

Lemma inert_classText moduleName thunks entries :
  noChar ":" moduleName = true ->
  inert thunks ->
  inert entries ->
  inert (classText moduleName thunks entries).
Proof.
  intros Hm Hthunks Hentries.
  unfold classText.
  apply inert_app; [exact Hthunks | ].
  assert (inert (nl ++ nl ++ "Native" ++ moduleName ++ "SpecJSI::Native" ++ moduleName
                    ++ "SpecJSI(const JavaTurboModule::InitParams &params)" ++ nl
                    ++ "  : JavaTurboModule(params) {" ++ nl)) as Hhead.
  { intros q replacement rest. unfold nl. scan_text. reflexivity. }
  assert (inert (nl ++ "}")) as Htail by (now apply inert_plain).
  pose proof (inert_app _ _ Hhead (inert_app _ _ Hentries Htail)) as H.
  rewrite !append_assoc in H. exact H.
Qed.

Ltac scan_file HM HK :=
  repeat (simpl; rewrite ?append_assoc;
          try (rewrite HM); try (rewrite HK);
          try (rewrite replacePlain_app_plain by assumption)).

Lemma file_modules_filled modulesText :
  noChar "$" modulesText = true ->
  replaceAll "::_MODULES_::" modulesText template
  = skeleton "::_INCLUDE_::" modulesText "::_LIBRARY_NAME_::" "::_MODULE_LOOKUP_::".
Proof.
  intros HM. rewrite (replaceAll_replacePlain _ _ _ HM).
  unfold template, skeleton, nl.
  scan_text. reflexivity.
Qed.

Lemma file_library_filled modulesText libraryName :
  inert modulesText ->
  noChar "$" libraryName = true ->
  replaceAll "::_LIBRARY_NAME_::" libraryName
    (skeleton "::_INCLUDE_::" modulesText "::_LIBRARY_NAME_::" "::_MODULE_LOOKUP_::")
  = skeleton "::_INCLUDE_::" modulesText libraryName "::_MODULE_LOOKUP_::".
Proof.
  intros HM Hlibrary. rewrite (replaceAll_replacePlain _ _ _ Hlibrary).
  unfold inert in HM. unfold skeleton, nl.
  scan_file HM HM. reflexivity.
Qed.

Lemma file_lookup_filled modulesText libraryName lookup :
  inert modulesText ->
  noChar ":" libraryName = true ->
  noChar "$" lookup = true ->
  replaceAll "::_MODULE_LOOKUP_::" lookup
    (skeleton "::_INCLUDE_::" modulesText libraryName "::_MODULE_LOOKUP_::")
  = skeleton "::_INCLUDE_::" modulesText libraryName lookup.
Proof.
  intros HM Hlibrary Hlookup. rewrite (replaceAll_replacePlain _ _ _ Hlookup).
  unfold inert in HM. unfold skeleton, nl.
  scan_file HM HM. reflexivity.
Qed.

Lemma file_include_filled modulesText libraryName lookup include :
  inert modulesText ->
  noChar ":" libraryName = true ->
  inert lookup ->
  noChar "$" include = true ->
  replaceAll "::_INCLUDE_::" include
    (skeleton "::_INCLUDE_::" modulesText libraryName lookup)
  = skeleton include modulesText libraryName lookup.
Proof.
  intros HM Hlibrary HK Hinclude. rewrite (replaceAll_replacePlain _ _ _ Hinclude).
  unfold inert in HM, HK. unfold skeleton, nl.
  scan_file HM HK. reflexivity.
Qed.

Lemma finalThunkOf_clean moduleName parts :
  plainName moduleName = true ->
  cleanThunk ":" parts = true ->
  cleanThunk "$" parts = true ->
  inert (finalThunkOf moduleName parts)
  /\ noChar "$" (finalThunkOf moduleName parts) = true.
Proof.
  unfold plainName. intros Hm; apply andb_prop in Hm as [Hm Hm'].
  destruct parts as [[[kind name] signature] | ]; cbn [cleanThunk finalThunkOf].
  2: { intros _ _. split; [apply inert_empty | reflexivity]. }
  intros H H'.
  apply andb_prop in H as [H Hs]; apply andb_prop in H as [Hk Hn].
  apply andb_prop in H' as [H' Hs']; apply andb_prop in H' as [Hk' Hn'].
  split; [now apply inert_finalThunk | ].
  unfold finalThunk. rewrite !noChar_app, Hm', Hk', Hn', Hs'. reflexivity.
Qed.

Lemma finalEntryOf_clean moduleName parts :
  plainName moduleName = true ->
  cleanEntry ":" parts = true ->
  cleanEntry "$" parts = true ->
  inert (finalEntryOf moduleName parts)
  /\ noChar "$" (finalEntryOf moduleName parts) = true.
Proof.
  unfold plainName. intros Hm; apply andb_prop in Hm as [Hm Hm'].
  destruct parts as [[name count] | ]; cbn [cleanEntry finalEntryOf].
  2: { intros _ _. split; [apply inert_empty | reflexivity]. }
  intros H H'.
  apply andb_prop in H as [Hn Hc]. apply andb_prop in H' as [Hn' Hc'].
  split; [now apply inert_finalEntry | ].
  unfold finalEntry. rewrite !noChar_app, Hm', Hn', Hc'. reflexivity.
Qed.

Lemma joined_texts_clean (texts : list string) :
  Forall (fun text => inert text /\ noChar "$" text = true) texts ->
  inert (join nl texts) /\ noChar "$" (join nl texts) = true.
Proof.
  intros Hall. split.
  - apply inert_join. apply (Forall_impl _ (fun text H => proj1 H) Hall).
  - apply join_plain; [reflexivity | ].
    apply forallb_forall. intros text Htext.
    exact (proj2 (proj1 (Forall_forall _ _) Hall text Htext)).
Qed.

Lemma joined_clean {A : Type} (f : A -> string) (colon dollar : A -> bool) l :
  (forall x, colon x = true -> dollar x = true ->
             inert (f x) /\ noChar "$" (f x) = true) ->
  forallb colon l = true ->
  forallb dollar l = true ->
  inert (join nl (map f l)) /\ noChar "$" (join nl (map f l)) = true.
Proof.
  intros Hf Hcolon Hdollar.
  apply joined_texts_clean, Forall_forall. intros text Htext.
  apply in_map_iff in Htext as [x [<- Hx]].
  apply Hf; [apply (proj1 (forallb_forall _ _) Hcolon x Hx)
            | apply (proj1 (forallb_forall _ _) Hdollar x Hx)].
Qed.

(** The text of a module with plain names is inert and holds no dollar
    sign. *)
Lemma moduleText_clean {U : Utils} nativeModules name nativeModule text :
  get name nativeModules = Some nativeModule ->
  plainName name = true ->
  forallb (fun property => plainName (m_name property)) (properties nativeModule) = true ->
  moduleText nativeModules name = Ok text ->
  inert text /\ noChar "$" text = true.
Proof.
  intros Hget Hname Hnames.
  pose proof Hname as Hname'. unfold plainName in Hname'.
  apply andb_prop in Hname' as [Hcolon Hdollar].
  rewrite (moduleText_form _ _ _ Hget Hdollar Hnames).
  destruct (mapM _ _) as [parts | ] eqn:Hparts; cbn [bind]; [ | discriminate].
  intros H; injection H as <-.
  destruct (thunkParts_all_clean _ _ _ Hnames Hparts) as [Hc Hd].
  destruct (entryParts_all_clean _ Hnames) as [Hec Hed].
  destruct (joined_clean (finalThunkOf name) (cleanThunk ":") (cleanThunk "$") parts
              (fun x => finalThunkOf_clean name x Hname) Hc Hd) as [Hti Htd].
  destruct (joined_clean (finalEntryOf name) (cleanEntry ":") (cleanEntry "$")
              (map entryParts (properties nativeModule))
              (fun x => finalEntryOf_clean name x Hname) Hec Hed) as [Hei Hed'].
  split; [now apply inert_classText | ].
  unfold classText. rewrite !noChar_app, Htd, Hed', Hdollar. reflexivity.
Qed.

Lemma lookupBlock_clean name :
  plainName name = true ->
  inert (lookupBlock name) /\ noChar "$" (lookupBlock name) = true.
Proof.
  unfold plainName. intros H; apply andb_prop in H as [Hcolon Hdollar].
  split; [now apply inert_lookupBlock | ].
  unfold lookupBlock. rewrite !noChar_app, Hdollar. reflexivity.
Qed.

Lemma lookup_blocks_filled (names : list string) :
  forallb plainName names = true ->
  map (fun name => replaceAll "::_MODULE_NAME_::" name oneModuleLookupTemplate) names
  = map lookupBlock names.
Proof.
  intros Hnames. apply map_ext_in. intros name Hname.
  apply lookup_block_filled.
  pose proof (proj1 (forallb_forall _ _) Hnames name Hname) as H.
  unfold plainName in H. now apply andb_prop in H as [_ H].
Qed.

Lemma mapM_Forall_in {A B : Type} (f : A -> result B) (P : B -> Prop) xs ys :
  (forall x y, In x xs -> f x = Ok y -> P y) ->
  mapM f xs = Ok ys -> Forall P ys.
Proof.
  revert ys; induction xs as [ | x xs IH]; simpl; intros ys Hf.
  - intros H; injection H as <-; constructor.
  - destruct (f x) as [y | ] eqn:Hy; simpl; [ | discriminate].
    destruct (mapM f xs) as [ys' | ]; simpl; [ | discriminate].
    intros H; injection H as <-.
    constructor; [apply (Hf x y (or_introl eq_refl) Hy) | ].
    apply IH; [ | reflexivity]. intros x' y' Hin. apply Hf. now right.
Qed.

(** The generated file for plain names. *)
Lemma generate_form {U : Utils} libraryName schema moduleSpecName :
  plainName libraryName = true ->
  noChar "$" moduleSpecName = true ->
  plainModules (flattenNativeModules schema) = true ->
  generate libraryName schema moduleSpecName
  = let* moduleTexts :=
      mapM (moduleText (flattenNativeModules schema))
           (Object_keys (flattenNativeModules schema)) in
    Ok [ (moduleSpecName ++ "-generated.cpp",
          skeleton (dquote ++ moduleSpecName ++ ".h" ++ dquote)
            (join nl moduleTexts) libraryName
            (join nl (map lookupBlock (Object_keys (flattenNativeModules schema))))) ].
Proof.
  intros Hlibrary Hspec Hplain.
  unfold plainName in Hlibrary. apply andb_prop in Hlibrary as [Hcolon Hdollar].
  unfold generate, moduleLookup.
  set (flat := flattenNativeModules schema) in *.
  destruct (mapM (moduleText flat) (Object_keys flat)) as [moduleTexts | ] eqn:Htexts;
    cbn [bind]; [ | reflexivity].
  assert (forallb plainName (Object_keys flat) = true) as Hkeys.
  { apply forallb_forall. intros name Hname.
    pose proof (proj1 (forallb_forall _ _) Hplain name Hname) as H.
    now apply andb_prop in H as [H _]. }
  rewrite (lookup_blocks_filled _ Hkeys).
  assert (Forall (fun text => inert text /\ noChar "$" text = true) moduleTexts)
    as Hclean.
  { refine (mapM_Forall_in (moduleText flat) _ (Object_keys flat) moduleTexts _ Htexts).
    intros name text Hname Htext.
    destruct (get_of_key flat name Hname) as [nativeModule Hget].
    pose proof (proj1 (forallb_forall _ _) Hplain name Hname) as H.
    cbv beta in H. rewrite Hget in H. apply andb_prop in H as [Hn Hms].
    exact (moduleText_clean flat name nativeModule text Hget Hn Hms Htext). }
  destruct (joined_texts_clean moduleTexts Hclean) as [HMi HMd].
  destruct (joined_clean lookupBlock plainName plainName (Object_keys flat)
              (fun name Hname _ => lookupBlock_clean name Hname) Hkeys Hkeys)
    as [HKi HKd].
  do 3 f_equal.
  transitivity
    (replaceAll "::_INCLUDE_::" (dquote ++ moduleSpecName ++ ".h" ++ dquote)
       (skeleton "::_INCLUDE_::" (join nl moduleTexts) libraryName
          (join nl (map lookupBlock (Object_keys flat))))).
  - apply (f_equal (replaceAll "::_INCLUDE_::" _)).
    transitivity
      (replaceAll "::_MODULE_LOOKUP_::" (join nl (map lookupBlock (Object_keys flat)))
         (skeleton "::_INCLUDE_::" (join nl moduleTexts) libraryName
            "::_MODULE_LOOKUP_::")).
    + apply (f_equal (replaceAll "::_MODULE_LOOKUP_::" _)).
      transitivity
        (replaceAll "::_LIBRARY_NAME_::" libraryName
           (skeleton "::_INCLUDE_::" (join nl moduleTexts) "::_LIBRARY_NAME_::"
              "::_MODULE_LOOKUP_::")).
      * apply (f_equal (replaceAll "::_LIBRARY_NAME_::" libraryName)).
        exact (file_modules_filled _ HMd).
      * exact (file_library_filled _ _ HMi Hdollar).
    + exact (file_lookup_filled _ _ _ HMi Hcolon HKd).
  - apply file_include_filled; try assumption.
    unfold dquote. rewrite !noChar_app, Hspec. reflexivity.
Qed.

(** X16: for a library name, module names and method names that hold no
    colon and no dollar sign, and a module spec name that holds no dollar
    sign, the generated file is the skeleton with the include of the spec
    header, the texts of the modules in enumeration order separated by line
    breaks, the provider function named after the library, and in its body
    one lookup block for each module in the same order and nothing after
    the last block; it fails with the error of the first module that
    fails. *)
Theorem generate_of_plain_names {U : Utils} libraryName schema moduleSpecName :
  plainName libraryName = true ->
  noChar "$" moduleSpecName = true ->
  plainModules (flattenNativeModules schema) = true ->
  generate libraryName schema moduleSpecName
  = let* moduleTexts :=
      mapM (moduleText (flattenNativeModules schema))
           (Object_keys (flattenNativeModules schema)) in
    Ok [ (moduleSpecName ++ "-generated.cpp",
          skeleton (dquote ++ moduleSpecName ++ ".h" ++ dquote)
            (join nl moduleTexts) libraryName
            (join nl (map lookupBlock (Object_keys (flattenNativeModules schema))))) ].
Proof. exact (generate_form libraryName schema moduleSpecName). Qed.

Lemma generate_of_plain_names_witness :
  generate "Sample" calcSchema "SampleSpec"
  = Ok [ ("SampleSpec" ++ "-generated.cpp",
          skeleton (dquote ++ "SampleSpec" ++ ".h" ++ dquote)
            (classText "Calc" (finalThunk "Calc" "NumberKind" "add" "(DD)D")
               (finalEntry "Calc" "add" "2"))
            "Sample" (lookupBlock "Calc")) ].
Proof.
  rewrite (generate_of_plain_names "Sample" calcSchema "SampleSpec"
             eq_refl eq_refl eq_refl).
  reflexivity.
Defined.

(** ** The order of emission *)

(** C8, as the code has it: the flattened table holds every module name
    other than [__proto__] once, at the place where the name was first met
    while flattening, with the definition of the group processed last among
    those that define it; and when no module name is an array index, the
    assembler builds the file from the texts of these modules and from their
    lookup blocks, both in that order. For names that hold no colon and no
    dollar sign the file is the skeleton with these texts and these blocks
    in their places. *)
Theorem flatten_last_write_first_seen {U : Utils} libraryName schema moduleSpecName :
  flattenNativeModules schema = mergedModules (groupTables schema)
  /\ (forall earlier table later name definition,
         groupTables schema = (earlier ++ table :: later)%list ->
         name <> "__proto__" ->
         get name table = Some definition ->
         (forall other, In other later -> get name other = None) ->
         get name (flattenNativeModules schema) = Some definition)
  /\ (plainTables (groupTables schema) = true ->
      generate libraryName schema moduleSpecName
      = let names := mergedNames (groupTables schema) in
        let* moduleTexts :=
          mapM (moduleText (mergedModules (groupTables schema))) names in
        Ok [ (moduleSpecName ++ "-generated.cpp",
              replaceAll "::_INCLUDE_::" (dquote ++ moduleSpecName ++ ".h" ++ dquote)
                (replaceAll "::_MODULE_LOOKUP_::"
                   (join nl
                      (map (fun name =>
                              replaceAll "::_MODULE_NAME_::" name oneModuleLookupTemplate)
                           names))
                   (replaceAll "::_LIBRARY_NAME_::" libraryName
                      (replaceAll "::_MODULES_::" (join nl moduleTexts) template)))) ])
  /\ (plainTables (groupTables schema) = true ->
      plainName libraryName = true ->
      noChar "$" moduleSpecName = true ->
      plainModules (mergedModules (groupTables schema)) = true ->
      generate libraryName schema moduleSpecName
      = let names := mergedNames (groupTables schema) in
        let* moduleTexts :=
          mapM (moduleText (mergedModules (groupTables schema))) names in
        Ok [ (moduleSpecName ++ "-generated.cpp",
              skeleton (dquote ++ moduleSpecName ++ ".h" ++ dquote)
                (join nl moduleTexts) libraryName
                (join nl (map lookupBlock names))) ]).
Proof.
  split; [apply flattened_merged | split; [ | split]].
  - intros earlier table later name definition Htables Hname Hget Hlater.
    rewrite get_flattened, Htables.
    apply String.eqb_neq in Hname. rewrite Hname.
    rewrite lastDefinition_app; simpl.
    rewrite (lastDefinition_none later name Hlater), Hget. reflexivity.
  - intros Hplain. unfold generate, moduleLookup.
    rewrite (Object_keys_flattened schema Hplain), flattened_merged.
    reflexivity.
  - intros Hplain Hlibrary Hspec Hmodules.
    rewrite <- flattened_merged in Hmodules.
    rewrite (generate_form libraryName schema moduleSpecName Hlibrary Hspec Hmodules).
    rewrite (Object_keys_flattened schema Hplain), flattened_merged.
    reflexivity.
Qed.

Lemma flatten_last_write_first_seen_witness :
  flattenNativeModules twoGroups
  = [("Calc", calcLater); ("Log", logModule); ("Store", mkNativeModule [] [saveMethod])]
  /\ get "Calc" (flattenNativeModules twoGroups) = Some calcLater
  /\ generate "Sample" twoGroups "SampleSpec"
     = (let names := ["Calc"; "Log"; "Store"] in
        let* moduleTexts :=
          mapM (moduleText
                  [("Calc", calcLater); ("Log", logModule);
                   ("Store", mkNativeModule [] [saveMethod])])
               names in
        Ok [ ("SampleSpec-generated.cpp",
              replaceAll "::_INCLUDE_::" (dquote ++ "SampleSpec.h" ++ dquote)
                (replaceAll "::_MODULE_LOOKUP_::"
                   (join nl
                      (map (fun name =>
                              replaceAll "::_MODULE_NAME_::" name oneModuleLookupTemplate)
                           names))
                   (replaceAll "::_LIBRARY_NAME_::" "Sample"
                      (replaceAll "::_MODULES_::" (join nl moduleTexts) template)))) ])
  /\ generate "Sample" twoGroups "SampleSpec"
     = (let* moduleTexts :=
          mapM (moduleText
                  [("Calc", calcLater); ("Log", logModule);
                   ("Store", mkNativeModule [] [saveMethod])])
               ["Calc"; "Log"; "Store"] in
        Ok [ ("SampleSpec-generated.cpp",
              skeleton (dquote ++ "SampleSpec.h" ++ dquote)
                (join nl moduleTexts) "Sample"
                (lookupBlock "Calc" ++ nl ++ lookupBlock "Log" ++ nl
                   ++ lookupBlock "Store")) ]).
Proof.
  destruct (flatten_last_write_first_seen "Sample" twoGroups "SampleSpec")
    as [Hmerged [Hlast [Horder Htext]]].
  split; [exact Hmerged | split; [ | split]].
  - apply (Hlast [firstTable] secondTable [] "Calc" calcLater eq_refl);
      [discriminate | reflexivity | intros other []].
  - exact (Horder eq_refl).
  - exact (Htext eq_refl eq_refl eq_refl eq_refl).
Defined.

(** C8 as stated fails: Settings is met first while flattening, and the
    module 2048, met second, is enumerated and emitted first; and a module
    named [__proto__], met while flattening, is not in the flattened table
    and gets no lookup block. *)
Lemma flatten_array_index_goes_first :
  concat (map Object_keys (groupTables indexNamed)) = ["Settings"; "2048"]
  /\ firstSeen (concat (map Object_keys (groupTables indexNamed)))
     = ["Settings"; "2048"]
  /\ Object_keys (flattenNativeModules indexNamed) = ["2048"; "Settings"]
  /\ moduleLookup (flattenNativeModules indexNamed)
     = lookupBlock "2048" ++ nl ++ lookupBlock "Settings"
  /\ concat (map Object_keys (groupTables protoSchema)) = ["Calc"; "__proto__"]
  /\ Object_keys (flattenNativeModules protoSchema) = ["Calc"]
  /\ moduleLookup (flattenNativeModules protoSchema) = lookupBlock "Calc".
Proof. repeat split. Qed.

(** ** Dollar signs in names *)

(** In a replacement text a pair of dollar signs stands for one. *)
Lemma GetSubstitution_dollar_pair matched str position s t :
  noChar "$" s = true ->
  noChar "$" t = true ->
  GetSubstitution matched str position (s ++ "$$" ++ t) = s ++ "$" ++ t.
Proof.
  intros Hs Ht. induction s as [ | c s IH].
  - cbn. rewrite (GetSubstitution_plain _ _ _ _ Ht). reflexivity.
  - simpl in Hs; apply andb_prop in Hs as [Hc Hs]; apply negb_true_iff in Hc.
    cbn [append GetSubstitution]. rewrite Hc.
    apply f_equal, IH, Hs.
Qed.

Lemma entry_name_dollar_pair s t :
  noChar "$" s = true ->
  noChar "$" t = true ->
  replaceAll "::_PROPERTY_NAME_::" (s ++ "$$" ++ t) propertyDefTemplate
  = entryWithName (s ++ "$" ++ t).
Proof.
  intros Hs Ht.
  rewrite (replaceAll_constant _ _ _ (s ++ "$" ++ t))
    by (intros n; apply GetSubstitution_dollar_pair; assumption).
  unfold propertyDefTemplate, entryWithName, dquote.
  scan_template. reflexivity.
Qed.

(** X17: a method name is not copied into the registration entry, it is
    read as a replacement text: for a name with one pair of dollar signs
    and no colon, the entry of a method that is not skipped holds the name
    with a single dollar sign, in the key and in the thunk name. *)
Theorem registration_entry_dollar_pair property s t :
  isEmptyGetConstants (m_name property)
    (returnTypeAnnotation (m_typeAnnotation property)) = false ->
  m_name property = s ++ "$$" ++ t ->
  plainName s = true ->
  plainName t = true ->
  propertyDef property
  = entryText (s ++ "$" ++ t)
      (Number_toString (List.length (params (m_typeAnnotation property)))).
Proof.
  intros Hskip Hname Hs Ht.
  apply andb_prop in Hs as [Hs Hs'], Ht as [Ht Ht'].
  unfold propertyDef. rewrite Hskip, Hname.
  transitivity
    (replaceAll "::_ARGS_COUNT_::"
       (Number_toString (List.length (params (m_typeAnnotation property))))
       (entryWithName (s ++ "$" ++ t))).
  - apply (f_equal (replaceAll "::_ARGS_COUNT_::" _)).
    exact (entry_name_dollar_pair s t Hs' Ht').
  - apply entry_count_filled; [ | apply string_of_uint_plain].
    rewrite !noChar_app, Hs, Ht; reflexivity.
Qed.

Lemma registration_entry_dollar_pair_witness :
  propertyDef pricedMethod = entryText "get$Price" "0".
Proof.
  apply (registration_entry_dollar_pair pricedMethod "get" "Price"); reflexivity.
Defined.

(** X18: the file generated for a module named [Shop$$Api] with a method
    named [get$$Price] holds neither name: the class, the lookup test, the
    thunk and the name handed to the Java call all carry a single dollar
    sign. *)
Theorem dollar_pairs_halved_in_file {U : Utils} :
  exists text,
    generate "Shop" pricedSchema "NativeShop" = Ok [("NativeShop-generated.cpp", text)]
    /\ occurs "$$" text = false
    /\ occurs ("moduleName == " ++ dquote ++ "Shop$Api" ++ dquote) text = true
    /\ occurs "std::make_shared<NativeShop$ApiSpecJSI>(params)" text = true
    /\ occurs "__hostFunction_NativeShop$ApiSpecJSI_get$Price(" text = true
    /\ occurs ("NumberKind, " ++ dquote ++ "get$Price" ++ dquote ++ ", " ++ dquote ++ "()D" ++ dquote)
         text = true
    /\ occurs ("methodMap_[" ++ dquote ++ "get$Price" ++ dquote ++ "] = MethodMetadata {0, ")
         text = true.
Proof.
  eexists; split; [vm_compute; reflexivity | ].
  vm_compute. split; [ | split; [ | split; [ | split; [ | split]]]]; reflexivity.
Qed.

(** ** Reserved scalars and methods without alias references *)

(** X19: the three translators treat a reserved scalar alike. For the name
    RootTag the kind is NumberKind and the token is D in return and in
    parameter position, nullable or not; for every other name all three
    throw the same error, which ends with the name. *)
Theorem reserved_scalar_in_every_position {U : Utils} a name nullable aliases :
  ta_type a = reservedTag ->
  if ta_name a =? "RootTag"
  then translateReturnTypeToKind a = Ok "NumberKind"
       /\ translateReturnTypeToJniType a = Ok "D"
       /\ translateParamTypeToJniType (mkParam name nullable a) aliases = Ok "D"
  else translateReturnTypeToKind a
       = Throw ("Invalid ReservedFunctionValueTypeName name, got " ++ ta_name a)
       /\ translateReturnTypeToJniType a
          = Throw ("Invalid ReservedFunctionValueTypeName name, got " ++ ta_name a)
       /\ translateParamTypeToJniType (mkParam name nullable a) aliases
          = Throw ("Invalid ReservedFunctionValueTypeName name, got " ++ ta_name a).
Proof.
  destruct a as [type aname anull props]; unfold reservedTag; simpl.
  intros ->.
  unfold translateReturnTypeToKind, translateReturnTypeToJniType,
    translateParamTypeToJniType; simpl.
  destruct (aname =? "RootTag"); simpl; repeat split; reflexivity.
Qed.

Lemma reserved_scalar_in_every_position_witness :
  (translateReturnTypeToKind (mkTypeAnnotation reservedTag "RootTag" true None)
   = Ok "NumberKind"
   /\ translateReturnTypeToJniType (mkTypeAnnotation reservedTag "RootTag" true None)
      = Ok "D"
   /\ translateParamTypeToJniType
        (mkParam "tag" true (mkTypeAnnotation reservedTag "RootTag" true None)) []
      = Ok "D")
  /\ translateParamTypeToJniType
       (mkParam "tag" false (mkTypeAnnotation reservedTag "Surface" false None)) []
     = Throw "Invalid ReservedFunctionValueTypeName name, got Surface".
Proof.
  split.
  - exact (reserved_scalar_in_every_position
             (mkTypeAnnotation reservedTag "RootTag" true None) "tag" true [] eq_refl).
  - exact (proj2 (proj2 (reserved_scalar_in_every_position
                           (mkTypeAnnotation reservedTag "Surface" false None)
                           "tag" false [] eq_refl))).
Defined.

Lemma mapM_ext_in {A B : Type} (f g : A -> result B) xs :
  (forall x, In x xs -> f x = g x) -> mapM f xs = mapM g xs.
Proof.
  induction xs as [ | x xs IH]; simpl; intros Hfg; [reflexivity | ].
  rewrite (Hfg x (or_introl eq_refl)), IH; [reflexivity | ].
  intros x' Hin; apply Hfg; right; exact Hin.
Qed.

Lemma translateParamTypeToJniType_without_reference {U U' : Utils} param aliases aliases' :
  (ta_type (p_typeAnnotation param) =? aliasTag) = false ->
  @translateParamTypeToJniType U param aliases
  = @translateParamTypeToJniType U' param aliases'.
Proof.
  unfold translateParamTypeToJniType, aliasTag. intros ->. reflexivity.
Qed.

(** X20: the alias table and the alias helper reach a thunk only through
    alias references: a method none of whose parameters is an alias
    reference gets the same thunk, or the same error, under every alias
    table and every helper. *)
Theorem thunk_without_references_ignores_aliases {U U' : Utils}
    property aliases aliases' :
  forallb (fun param => negb (ta_type (p_typeAnnotation param) =? aliasTag))
          (params (m_typeAnnotation property)) = true ->
  @translateMethodForImplementation U property aliases
  = @translateMethodForImplementation U' property aliases'.
Proof.
  intros Hparams.
  assert (Hargs :
            mapM (fun t => @translateParamTypeToJniType U t aliases)
                 (params (m_typeAnnotation property))
            = mapM (fun t => @translateParamTypeToJniType U' t aliases')
                   (params (m_typeAnnotation property))).
  { apply mapM_ext_in. intros param Hin.
    apply translateParamTypeToJniType_without_reference.
    rewrite forallb_forall in Hparams.
    apply negb_true_iff, Hparams, Hin. }
  unfold translateMethodForImplementation, translateMethodTypeToJniSignature,
    argsSignature.
  rewrite Hargs. reflexivity.
Qed.

Lemma thunk_without_references_ignores_aliases_witness :
  translateMethodForImplementation addMethod []
  = translateMethodForImplementation addMethod chainedAliases.
Proof.
  apply (thunk_without_references_ignores_aliases addMethod [] chainedAliases).
  reflexivity.
Defined.

(** ** A module named [__proto__] *)

(** X21: a module named [__proto__] never reaches the file. The schema that
    defines Calc and, beside it, a module [__proto__] whose one method no
    translator accepts generates the file of the schema that defines Calc
    alone: the method that cannot be translated is never looked at, and the
    file holds no class and no lookup block of that name. *)
Theorem proto_module_is_dropped {U : Utils} :
  get "__proto__" (flattenNativeModules protoSchema) = None
  /\ translateMethodForImplementation oddMethod []
     = Throw ("Unknown prop type for returning value, found: AnyTypeAnnotation" ++ dquote)
  /\ generate "Sample" protoSchema "SampleSpec"
     = Ok [("SampleSpec-generated.cpp", calcFile)]
  /\ generate "Sample" protoSchema "SampleSpec" = generate "Sample" calcSchema "SampleSpec"
  /\ occurs "__proto__" calcFile = false.
Proof.
  split; [reflexivity | split; [reflexivity | ]].
  split; [vm_compute; reflexivity | ].
  split; vm_compute; reflexivity.
Qed.

(** ** A method name that spells a placeholder *)

(** X22: the argument-name list reaches the thunk only through the method
    name. For the method named [$&_ARGS_$&] with the parameters width and
    height, the name is read as a replacement text and leaves the
    placeholder of the list in the text, so the computed list, which holds
    the second name and not the first, is part of the thunk. *)
Theorem argument_names_reach_text_through_name {U : Utils} :
  translatedArguments spelledMethod = "height:"
  /\ exists text,
      translateMethodForImplementation spelledMethod [] = Ok text
      /\ occurs "::_PROPERTY_NAME_:height:_PROPERTY_NAME_::" text = true
      /\ occurs "width" text = false
      /\ occurs "::_ARGS_::" text = false.
Proof.
  split; [reflexivity | ].
  eexists; split; [vm_compute; reflexivity | ].
  vm_compute. split; [ | split]; reflexivity.
Qed.
